(** * Crest View lunch menu: menu hierarchy, fragment parsers, week bucketer

    A shallow embedding of [src/models.ts] (menu hierarchy, temporal index,
    serialization) and of the two versions of the streaming scraper kept in
    the repository, followed by the properties proved about them.  The two
    versions share the colour table, the title normalizer and the week
    bucketer, statement for statement; they differ in the parser of a calendar
    fragment, which keeps its state in a local object in one version
    (module [Inline]) and in the [ScraperState] class in the other (module
    [Stateful]).

    Conventions of the embedding.
    - A JavaScript string is a [string] of 8-bit characters.  Case mapping,
      white space ([\s], [trim]) and digits are the ASCII ones; characters
      above 127 are carried through unchanged.  JavaScript's white space
      has characters outside ASCII: a statement about what [\s], [trim] or
      [parseInt] do to a text is made for ASCII text ([Js.is_ascii]).
    - A JavaScript [Date] is the number of its local calendar day, counted
      from 1970-01-01 (day 0, a Thursday).  Every date of the hierarchy is
      built at local noon, and the code only reads the calendar day of a
      date ([getDay], [format "yyyy-MM-dd"], [startOfWeek]), so the time of
      day is dropped.  Invalid dates are not represented: a statement about
      a date built from parsed numbers, or written out and read back, is
      made for the dates with a four-digit year ([date_ok]).
    - [date-fns]'s [format d "yyyy-MM-dd"] and [parseISO] are modelled on the
      dates with a four-digit year, 0001-01-01 to 9999-12-31 ([date_ok]).
    - [x ?? y] and optional fields become [option]; a method that mutates
      [this] becomes a function from state to state.

    Part III adds the remaining queries of the hierarchy, the choice of the
    days a layout shows ([src/index.ts]) and the entry points of the
    scraper.  A request to an endpoint is its outcome: the events of the
    response, or none when the request fails. *)

From Stdlib Require Import ZArith List String Ascii Bool Lia.
From Stdlib Require Import Permutation Sorted.
Import ListNotations.

Local Open Scope string_scope.
Local Open Scope list_scope.
Local Open Scope Z_scope.

(* ================================================================== *)
(** * Part I.  Definitions                                             *)
(* ================================================================== *)

(** ** JavaScript string primitives *)

Module Js.

(** [\s] and the characters removed by [trim], restricted to ASCII:
    TAB, LF, VT, FF, CR, SPACE. *)
Definition is_ws (c : ascii) : bool :=
  let n := nat_of_ascii c in
  (Nat.leb 9 n && Nat.leb n 13) || Nat.eqb n 32.

Definition lower_char (c : ascii) : ascii :=
  let n := nat_of_ascii c in
  if Nat.leb 65 n && Nat.leb n 90 then ascii_of_nat (n + 32) else c.

Definition upper_char (c : ascii) : ascii :=
  let n := nat_of_ascii c in
  if Nat.leb 97 n && Nat.leb n 122 then ascii_of_nat (n - 32) else c.

Fixpoint map_chars (f : ascii -> ascii) (s : string) : string :=
  match s with
  | EmptyString => EmptyString
  | String c s' => String (f c) (map_chars f s')
  end.

Definition toLowerCase : string -> string := map_chars lower_char.
Definition toUpperCase : string -> string := map_chars upper_char.

(** [s.includes(needle)] *)
Fixpoint includes (needle s : string) : bool :=
  if prefix needle s then true
  else match s with
       | EmptyString => false
       | String _ s' => includes needle s'
       end.

Fixpoint skip_ws (s : string) : string :=
  match s with
  | EmptyString => EmptyString
  | String c s' => if is_ws c then skip_ws s' else s
  end.

Fixpoint trimEnd (s : string) : string :=
  match s with
  | EmptyString => EmptyString
  | String c s' =>
      match trimEnd s' with
      | EmptyString => if is_ws c then EmptyString else String c EmptyString
      | t => String c t
      end
  end.

(** [s.trim()] *)
Definition trim (s : string) : string := trimEnd (skip_ws s).

(** The truth value of a string: only the empty string is falsy. *)
Definition truthy (s : string) : bool :=
  match s with EmptyString => false | _ => true end.

(** [a || b] on strings. *)
Definition or_else (a b : string) : string := if truthy a then a else b.

(** [element.getAttribute(name) || dflt]: a missing attribute is [null]. *)
Definition attr_or (a : option string) (dflt : string) : string :=
  match a with
  | Some s => or_else s dflt
  | None => dflt
  end.

(** [s.replace(/pat/g, rep)] for a literal, non-empty pattern: matches are
    taken left to right and do not overlap.  [skip] counts the characters of
    the current match still to be dropped. *)
Fixpoint replace_from (pat rep : string) (skip : nat) (s : string) : string :=
  match s with
  | EmptyString => EmptyString
  | String c s' =>
      match skip with
      | S k => replace_from pat rep k s'
      | O =>
          if prefix pat s
          then (rep ++ replace_from pat rep (Nat.pred (String.length pat)) s')%string
          else String c (replace_from pat rep O s')
      end
  end.

Definition replaceAll (pat rep s : string) : string := replace_from pat rep O s.

Fixpoint drop (n : nat) (s : string) : string :=
  match n, s with
  | O, _ => s
  | S k, String _ s' => drop k s'
  | S _, EmptyString => EmptyString
  end.

Fixpoint take_while (p : ascii -> bool) (s : string) : string :=
  match s with
  | EmptyString => EmptyString
  | String c s' => if p c then String c (take_while p s') else EmptyString
  end.

Fixpoint last_char (s : string) : string :=
  match s with
  | EmptyString => EmptyString
  | String c EmptyString => String c EmptyString
  | String _ s' => last_char s'
  end.

Definition digit_val (c : ascii) : option Z :=
  let n := nat_of_ascii c in
  if Nat.leb 48 n && Nat.leb n 57 then Some (Z.of_nat (n - 48)) else None.

Fixpoint digits_from (acc : option Z) (s : string) : option Z :=
  match s with
  | EmptyString => acc
  | String c s' =>
      match digit_val c with
      | Some v =>
          digits_from (Some (10 * match acc with Some a => a | None => 0 end + v)) s'
      | None => acc
      end
  end.

(** [parseInt(s, 10)]; [None] is [NaN]. *)
Definition parseInt (s : string) : option Z :=
  match skip_ws s with
  | String "-" r => option_map Z.opp (digits_from None r)
  | String "+" r => digits_from None r
  | r => digits_from None r
  end.


Definition num_ge (x : option Z) (k : Z) : bool :=
  match x with Some v => v >=? k | None => false end.

(** The texts of ASCII characters, on which white space, case mapping and
    digits are those of JavaScript. *)
Fixpoint is_ascii (s : string) : bool :=
  match s with
  | EmptyString => true
  | String c s' => Nat.ltb (nat_of_ascii c) 128 && is_ascii s'
  end.

(** An attribute that is missing or holds ASCII text. *)
Definition ascii_attr (a : option string) : bool :=
  match a with
  | Some s => is_ascii s
  | None => true
  end.

End Js.

(** ** Calendar dates *)

Module Cal.

(** A date is the number of its calendar day; day 0 is 1970-01-01. *)
Definition Date := Z.

(** Days since the first of March of year 0 of a 400-year era. *)
Definition doe_of_civil (yoe m d : Z) : Z :=
  let mp := if m >? 2 then m - 3 else m + 9 in
  let doy := (153 * mp + 2) / 5 + d - 1 in
  yoe * 365 + yoe / 4 - yoe / 100 + doy.

(** Day number of the proleptic Gregorian date [y]-[m]-[d]. *)
Definition days_from_civil (y m d : Z) : Date :=
  let y' := if m <=? 2 then y - 1 else y in
  (y' / 400) * 146097 + doe_of_civil (y' mod 400) m d - 719468.

Definition civil_of_doe (doe : Z) : Z * Z * Z :=
  let yoe := (doe - doe / 1460 + doe / 36524 - doe / 146096) / 365 in
  let doy := doe - (365 * yoe + yoe / 4 - yoe / 100) in
  let mp := (5 * doy + 2) / 153 in
  let d := doy - (153 * mp + 2) / 5 + 1 in
  let m := if mp <? 10 then mp + 3 else mp - 9 in
  (if m <=? 2 then yoe + 1 else yoe, m, d).

(** Year, month (1..12) and day of the month of a date. *)
Definition civil_from_days (z : Date) : Z * Z * Z :=
  let z' := z + 719468 in
  let '(y, m, d) := civil_of_doe (z' mod 146097) in
  (y + (z' / 146097) * 400, m, d).

Definition is_leap (y : Z) : bool :=
  ((y mod 4 =? 0) && negb (y mod 100 =? 0)) || (y mod 400 =? 0).

Definition days_in_month (y m : Z) : Z :=
  if m =? 2 then (if is_leap y then 29 else 28)
  else if (m =? 4) || (m =? 6) || (m =? 9) || (m =? 11) then 30 else 31.

(** [new Date(year, monthIndex, day)]: a year from 0 to 99 means 1900 + year,
    and the month index and the day overflow into the following months. *)
Definition newDate (year monthIndex day : Z) : Date :=
  let y := if (0 <=? year) && (year <=? 99) then 1900 + year else year in
  days_from_civil (y + monthIndex / 12) (monthIndex mod 12 + 1) 1 + (day - 1).

(** [d.getDay()]: 0 is Sunday, 6 is Saturday. *)
Definition getDay (d : Date) : Z := (d + 4) mod 7.

(** [x.setDate(x.getDate() + k)] *)
Definition addDays (d : Date) (k : Z) : Date := d + k.

Definition digit_char (n : Z) : ascii := ascii_of_nat (48 + Z.to_nat n).

Definition pad2 (n : Z) : string :=
  String (digit_char (n / 10 mod 10)) (String (digit_char (n mod 10)) EmptyString).

Definition pad4 (n : Z) : string :=
  String (digit_char (n / 1000 mod 10))
    (String (digit_char (n / 100 mod 10)) (pad2 n)).

(** [format(d, "yyyy-MM-dd")] *)
Definition format (d : Date) : string :=
  let '(y, m, dd) := civil_from_days d in
  (pad4 y ++ "-" ++ pad2 m ++ "-" ++ pad2 dd)%string.

Definition min_date : Date := days_from_civil 1 1 1.
Definition max_date : Date := days_from_civil 9999 12 31.

(** The dates on which [format] renders a four-digit year. *)
Definition date_ok (d : Date) : Prop := min_date <= d <= max_date.

Definition num2 (a b : ascii) : option Z :=
  match Js.digit_val a, Js.digit_val b with
  | Some x, Some y => Some (10 * x + y)
  | _, _ => None
  end.

(** The date written [YYYY-MM-DD]; [None] when the text has another shape or
    names no calendar day. *)
Definition parse_date (s : string) : option Date :=
  match s with
  | String y3 (String y2 (String y1 (String y0 (String "-"
      (String m1 (String m0 (String "-" (String d1 (String d0 EmptyString))))))))) =>
      match num2 y3 y2, num2 y1 y0, num2 m1 m0, num2 d1 d0 with
      | Some yh, Some yl, Some m, Some d =>
          let y := 100 * yh + yl in
          if (1 <=? m) && (m <=? 12) && (1 <=? d) && (d <=? days_in_month y m)
          then Some (days_from_civil y m d)
          else None
      | _, _, _, _ => None
      end
  | _ => None
  end.

(** [parseISO(s)] for the texts the models build, a date followed by
    [T12:00:00]. *)
Definition parseISO (s : string) : option Date :=
  if String.eqb (Js.drop 10 s) "T12:00:00"
  then parse_date (substring 0 10 s)
  else None.

(** [startOfWeek(d, { weekStartsOn: 1 })] *)
Definition startOfWeek (d : Date) : Date :=
  let day := getDay d in
  let diff := (if day <? 1 then 7 else 0) + day - 1 in
  addDays d (- diff).

(** [endOfWeek(d, { weekStartsOn: 1 })] *)
Definition endOfWeek (d : Date) : Date :=
  let day := getDay d in
  let diff := (if day <? 1 then -7 else 0) + 6 - (day - 1) in
  addDays d diff.

(** [isSameWeek(a, b, { weekStartsOn: 1 })] *)
Definition isSameWeek (a b : Date) : bool := startOfWeek a =? startOfWeek b.


(** *** Notions used to state the calendar's properties *)

Definition leapP (y : Z) : Prop :=
  (y mod 4 = 0 /\ y mod 100 <> 0) \/ y mod 400 = 0.

(** The year of the era and the day of its (March-based) year. *)
Definition yoe_of (doe : Z) : Z :=
  (doe - doe / 1460 + doe / 36524 - doe / 146096) / 365.

Definition yday (yoe : Z) : Z := 365 * yoe + yoe / 4 - yoe / 100.

(** Month and day of the month from the day of a March-based year. *)
Definition md_of_doy (doy : Z) : Z * Z :=
  let mp := (5 * doy + 2) / 153 in
  (if mp <? 10 then mp + 3 else mp - 9, doy - (153 * mp + 2) / 5 + 1).

Definition doy_of_md (m d : Z) : Z :=
  (153 * (if m >? 2 then m - 3 else m + 9) + 2) / 5 + d - 1.

Definition valid_civil (c : Z * Z * Z) : Prop :=
  let '(y, m, d) := c in 1 <= m <= 12 /\ 1 <= d <= days_in_month y m.

(** Days before the first of March of year [y]. *)
Definition march_days (y : Z) : Z := 365 * y + y / 4 - y / 100 + y / 400.

Definition lex_lt (a b : Z * Z * Z) : Prop :=
  let '(y1, m1, d1) := a in
  let '(y2, m2, d2) := b in
  y1 < y2 \/ (y1 = y2 /\ (m1 < m2 \/ (m1 = m2 /\ d1 < d2))).

End Cal.

(** ** The menu hierarchy ([src/models.ts]) *)

Inductive MealType := BREAKFAST | LUNCH | SNACK.

Inductive FoodCategory :=
| MAIN_ENTREE
| VEGETARIAN_ENTREE
| ELEMENTARY_SECONDARY_SECOND_CHOICE
| ELEMENTARY_SECONDARY_SIDE_DISH
| AFTERSCHOOL_SNACK
| PRESCHOOL_SNACK
| SAC_SNACK
| OTHER.

(** [Record<string, unknown>]: an opaque list of key-value pairs. *)
Definition NutritionalInfo := list (string * string).

(** [MenuItemData]: every field but the name may be left out.  It is also
    the shape [MenuItem.toJSON] produces and [MenuItem.fromJSON] reads. *)
Record MenuItemData := mkMenuItemData {
  d_name : string;
  d_description : option string;
  d_category : option FoodCategory;
  d_isVegetarian : option bool;
  d_isVegan : option bool;
  d_allergens : option (list string);
  d_nutritionalInfo : option NutritionalInfo
}.

Record MenuItem := mkMenuItem {
  name : string;
  description : option string;
  category : FoodCategory;
  isVegetarian : bool;
  isVegan : bool;
  allergens : list string;
  nutritionalInfo : NutritionalInfo
}.

(** [a ?? b] *)
Definition nullish {A : Type} (a : option A) (b : A) : A :=
  match a with Some x => x | None => b end.

Definition veganTerms : list string := ["vegan"; "plant forward"; "plant-based"].

Definition vegetarianTerms : list string :=
  ["vegetarian"; "veggie"; "tofu"; "bean"; "lentil"].

(** [new MenuItem(data)] *)
Definition MenuItem_new (data : MenuItemData) : MenuItem :=
  let nameLower := Js.toLowerCase (d_name data) in
  let isVegan :=
    nullish (d_isVegan data)
            (existsb (fun term => Js.includes term nameLower) veganTerms) in
  let isVegetarian :=
    nullish (d_isVegetarian data)
            (isVegan || existsb (fun term => Js.includes term nameLower) vegetarianTerms) in
  {| name := d_name data;
     description := d_description data;
     category := nullish (d_category data) OTHER;
     isVegetarian := isVegetarian;
     isVegan := isVegan;
     allergens := nullish (d_allergens data) [];
     nutritionalInfo := nullish (d_nutritionalInfo data) [] |}.

Definition MenuItem_toJSON (item : MenuItem) : MenuItemData :=
  {| d_name := name item;
     d_description := description item;
     d_category := Some (category item);
     d_isVegetarian := Some (isVegetarian item);
     d_isVegan := Some (isVegan item);
     d_allergens := Some (allergens item);
     d_nutritionalInfo := Some (nutritionalInfo item) |}.

Definition MenuItem_fromJSON (data : MenuItemData) : MenuItem := MenuItem_new data.

Record DailyMenu := mkDailyMenu {
  date : Cal.Date;
  mealType : MealType;
  menuItems : list MenuItem;
  specialNotes : list string;
  isSchoolDay : bool
}.

(** [DailyMenuData]; the date is an ISO date string. *)
Record DailyMenuData := mkDailyMenuData {
  dd_date : string;
  dd_mealType : MealType;
  dd_menuItems : option (list MenuItem);
  dd_specialNotes : option (list string);
  dd_isSchoolDay : option bool
}.

(** [new DailyMenu(data)].  The date is read at noon; the result is [None]
    when the text is not a [YYYY-MM-DD] date, which the source turns into an
    invalid [Date]. *)
Definition DailyMenu_new (data : DailyMenuData) : option DailyMenu :=
  match Cal.parseISO (dd_date data ++ "T12:00:00") with
  | Some d =>
      Some {| date := d;
              mealType := dd_mealType data;
              menuItems := nullish (dd_menuItems data) [];
              specialNotes := nullish (dd_specialNotes data) [];
              isSchoolDay := nullish (dd_isSchoolDay data) true |}
  | None => None
  end.

(** [new DailyMenu({ date: format(d, "yyyy-MM-dd"), mealType, menuItems })]
    as the scrapers call it.  For a day of the four-digit range the
    constructor reads back the day it was given ([DailyMenu_new_format]
    below); the embedding stores the day as it is. *)
Definition DailyMenu_on (d : Cal.Date) (mt : MealType) (items : list MenuItem)
  : DailyMenu :=
  {| date := d; mealType := mt; menuItems := items;
     specialNotes := []; isSchoolDay := true |}.

(** The plain object [DailyMenu.toJSON] returns and [DailyMenu.fromJSON]
    reads. *)
Record DailyMenuJSON := mkDailyMenuJSON {
  j_date : string;
  j_mealType : MealType;
  j_menuItems : option (list MenuItemData);
  j_specialNotes : option (list string);
  j_isSchoolDay : option bool
}.

Definition DailyMenu_toJSON (m : DailyMenu) : DailyMenuJSON :=
  {| j_date := Cal.format (date m);
     j_mealType := mealType m;
     j_menuItems := Some (map MenuItem_toJSON (menuItems m));
     j_specialNotes := Some (specialNotes m);
     j_isSchoolDay := Some (isSchoolDay m) |}.

Definition DailyMenu_fromJSON (data : DailyMenuJSON) : option DailyMenu :=
  DailyMenu_new
    {| dd_date := j_date data;
       dd_mealType := j_mealType data;
       dd_menuItems :=
         Some (match j_menuItems data with
               | Some items => map MenuItem_fromJSON items
               | None => []
               end);
       dd_specialNotes := j_specialNotes data;
       dd_isSchoolDay := j_isSchoolDay data |}.

Record WeeklyMenu := mkWeeklyMenu {
  startDate : Cal.Date;
  endDate : Cal.Date;
  dailyMenus : list DailyMenu
}.

Record WeeklyMenuData := mkWeeklyMenuData {
  wd_startDate : string;
  wd_endDate : string;
  wd_dailyMenus : option (list DailyMenu)
}.

(** [new WeeklyMenu(data)] *)
Definition WeeklyMenu_new (data : WeeklyMenuData) : option WeeklyMenu :=
  match Cal.parseISO (wd_startDate data ++ "T12:00:00"),
        Cal.parseISO (wd_endDate data ++ "T12:00:00") with
  | Some s, Some e =>
      Some {| startDate := s; endDate := e;
              dailyMenus := nullish (wd_dailyMenus data) [] |}
  | _, _ => None
  end.

(** [new WeeklyMenu({ startDate: format(s, ...), endDate: format(e, ...),
    dailyMenus })] as the week bucketer calls it.  For days of the four-digit
    range the constructor reads back the two days it was given
    ([WeeklyMenu_new_format] below); the embedding stores them as they are. *)
Definition WeeklyMenu_on (s e : Cal.Date) (menus : list DailyMenu) : WeeklyMenu :=
  {| startDate := s; endDate := e; dailyMenus := menus |}.

Record WeeklyMenuJSON := mkWeeklyMenuJSON {
  j_startDate : string;
  j_endDate : string;
  j_dailyMenus : option (list DailyMenuJSON)
}.

Definition WeeklyMenu_toJSON (w : WeeklyMenu) : WeeklyMenuJSON :=
  {| j_startDate := Cal.format (startDate w);
     j_endDate := Cal.format (endDate w);
     j_dailyMenus := Some (map DailyMenu_toJSON (dailyMenus w)) |}.

(** [xs.map(f)] when [f] may fail: the first failure aborts the whole map. *)
Fixpoint map_opt {A B : Type} (f : A -> option B) (l : list A) : option (list B) :=
  match l with
  | [] => Some []
  | x :: l' =>
      match f x with
      | Some y =>
          match map_opt f l' with
          | Some ys => Some (y :: ys)
          | None => None
          end
      | None => None
      end
  end.

Definition WeeklyMenu_fromJSON (data : WeeklyMenuJSON) : option WeeklyMenu :=
  match (match j_dailyMenus data with
         | Some menus => map_opt DailyMenu_fromJSON menus
         | None => Some []
         end) with
  | Some menus =>
      WeeklyMenu_new {| wd_startDate := j_startDate data;
                        wd_endDate := j_endDate data;
                        wd_dailyMenus := Some menus |}
  | None => None
  end.

Record MonthlyMenu := mkMonthlyMenu {
  year : Z;
  month : Z;
  weeklyMenus : list WeeklyMenu
}.

Record MonthlyMenuJSON := mkMonthlyMenuJSON {
  j_year : Z;
  j_month : Z;
  j_weeklyMenus : option (list WeeklyMenuJSON)
}.

Definition MonthlyMenu_toJSON (mm : MonthlyMenu) : MonthlyMenuJSON :=
  {| j_year := year mm;
     j_month := month mm;
     j_weeklyMenus := Some (map WeeklyMenu_toJSON (weeklyMenus mm)) |}.

Definition MonthlyMenu_fromJSON (data : MonthlyMenuJSON) : option MonthlyMenu :=
  match (match j_weeklyMenus data with
         | Some menus => map_opt WeeklyMenu_fromJSON menus
         | None => Some []
         end) with
  | Some menus =>
      Some {| year := j_year data; month := j_month data; weeklyMenus := menus |}
  | None => None
  end.

(** [MonthlyMenu.getAllDailyMenus] *)
Definition getAllDailyMenus (mm : MonthlyMenu) : list DailyMenu :=
  flat_map dailyMenus (weeklyMenus mm).

(** [a >= b] and [a <= b] on strings compare code units in order. *)
Definition str_ge (a b : string) : bool := String.leb b a.
Definition str_le (a b : string) : bool := String.leb a b.

(** [MonthlyMenu.getWeeklyMenuForDate]; [None] is [null]. *)
Definition getWeeklyMenuForDate (mm : MonthlyMenu) (targetDate : Cal.Date)
  : option WeeklyMenu :=
  let dayOfWeek := Cal.getDay targetDate in
  let isWeekend := (dayOfWeek =? 0) || (dayOfWeek =? 6) in
  if isWeekend then
    let daysUntilMonday := if dayOfWeek =? 0 then 1 else 2 in
    let nextMonday := Cal.addDays targetDate daysUntilMonday in
    let nextMondayStr := Cal.format nextMonday in
    find (fun menu => str_ge (Cal.format (startDate menu)) nextMondayStr)
         (weeklyMenus mm)
  else
    let targetDateStr := Cal.format targetDate in
    find (fun menu =>
            str_le (Cal.format (startDate menu)) targetDateStr
            && str_ge (Cal.format (endDate menu)) targetDateStr)
         (weeklyMenus mm).

(** ** The streaming scraper: parts shared by its two versions *)

(** The tag-open events the [HTMLRewriter] handlers receive, in document
    order, each with the attributes its handler reads ([None]: the attribute
    is missing). *)
Inductive Event :=
| Daybox (class : option string)                  (* div.fsCalendarDaybox *)
| DateEl (dataDay dataMonth dataYear : option string) (* div.fsCalendarDate *)
| Info                                            (* div.fsCalendarInfo *)
| ColorIcon (style : option string)               (* span.fsElementEventColorIcon *)
| EventTitle (title : option string).             (* a.fsCalendarEventTitle *)

(** [StreamingScraper.COLOR_MAPPINGS] *)
Definition COLOR_MAPPINGS (color : string) : option FoodCategory :=
  if String.eqb color "#220AFD" then Some MAIN_ENTREE
  else if String.eqb color "#52B73E" then Some VEGETARIAN_ENTREE
  else if String.eqb color "#000000" then Some ELEMENTARY_SECONDARY_SECOND_CHOICE
  else if String.eqb color "#EFE013" then Some ELEMENTARY_SECONDARY_SIDE_DISH
  else if String.eqb color "#BC0945" then Some MAIN_ENTREE
  else if String.eqb color "#F90303" then Some AFTERSCHOOL_SNACK
  else if String.eqb color "#651594" then Some PRESCHOOL_SNACK
  else if String.eqb color "#247632" then Some SAC_SNACK
  else None.

(** One attempt of [/background:\s*([^;]+)/] at the start of [s]: the
    captured group.  [\s*] is greedy; when nothing but [;] or the end
    follows the white space, it gives back its last character to the group. *)
Definition background_here (s : string) : option string :=
  if prefix "background:" s then
    let r := Js.drop 11 s in
    let grp := Js.take_while (fun c => negb (Ascii.eqb c ";")) (Js.skip_ws r) in
    if Js.truthy grp then Some grp
    else
      let ws := Js.take_while Js.is_ws r in
      if Js.truthy ws then Some (Js.last_char ws) else None
  else None.

(** [style.match(/background:\s*([^;]+)/)]: the group of the leftmost match. *)
Fixpoint match_background (s : string) : option string :=
  match background_here s with
  | Some g => Some g
  | None =>
      match s with
      | EmptyString => None
      | String _ s' => match_background s'
      end
  end.

(** The colour-icon handler up to the state update: the category to set, or
    [None] when the style holds no background. *)
Definition categoryOfStyle (style : option string) : option FoodCategory :=
  match match_background (Js.attr_or style EmptyString) with
  | Some g =>
      let color := Js.toUpperCase (Js.trim g) in
      Some (nullish (COLOR_MAPPINGS color) OTHER)
  | None => None
  end.

(** The date handler up to the state update: [adjustedMonth] and the date
    built when the three components pass the test. *)
Definition adjustedMonth (month : option Z) : Z :=
  match month with
  | Some m => if m >=? 0 then m + 1 else 0
  | None => 0
  end.

Definition dateOfComponents (day month year : option Z) : option Cal.Date :=
  match day, year with
  | Some d, Some y =>
      if (d >? 0) && (adjustedMonth month >? 0) && (y >? 0)
      then Some (Cal.newDate y (adjustedMonth month - 1) d)
      else None
  | _, _ => None
  end.

Definition dateOfAttributes (dataDay dataMonth dataYear : option string)
  : option Cal.Date :=
  dateOfComponents (Js.parseInt (Js.attr_or dataDay "0"))
                   (Js.parseInt (Js.attr_or dataMonth "0"))
                   (Js.parseInt (Js.attr_or dataYear "0")).

Definition quote : string := String (ascii_of_nat 34) EmptyString.

(** The entity decoding of the title handler. *)
Definition decodeEntities (title : string) : string :=
  Js.replaceAll "&quot;" quote
    (Js.replaceAll "&#39;" "'" (Js.replaceAll "&amp;" "&" title)).

(** One attempt of [/\s+with\s+/] at the start of [s]. *)
Definition separator_here (s : string) : bool :=
  match s with
  | EmptyString => false
  | String c s' =>
      Js.is_ws c
      && (let r := Js.skip_ws s' in
          prefix "with" r
          && match Js.drop 4 r with
             | String c' _ => Js.is_ws c'
             | EmptyString => false
             end)
  end.

(** [parts[0]] of [s.split(/\s+with\s+/)] when the separator matches: the
    text before the leftmost match. *)
Fixpoint before_separator (s : string) : option string :=
  if separator_here s then Some EmptyString
  else match s with
       | EmptyString => None
       | String c s' => option_map (String c) (before_separator s')
       end.

Definition cleanText (text : string) : string :=
  Js.replaceAll "&#39;" "'" (Js.replaceAll "&amp;" "&" text).

(** [parseMenuItemText], the same in both versions: name and description. *)
Definition parseMenuItemText (text : string) : string * string :=
  let clean := cleanText text in
  match before_separator clean with
  | Some part0 => (Js.trim part0, clean)
  | None => (clean, clean)
  end.

(** The fresh item of the item-info handler. *)
Definition emptyMenuItem : MenuItemData :=
  {| d_name := EmptyString;
     d_description := Some EmptyString;
     d_category := Some OTHER;
     d_isVegetarian := None;
     d_isVegan := None;
     d_allergens := Some [];
     d_nutritionalInfo := Some [] |}.

Definition setCategory (c : FoodCategory) (it : MenuItemData) : MenuItemData :=
  {| d_name := d_name it;
     d_description := d_description it;
     d_category := Some c;
     d_isVegetarian := d_isVegetarian it;
     d_isVegan := d_isVegan it;
     d_allergens := d_allergens it;
     d_nutritionalInfo := d_nutritionalInfo it |}.

Definition setNameDescription (nd : string * string) (it : MenuItemData)
  : MenuItemData :=
  {| d_name := fst nd;
     d_description := Some (snd nd);
     d_category := d_category it;
     d_isVegetarian := d_isVegetarian it;
     d_isVegan := d_isVegan it;
     d_allergens := d_allergens it;
     d_nutritionalInfo := d_nutritionalInfo it |}.

(** ** The inline-state parser ([parseCalendarFragment] keeping its state in
    a local object) *)

Module Inline.

Record DayBox := mkDayBox {
  box_date : option Cal.Date;
  box_menuItems : list MenuItemData
}.

Record State := mkState {
  currentDayBox : option DayBox;
  currentMenuItem : option MenuItemData;
  dayBoxes : list DayBox
}.

Definition init : State :=
  {| currentDayBox := None; currentMenuItem := None; dayBoxes := [] |}.

Definition isAdminAnnouncement (title : string) : bool :=
  let lowerTitle := Js.toLowerCase title in
  Js.includes "no school" lowerTitle
  || Js.includes "winter break" lowerTitle
  || Js.includes "last day of school" lowerTitle
  || Js.includes "memorial day" lowerTitle
  || Js.includes "teacher" lowerTitle
  || Js.includes "spring break" lowerTitle
  || Js.includes "quarter ends" lowerTitle.

(** The pending item is pushed when it has a name. *)
Definition pushPending (item : option MenuItemData) (box : DayBox) : DayBox :=
  match item with
  | Some it =>
      if Js.truthy (d_name it)
      then {| box_date := box_date box;
              box_menuItems := box_menuItems box ++ [it] |}
      else box
  | None => box
  end.

Definition hasValidData (box : DayBox) : bool :=
  match box_date box with
  | Some _ => (0 <? Z.of_nat (List.length (box_menuItems box)))
  | None => false
  end.

(** "Complete previous day box if we have one": the list of saved boxes. *)
Definition completeDayBox (st : State) : list DayBox :=
  match currentDayBox st with
  | Some box =>
      let box' := pushPending (currentMenuItem st) box in
      if hasValidData box' then dayBoxes st ++ [box'] else dayBoxes st
  | None => dayBoxes st
  end.

Definition onDaybox (class : option string) (st : State) : State :=
  let saved := completeDayBox st in
  let classNames := Js.attr_or class EmptyString in
  if Js.includes "fsCalendarWeekendDayBox" classNames then
    {| currentDayBox := None; currentMenuItem := None; dayBoxes := saved |}
  else if Js.includes "fsStateHasEvents" classNames then
    {| currentDayBox := Some {| box_date := None; box_menuItems := [] |};
       currentMenuItem := None; dayBoxes := saved |}
  else
    {| currentDayBox := None; currentMenuItem := None; dayBoxes := saved |}.

Definition onDate (dataDay dataMonth dataYear : option string) (st : State)
  : State :=
  match dateOfAttributes dataDay dataMonth dataYear, currentDayBox st with
  | Some d, Some box =>
      {| currentDayBox := Some {| box_date := Some d;
                                  box_menuItems := box_menuItems box |};
         currentMenuItem := currentMenuItem st;
         dayBoxes := dayBoxes st |}
  | _, _ => st
  end.

Definition onInfo (st : State) : State :=
  match currentDayBox st with
  | Some box =>
      {| currentDayBox := Some (pushPending (currentMenuItem st) box);
         currentMenuItem := Some emptyMenuItem;
         dayBoxes := dayBoxes st |}
  | None => st
  end.

Definition onColorIcon (style : option string) (st : State) : State :=
  match currentMenuItem st, categoryOfStyle style with
  | Some it, Some c =>
      {| currentDayBox := currentDayBox st;
         currentMenuItem := Some (setCategory c it);
         dayBoxes := dayBoxes st |}
  | _, _ => st
  end.

Definition onEventTitle (title : option string) (st : State) : State :=
  match currentMenuItem st with
  | Some it =>
      let t := Js.trim (Js.attr_or title EmptyString) in
      if Js.truthy t then
        let t' := decodeEntities t in
        if isAdminAnnouncement t' then st
        else {| currentDayBox := currentDayBox st;
                currentMenuItem := Some (setNameDescription (parseMenuItemText t') it);
                dayBoxes := dayBoxes st |}
      else st
  | None => st
  end.

Definition handle (st : State) (e : Event) : State :=
  match e with
  | Daybox class => onDaybox class st
  | DateEl d m y => onDate d m y st
  | Info => onInfo st
  | ColorIcon style => onColorIcon style st
  | EventTitle title => onEventTitle title st
  end.

(** "Convert day boxes to daily menus".  The date of a box is rendered and
    read back by [DailyMenu]'s constructor ([DailyMenu_on]): it is a day of
    the four-digit range. *)
Definition toDailyMenus (mt : MealType) (boxes : list DayBox) : list DailyMenu :=
  flat_map (fun box =>
              match box_date box with
              | Some d =>
                  if 0 <? Z.of_nat (List.length (box_menuItems box))
                  then [DailyMenu_on d mt (map MenuItem_new (box_menuItems box))]
                  else []
              | None => []
              end) boxes.

(** [parseCalendarFragment] on the events of the response. *)
Definition parseCalendarFragment (events : list Event) (mt : MealType)
  : list DailyMenu :=
  toDailyMenus mt (completeDayBox (fold_left handle events init)).

End Inline.

(** ** The [ScraperState] parser ([parseCalendarFragment] over the state
    class) *)

Module Stateful.

(** [DayBoxData].  The source keeps the date rendered as [yyyy-MM-dd] and
    [DailyMenu]'s constructor reads it back; the day itself is kept here. *)
Record DayBoxData := mkDayBoxData {
  box_date : option Cal.Date;
  box_mealType : MealType;
  box_menuItems : list MenuItemData
}.

Record ScraperState := mkScraperState {
  currentDayBox : option DayBoxData;
  currentMenuItem : option MenuItemData;
  completedDays : list DailyMenu;
  stateMealType : MealType
}.

Definition new (mt : MealType) : ScraperState :=
  {| currentDayBox := None; currentMenuItem := None; completedDays := [];
     stateMealType := mt |}.

Definition completePreviousDayBox (st : ScraperState) : ScraperState :=
  match currentDayBox st with
  | Some box =>
      match box_date box with
      | Some d =>
          if 0 <? Z.of_nat (List.length (box_menuItems box)) then
            {| currentDayBox := currentDayBox st;
               currentMenuItem := currentMenuItem st;
               completedDays :=
                 completedDays st
                 ++ [DailyMenu_on d (box_mealType box)
                       (map MenuItem_new (box_menuItems box))];
               stateMealType := stateMealType st |}
          else st
      | None => st
      end
  | None => st
  end.

Definition startDayBox (st : ScraperState) : ScraperState :=
  let st1 := completePreviousDayBox st in
  {| currentDayBox := Some {| box_date := None;
                              box_mealType := stateMealType st1;
                              box_menuItems := [] |};
     currentMenuItem := currentMenuItem st1;
     completedDays := completedDays st1;
     stateMealType := stateMealType st1 |}.

Definition endDayBox (st : ScraperState) : ScraperState :=
  let st1 := completePreviousDayBox st in
  {| currentDayBox := None;
     currentMenuItem := currentMenuItem st1;
     completedDays := completedDays st1;
     stateMealType := stateMealType st1 |}.

(** [setDateInfo]: the source keeps the date rendered ([DayBoxData] above);
    it is a day of the four-digit range. *)
Definition setDateInfo (d : Cal.Date) (st : ScraperState) : ScraperState :=
  match currentDayBox st with
  | Some box =>
      {| currentDayBox := Some {| box_date := Some d;
                                  box_mealType := box_mealType box;
                                  box_menuItems := box_menuItems box |};
         currentMenuItem := currentMenuItem st;
         completedDays := completedDays st;
         stateMealType := stateMealType st |}
  | None => st
  end.

Definition completePreviousMenuItem (st : ScraperState) : ScraperState :=
  match currentMenuItem st, currentDayBox st with
  | Some it, Some box =>
      if Js.truthy (d_name it) then
        let pushed :=
          {| d_name := d_name it;
             d_description :=
               Some (Js.or_else (nullish (d_description it) EmptyString) (d_name it));
             d_category := d_category it;
             d_isVegetarian := None;
             d_isVegan := None;
             d_allergens := d_allergens it;
             d_nutritionalInfo := d_nutritionalInfo it |} in
        {| currentDayBox := Some {| box_date := box_date box;
                                    box_mealType := box_mealType box;
                                    box_menuItems := box_menuItems box ++ [pushed] |};
           currentMenuItem := currentMenuItem st;
           completedDays := completedDays st;
           stateMealType := stateMealType st |}
      else st
  | _, _ => st
  end.

Definition startMenuItem (st : ScraperState) : ScraperState :=
  let st1 := completePreviousMenuItem st in
  {| currentDayBox := currentDayBox st1;
     currentMenuItem := Some emptyMenuItem;
     completedDays := completedDays st1;
     stateMealType := stateMealType st1 |}.

Definition endMenuItem (st : ScraperState) : ScraperState :=
  let st1 := completePreviousMenuItem st in
  {| currentDayBox := currentDayBox st1;
     currentMenuItem := None;
     completedDays := completedDays st1;
     stateMealType := stateMealType st1 |}.

Definition setMenuItemCategory (c : FoodCategory) (st : ScraperState)
  : ScraperState :=
  match currentMenuItem st with
  | Some it =>
      {| currentDayBox := currentDayBox st;
         currentMenuItem := Some (setCategory c it);
         completedDays := completedDays st;
         stateMealType := stateMealType st |}
  | None => st
  end.

Definition isAdminAnnouncement (title : string) : bool :=
  let lowerTitle := Js.toLowerCase title in
  Js.includes "no school" lowerTitle
  || Js.includes "winter break" lowerTitle
  || Js.includes "last day of school" lowerTitle
  || Js.includes "memorial day" lowerTitle
  || Js.includes "teacher" lowerTitle
  || Js.includes "spring break" lowerTitle.

Definition setMenuItemTitle (title : string) (st : ScraperState) : ScraperState :=
  match currentMenuItem st with
  | Some it =>
      if isAdminAnnouncement title then
        {| currentDayBox := currentDayBox st;
           currentMenuItem := None;
           completedDays := completedDays st;
           stateMealType := stateMealType st |}
      else
        {| currentDayBox := currentDayBox st;
           currentMenuItem := Some (setNameDescription (parseMenuItemText title) it);
           completedDays := completedDays st;
           stateMealType := stateMealType st |}
  | None => st
  end.

Definition getCompletedDays (st : ScraperState) : list DailyMenu :=
  completedDays st.

(** The handlers registered on the [HTMLRewriter]. *)
Definition onDaybox (class : option string) (st : ScraperState) : ScraperState :=
  let classNames := Js.attr_or class EmptyString in
  if Js.includes "fsCalendarWeekendDayBox" classNames then st
  else startDayBox st.

Definition onDate (dataDay dataMonth dataYear : option string)
  (st : ScraperState) : ScraperState :=
  match dateOfAttributes dataDay dataMonth dataYear with
  | Some d => setDateInfo d st
  | None => st
  end.

Definition onColorIcon (style : option string) (st : ScraperState)
  : ScraperState :=
  match categoryOfStyle style with
  | Some c => setMenuItemCategory c st
  | None => st
  end.

Definition onEventTitle (title : option string) (st : ScraperState)
  : ScraperState :=
  let t := Js.trim (Js.attr_or title EmptyString) in
  if Js.truthy t then setMenuItemTitle (decodeEntities t) st else st.

Definition handle (st : ScraperState) (e : Event) : ScraperState :=
  match e with
  | Daybox class => onDaybox class st
  | DateEl d m y => onDate d m y st
  | Info => startMenuItem st
  | ColorIcon style => onColorIcon style st
  | EventTitle title => onEventTitle title st
  end.

(** [parseCalendarFragment] on the events of the response. *)
Definition parseCalendarFragment (events : list Event) (mt : MealType)
  : list DailyMenu :=
  getCompletedDays (endDayBox (endMenuItem (fold_left handle events (new mt)))).

End Stateful.

(** ** The week bucketer ([groupDailyMenusByWeek], the same in both versions) *)

(** [dailyMenus.sort((a, b) => a.date.getTime() - b.date.getTime())]: the
    sort is stable, so its result is the one of a stable insertion. *)
Fixpoint insertByTime (x : DailyMenu) (l : list DailyMenu) : list DailyMenu :=
  match l with
  | [] => [x]
  | y :: l' => if date x <=? date y then x :: l else y :: insertByTime x l'
  end.

Fixpoint sortByTime (l : list DailyMenu) : list DailyMenu :=
  match l with
  | [] => []
  | x :: l' => insertByTime x (sortByTime l')
  end.

(** The variables of the loop. *)
Record WeekLoop := mkWeekLoop {
  weeklyMenusAcc : list WeeklyMenu;
  currentWeekMenus : list DailyMenu;
  currentWeekStartDate : option Cal.Date
}.

(** [if (currentWeekMenus.length > 0 && currentWeekStartDate) { ... push }].
    The start and the end of the week are rendered and read back by
    [WeeklyMenu]'s constructor ([WeeklyMenu_on]): the week ends within the
    four-digit range. *)
Definition pushWeek (st : WeekLoop) : list WeeklyMenu :=
  match currentWeekStartDate st with
  | Some s =>
      if 0 <? Z.of_nat (List.length (currentWeekMenus st))
      then weeklyMenusAcc st ++ [WeeklyMenu_on s (Cal.endOfWeek s) (currentWeekMenus st)]
      else weeklyMenusAcc st
  | None => weeklyMenusAcc st
  end.

Definition weekStep (st : WeekLoop) (dailyMenu : DailyMenu) : WeekLoop :=
  let weekStart := Cal.startOfWeek (date dailyMenu) in
  let changed :=
    match currentWeekStartDate st with
    | None => true
    | Some s => negb (Cal.isSameWeek weekStart s)
    end in
  if changed then
    {| weeklyMenusAcc := pushWeek st;
       currentWeekMenus := [dailyMenu];
       currentWeekStartDate := Some weekStart |}
  else
    {| weeklyMenusAcc := weeklyMenusAcc st;
       currentWeekMenus := currentWeekMenus st ++ [dailyMenu];
       currentWeekStartDate := currentWeekStartDate st |}.

Definition groupDailyMenusByWeek (dailyMenus : list DailyMenu) : list WeeklyMenu :=
  match dailyMenus with
  | [] => []
  | _ =>
      pushWeek (fold_left weekStep (sortByTime dailyMenus)
                  {| weeklyMenusAcc := []; currentWeekMenus := [];
                     currentWeekStartDate := None |})
  end.

(* ================================================================== *)
(** * Part II.  Properties                                             *)
(* ================================================================== *)

(** [lia] is used with division and remainder by constants. *)
Ltac Zify.zify_post_hook ::= Z.to_euclidean_division_equations.

(** Case analysis on the integer comparisons of the goal. *)
Ltac zbool :=
  repeat match goal with
  | |- context [Z.gtb ?a ?b] => rewrite (Z.gtb_ltb a b)
  | |- context [Z.geb ?a ?b] => rewrite (Z.geb_leb a b)
  | |- context [Z.ltb ?a ?b] => destruct (Z.ltb_spec a b)
  | |- context [Z.leb ?a ?b] => destruct (Z.leb_spec a b)
  | |- context [Z.eqb ?a ?b] => destruct (Z.eqb_spec a b)
  end; cbv [orb andb negb].

(** ** The calendar *)

Module CalFacts.
Import Cal.
Lemma is_leap_iff y : is_leap y = true <-> leapP y.
Proof.
  unfold is_leap, leapP.
  rewrite orb_true_iff, andb_true_iff, negb_true_iff, !Z.eqb_eq, Z.eqb_neq.
  tauto.
Qed.

Lemma is_leap_period y e : is_leap (y + e * 400) = is_leap y.
Proof.
  unfold is_leap.
  replace ((y + e * 400) mod 4) with (y mod 4) by lia.
  replace ((y + e * 400) mod 100) with (y mod 100) by lia.
  replace ((y + e * 400) mod 400) with (y mod 400) by lia.
  reflexivity.
Qed.

Lemma days_in_month_period y e m :
  days_in_month (y + e * 400) m = days_in_month y m.
Proof. unfold days_in_month. now rewrite is_leap_period. Qed.

Lemma yoe_of_bounds doe :
  0 <= doe < 146097 ->
  0 <= yoe_of doe < 400 /\ yday (yoe_of doe) <= doe
  /\ (doe < yday (yoe_of doe + 1) \/ (doe = 146096 /\ yoe_of doe = 399)).
Proof. intros H. unfold yoe_of, yday. lia. Qed.

Lemma md_of_doy_spec doy :
  0 <= doy <= 365 ->
  let m := fst (md_of_doy doy) in
  let d := snd (md_of_doy doy) in
  1 <= m <= 12 /\ 1 <= d <= 31 /\ doy_of_md m d = doy
  /\ (m <= 2 <-> 306 <= doy)
  /\ (m = 2 -> d = doy - 336)
  /\ (m <> 2 -> d <= if (m =? 4) || (m =? 6) || (m =? 9) || (m =? 11) then 30 else 31).
Proof.
  intros H. unfold md_of_doy, doy_of_md. cbv [fst snd].
  set (mp := (5 * doy + 2) / 153).
  assert (Hmp : 0 <= mp <= 11) by (unfold mp; lia).
  assert (Hd : 153 * mp <= 5 * doy + 2 < 153 * mp + 153) by (unfold mp; lia).
  clearbody mp. cbv zeta.
  zbool; lia.
Qed.


Lemma civil_of_doe_eq doe :
  civil_of_doe doe =
  let doy := doe - yday (yoe_of doe) in
  let m := fst (md_of_doy doy) in
  (if m <=? 2 then yoe_of doe + 1 else yoe_of doe, m, snd (md_of_doy doy)).
Proof. reflexivity. Qed.

Lemma doe_of_civil_eq yoe m d : doe_of_civil yoe m d = yday yoe + doy_of_md m d.
Proof. unfold doe_of_civil, yday, doy_of_md. lia. Qed.

Lemma civil_of_doe_spec doe :
  0 <= doe < 146097 ->
  let '(y, m, d) := civil_of_doe doe in
  let yoe := if m <=? 2 then y - 1 else y in
  0 <= yoe < 400 /\ doe_of_civil yoe m d = doe /\ valid_civil (y, m, d).
Proof.
  intros H. rewrite civil_of_doe_eq. cbv zeta.
  destruct (yoe_of_bounds doe H) as (Hy & Hlo & Hhi).
  set (yoe := yoe_of doe) in *.
  set (doy := doe - yday yoe).
  assert (Hdoy : 0 <= doy <= 365) by (unfold doy, yday in *; lia).
  pose proof (md_of_doy_spec doy Hdoy) as Hmd. cbv zeta in Hmd.
  set (m := fst (md_of_doy doy)) in *. set (d := snd (md_of_doy doy)) in *.
  destruct Hmd as (Hm & Hd & Hrt & Hjf & Hfeb & Hcap).
  rewrite doe_of_civil_eq.
  assert (Hyoe : (if m <=? 2 then (if m <=? 2 then yoe + 1 else yoe) - 1
                  else (if m <=? 2 then yoe + 1 else yoe)) = yoe)
    by (destruct (m <=? 2); lia).
  rewrite Hyoe, Hrt. split; [lia|]. split; [unfold doy; lia|].
  unfold valid_civil. split; [lia|]. split; [lia|].
  unfold days_in_month.
  destruct (Z.eqb_spec m 2) as [Hm2|Hm2].
  - replace (m <=? 2) with true by (symmetry; apply Z.leb_le; lia).
    specialize (Hfeb Hm2).
    assert (Hle : d <= 28 \/ (d = 29 /\ doy = 365)) by lia.
    destruct Hle as [Hle|[Hd29 Hdoy365]].
    + destruct (is_leap (yoe + 1)); lia.
    + assert (Hl : is_leap (yoe + 1) = true).
      { apply is_leap_iff. unfold leapP. unfold doy, yday in *. lia. }
      rewrite Hl. lia.
  - apply Hcap. exact Hm2.
Qed.

Lemma civil_from_days_spec z :
  valid_civil (civil_from_days z)
  /\ (let '(y, m, d) := civil_from_days z in days_from_civil y m d = z).
Proof.
  unfold civil_from_days.
  set (z' := z + 719468).
  assert (Hdoe : 0 <= z' mod 146097 < 146097) by (apply Z.mod_pos_bound; lia).
  pose proof (civil_of_doe_spec _ Hdoe) as H.
  destruct (civil_of_doe (z' mod 146097)) as [[y m] d].
  destruct H as (Hy & Hrt & Hm & Hd). split.
  - unfold valid_civil. rewrite days_in_month_period. split; assumption.
  - unfold days_from_civil.
    set (yoe := if m <=? 2 then y - 1 else y) in *.
    assert (Hy' : (if m <=? 2 then y + z' / 146097 * 400 - 1
                   else y + z' / 146097 * 400) = yoe + z' / 146097 * 400)
      by (unfold yoe; destruct (m <=? 2); lia).
    rewrite Hy'.
    rewrite Z.div_add by lia. rewrite Z.mod_add by lia.
    rewrite (Z.div_small yoe 400) by lia. rewrite (Z.mod_small yoe 400) by lia.
    rewrite Hrt. unfold z'. pose proof (Z.div_mod (z + 719468) 146097). lia.
Qed.

Lemma days_civil z :
  let '(y, m, d) := civil_from_days z in days_from_civil y m d = z.
Proof. apply civil_from_days_spec. Qed.

Lemma days_from_civil_eq y m d :
  days_from_civil y m d =
  march_days (if m <=? 2 then y - 1 else y) + doy_of_md m d - 719468.
Proof.
  unfold days_from_civil. rewrite doe_of_civil_eq.
  set (y' := if m <=? 2 then y - 1 else y). unfold march_days, yday. lia.
Qed.

Lemma days_in_month_cases y m :
  1 <= m <= 12 ->
  (m = 2 /\ ((leapP y /\ days_in_month y m = 29) \/ (~ leapP y /\ days_in_month y m = 28)))
  \/ ((m = 4 \/ m = 6 \/ m = 9 \/ m = 11) /\ days_in_month y m = 30)
  \/ ((m = 1 \/ m = 3 \/ m = 5 \/ m = 7 \/ m = 8 \/ m = 10 \/ m = 12)
      /\ days_in_month y m = 31).
Proof.
  intros H. unfold days_in_month.
  destruct (Z.eqb_spec m 2) as [->|H2].
  - left. split; [reflexivity|].
    destruct (is_leap y) eqn:E.
    + left. split; [now apply is_leap_iff|reflexivity].
    + right. split; [|reflexivity]. intros Hl. apply is_leap_iff in Hl. congruence.
  - right. zbool; lia.
Qed.

Lemma days_from_civil_lt y1 m1 d1 y2 m2 d2 :
  valid_civil (y1, m1, d1) -> valid_civil (y2, m2, d2) ->
  lex_lt (y1, m1, d1) (y2, m2, d2) ->
  days_from_civil y1 m1 d1 < days_from_civil y2 m2 d2.
Proof.
  unfold valid_civil, lex_lt. intros [Hm1 Hd1] [Hm2 Hd2] Hlt.
  rewrite !days_from_civil_eq. unfold march_days, doy_of_md.
  pose proof (days_in_month_cases y1 m1 Hm1) as Hdim.
  unfold leapP in Hdim.
  zbool; lia.
Qed.

Lemma lex_trichotomy (a b : Z * Z * Z) : lex_lt a b \/ a = b \/ lex_lt b a.
Proof.
  destruct a as [[y1 m1] d1], b as [[y2 m2] d2]. unfold lex_lt.
  destruct (Z.lt_trichotomy y1 y2) as [?|[->|?]]; [lia| |lia].
  destruct (Z.lt_trichotomy m1 m2) as [?|[->|?]]; [lia| |lia].
  destruct (Z.lt_trichotomy d1 d2) as [?|[->|?]]; [lia| |lia].
  right. left. reflexivity.
Qed.


Lemma civil_from_days_lt a b :
  a < b -> lex_lt (civil_from_days a) (civil_from_days b).
Proof.
  intros Hab.
  destruct (civil_from_days_spec a) as [Hva Ha].
  destruct (civil_from_days_spec b) as [Hvb Hb].
  destruct (civil_from_days a) as [[y1 m1] d1].
  destruct (civil_from_days b) as [[y2 m2] d2].
  destruct (lex_trichotomy (y1, m1, d1) (y2, m2, d2)) as [H|[H|H]].
  - exact H.
  - inversion H; subst. lia.
  - pose proof (days_from_civil_lt _ _ _ _ _ _ Hvb Hva H). lia.
Qed.

Lemma min_date_civil : civil_from_days min_date = (1, 1, 1).
Proof. reflexivity. Qed.

Lemma max_date_civil : civil_from_days max_date = (9999, 12, 31).
Proof. reflexivity. Qed.

Lemma days_in_month_le y m : days_in_month y m <= 31.
Proof. unfold days_in_month. destruct (is_leap y); zbool; lia. Qed.

(** A date of the four-digit range has a year from 1 to 9999. *)
Lemma date_ok_civil z :
  date_ok z ->
  let '(y, m, d) := civil_from_days z in
  1 <= y <= 9999 /\ 1 <= m <= 12 /\ 1 <= d <= 31.
Proof.
  intros [Hlo Hhi].
  destruct (civil_from_days_spec z) as [Hv _].
  assert (Hmin : z = min_date \/ min_date < z) by lia.
  assert (Hmax : z = max_date \/ z < max_date) by lia.
  destruct Hmin as [->|Hmin]; [rewrite min_date_civil; lia|].
  destruct Hmax as [->|Hmax]; [rewrite max_date_civil; lia|].
  apply civil_from_days_lt in Hmin, Hmax.
  rewrite min_date_civil in Hmin. rewrite max_date_civil in Hmax.
  destruct (civil_from_days z) as [[y m] d].
  unfold valid_civil in Hv. pose proof (days_in_month_le y m).
  unfold lex_lt in *. lia.
Qed.

(** *** Rendering and reading back *)

Lemma digit_cases k : 0 <= k <= 9 -> In k [0; 1; 2; 3; 4; 5; 6; 7; 8; 9].
Proof. intros H. cbn [In]. lia. Qed.

Ltac each_digit H :=
  apply digit_cases in H; cbn [In] in H;
  repeat (destruct H as [<-|H]); [..|contradiction].

Lemma digit_val_char n : 0 <= n <= 9 -> Js.digit_val (digit_char n) = Some n.
Proof. intros H. each_digit H; reflexivity. Qed.

Lemma digit_char_compare a b :
  0 <= a <= 9 -> 0 <= b <= 9 ->
  Ascii.compare (digit_char a) (digit_char b) = (a ?= b).
Proof. intros Ha Hb. each_digit Ha; each_digit Hb; reflexivity. Qed.

Lemma num2_pad n :
  0 <= n <= 99 ->
  num2 (digit_char (n / 10 mod 10)) (digit_char (n mod 10)) = Some n.
Proof.
  intros H. unfold num2.
  rewrite !digit_val_char by lia. f_equal. lia.
Qed.

Lemma format_eq z :
  format z =
  let '(y, m, d) := civil_from_days z in
  String (digit_char (y / 1000 mod 10)) (String (digit_char (y / 100 mod 10))
  (String (digit_char (y / 10 mod 10)) (String (digit_char (y mod 10))
  (String "-" (String (digit_char (m / 10 mod 10)) (String (digit_char (m mod 10))
  (String "-" (String (digit_char (d / 10 mod 10)) (String (digit_char (d mod 10))
  EmptyString))))))))).
Proof. unfold format. destruct (civil_from_days z) as [[y m] d]. reflexivity. Qed.

Lemma parse_date_format z : date_ok z -> parse_date (format z) = Some z.
Proof.
  intros Hok. rewrite format_eq.
  pose proof (date_ok_civil z Hok) as Hb.
  destruct (civil_from_days_spec z) as [Hv Hrt].
  destruct (civil_from_days z) as [[y m] d].
  destruct Hb as (Hy & Hm & Hd). unfold valid_civil in Hv.
  unfold parse_date.
  assert (Hyh : num2 (digit_char (y / 1000 mod 10)) (digit_char (y / 100 mod 10))
                = Some (y / 100)).
  { unfold num2. rewrite !digit_val_char by lia. f_equal. lia. }
  assert (Hyl : num2 (digit_char (y / 10 mod 10)) (digit_char (y mod 10))
                = Some (y mod 100)).
  { unfold num2. rewrite !digit_val_char by lia. f_equal. lia. }
  rewrite Hyh, Hyl, (num2_pad m), (num2_pad d) by lia.
  replace (100 * (y / 100) + y mod 100) with y by lia.
  replace ((1 <=? m) && (m <=? 12) && (1 <=? d) && (d <=? days_in_month y m))
    with true.
  - now rewrite Hrt.
  - symmetry. rewrite !andb_true_iff, !Z.leb_le. lia.
Qed.

Lemma parseISO_format z :
  date_ok z -> parseISO (format z ++ "T12:00:00") = Some z.
Proof.
  intros Hok. unfold parseISO.
  assert (Hsplit : Js.drop 10 (format z ++ "T12:00:00") = "T12:00:00"
                   /\ substring 0 10 (format z ++ "T12:00:00") = format z).
  { rewrite format_eq. destruct (civil_from_days z) as [[y m] d].
    split; reflexivity. }
  destruct Hsplit as [-> ->]. cbn [String.eqb].
  change (("T12:00:00" =? "T12:00:00")%string) with true. cbv iota.
  now apply parse_date_format.
Qed.

(** *** The order of rendered dates *)

Lemma format_compare_lt a b :
  date_ok a -> date_ok b -> a < b -> String.compare (format a) (format b) = Lt.
Proof.
  intros Ha Hb Hab. rewrite !format_eq.
  pose proof (date_ok_civil a Ha) as Ba. pose proof (date_ok_civil b Hb) as Bb.
  pose proof (civil_from_days_lt a b Hab) as Hlt.
  destruct (civil_from_days a) as [[y1 m1] d1].
  destruct (civil_from_days b) as [[y2 m2] d2].
  unfold lex_lt in Hlt. cbn [String.compare].
  rewrite !digit_char_compare by lia.
  change (Ascii.compare "-" "-") with Eq. cbv iota.
  repeat match goal with
         | |- context [Z.compare ?x ?y] =>
             destruct (Z.compare_spec x y); [ | reflexivity | exfalso; lia ]
         end.
  exfalso; lia.
Qed.

Lemma format_compare a b :
  date_ok a -> date_ok b -> String.compare (format a) (format b) = (a ?= b).
Proof.
  intros Ha Hb. destruct (Z.compare_spec a b) as [->|H|H].
  - destruct (String.compare (format b) (format b)) eqn:E; [reflexivity| |].
    + pose proof (String.compare_antisym (format b) (format b)) as A.
      rewrite E in A. discriminate.
    + pose proof (String.compare_antisym (format b) (format b)) as A.
      rewrite E in A. discriminate.
  - now apply format_compare_lt.
  - rewrite String.compare_antisym, (format_compare_lt b a) by assumption.
    reflexivity.
Qed.

Lemma str_le_format a b :
  date_ok a -> date_ok b -> str_le (format a) (format b) = (a <=? b).
Proof.
  intros Ha Hb. unfold str_le, String.leb, Z.leb.
  now rewrite format_compare.
Qed.

Lemma str_ge_format a b :
  date_ok a -> date_ok b -> str_ge (format a) (format b) = (b <=? a).
Proof. intros Ha Hb. unfold str_ge. now apply str_le_format. Qed.

End CalFacts.

(** *** Weeks *)

Module WeekFacts.
Import Cal.

Lemma getDay_range d : 0 <= getDay d <= 6.
Proof. unfold getDay. lia. Qed.

Lemma startOfWeek_bounds d : startOfWeek d <= d <= startOfWeek d + 6.
Proof. unfold startOfWeek, addDays, getDay. zbool; lia. Qed.

Lemma startOfWeek_monday d : getDay (startOfWeek d) = 1.
Proof. unfold startOfWeek, addDays, getDay. zbool; lia. Qed.

Lemma startOfWeek_of_monday d : getDay d = 1 -> startOfWeek d = d.
Proof. unfold startOfWeek, addDays. intros ->. change (1 <? 1) with false. cbv iota. lia. Qed.

Lemma startOfWeek_idem d : startOfWeek (startOfWeek d) = startOfWeek d.
Proof. apply startOfWeek_of_monday, startOfWeek_monday. Qed.

Lemma startOfWeek_mono a b : a <= b -> startOfWeek a <= startOfWeek b.
Proof. unfold startOfWeek, addDays, getDay. zbool; lia. Qed.

Lemma endOfWeek_of_monday d : getDay d = 1 -> endOfWeek d = d + 6.
Proof. unfold endOfWeek, addDays. intros ->. change (1 <? 1) with false. cbv iota. lia. Qed.

Lemma endOfWeek_sunday d : getDay (endOfWeek d) = 0.
Proof. unfold endOfWeek, addDays, getDay. zbool; lia. Qed.

Lemma isSameWeek_starts a b :
  isSameWeek (startOfWeek a) (startOfWeek b) = (startOfWeek a =? startOfWeek b).
Proof. unfold isSameWeek. now rewrite !startOfWeek_idem. Qed.

(** A day lies in the week that starts on the Monday [s] exactly when [s] is
    its week start. *)
Lemma in_week_iff s d :
  getDay s = 1 -> (s <= d <= s + 6 <-> startOfWeek d = s).
Proof. unfold startOfWeek, addDays, getDay. zbool; lia. Qed.

Lemma next_monday_of_sunday d : getDay d = 0 -> getDay (addDays d 1) = 1.
Proof. unfold addDays, getDay. lia. Qed.

Lemma next_monday_of_saturday d : getDay d = 6 -> getDay (addDays d 2) = 1.
Proof. unfold addDays, getDay. lia. Qed.

End WeekFacts.

(** ** Menu items *)

Definition explicit_vegan_not_vegetarian : MenuItemData :=
  {| d_name := "Garden Salad";
     d_description := None;
     d_category := None;
     d_isVegetarian := Some false;
     d_isVegan := Some true;
     d_allergens := None;
     d_nutritionalInfo := None |}.

(** C7, as stated, fails: the constructor stores explicit flags as they are
    given, so [isVegan: true, isVegetarian: false] yields a vegan item that
    is not vegetarian. *)
Lemma vegan_invariant_counterexample :
  isVegan (MenuItem_new explicit_vegan_not_vegetarian) = true
  /\ isVegetarian (MenuItem_new explicit_vegan_not_vegetarian) = false.
Proof. split; reflexivity. Qed.

(** C7, amended: when the [isVegetarian] flag is left out of the input, the
    constructed item is vegetarian whenever it is vegan (whether [isVegan]
    was given or inferred from the name); an explicit [isVegetarian] flag is
    stored as given.  [MenuItem.fromJSON] is the constructor, so the same
    holds for deserialized items. *)
Theorem vegan_implies_vegetarian_when_inferred :
  forall data : MenuItemData,
    (d_isVegetarian data = None ->
     isVegan (MenuItem_new data) = true ->
     isVegetarian (MenuItem_new data) = true
     /\ isVegetarian (MenuItem_fromJSON data) = true)
    /\ (forall b, d_isVegetarian data = Some b ->
                  isVegetarian (MenuItem_new data) = b).
Proof.
  intros data. split.
  - intros Hnone Hvegan. unfold MenuItem_fromJSON.
    unfold MenuItem_new in *. cbn [isVegan isVegetarian] in *.
    rewrite Hnone. cbn [nullish]. rewrite Hvegan. split; reflexivity.
  - intros b Hb. unfold MenuItem_new. cbn [isVegetarian]. now rewrite Hb.
Qed.

Definition veganTamalesData : MenuItemData :=
  {| d_name := "Vegan Corn & Chile Tamales";
     d_description := None;
     d_category := None;
     d_isVegetarian := None;
     d_isVegan := None;
     d_allergens := None;
     d_nutritionalInfo := None |}.

Lemma vegan_implies_vegetarian_witness :
  (isVegetarian (MenuItem_new veganTamalesData) = true
   /\ isVegetarian (MenuItem_fromJSON veganTamalesData) = true)
  /\ isVegetarian (MenuItem_new explicit_vegan_not_vegetarian) = false.
Proof.
  split.
  - apply (proj1 (vegan_implies_vegetarian_when_inferred veganTamalesData));
      reflexivity.
  - apply (proj2 (vegan_implies_vegetarian_when_inferred
                    explicit_vegan_not_vegetarian)).
    reflexivity.
Defined.

(** ** Serialization *)

Lemma date_ok_by_computation d :
  (Cal.min_date <=? d) && (d <=? Cal.max_date) = true -> Cal.date_ok d.
Proof.
  intros H. apply andb_true_iff in H as [H1 H2].
  apply Z.leb_le in H1, H2. split; assumption.
Defined.

Definition week_dates_ok (w : WeeklyMenu) : Prop :=
  Cal.date_ok (startDate w) /\ Cal.date_ok (endDate w)
  /\ Forall (fun m => Cal.date_ok (date m)) (dailyMenus w).

Lemma map_opt_map {A B : Type} (f : A -> option B) (g : B -> A) (l : list B) :
  Forall (fun x => f (g x) = Some x) l -> map_opt f (map g l) = Some l.
Proof.
  induction 1 as [|x l Hx _ IH]; [reflexivity|].
  cbn [map map_opt]. now rewrite Hx, IH.
Qed.

Lemma MenuItem_round_trip item : MenuItem_fromJSON (MenuItem_toJSON item) = item.
Proof. destruct item. reflexivity. Qed.

(** The constructor reads back the day the scrapers render for it. *)
Lemma DailyMenu_new_format d mt items :
  Cal.date_ok d ->
  DailyMenu_new {| dd_date := Cal.format d; dd_mealType := mt;
                   dd_menuItems := Some items;
                   dd_specialNotes := None; dd_isSchoolDay := None |}
  = Some (DailyMenu_on d mt items).
Proof.
  intros Hd. unfold DailyMenu_new. cbn [dd_date].
  now rewrite CalFacts.parseISO_format.
Qed.

Lemma WeeklyMenu_new_format s e menus :
  Cal.date_ok s -> Cal.date_ok e ->
  WeeklyMenu_new {| wd_startDate := Cal.format s; wd_endDate := Cal.format e;
                    wd_dailyMenus := Some menus |}
  = Some (WeeklyMenu_on s e menus).
Proof.
  intros Hs He. unfold WeeklyMenu_new. cbn [wd_startDate wd_endDate].
  now rewrite !CalFacts.parseISO_format.
Qed.

Lemma DailyMenu_round_trip m :
  Cal.date_ok (date m) -> DailyMenu_fromJSON (DailyMenu_toJSON m) = Some m.
Proof.
  intros Hd. destruct m as [d mt items notes school].
  unfold DailyMenu_fromJSON, DailyMenu_toJSON, DailyMenu_new.
  cbn [j_date j_mealType j_menuItems j_specialNotes j_isSchoolDay
       dd_date dd_mealType dd_menuItems dd_specialNotes dd_isSchoolDay
       date mealType menuItems specialNotes isSchoolDay nullish] in *.
  rewrite CalFacts.parseISO_format by assumption.
  rewrite map_map.
  rewrite (map_ext _ (fun x => x)) by (intros; apply MenuItem_round_trip).
  now rewrite map_id.
Qed.

Lemma WeeklyMenu_round_trip w :
  week_dates_ok w -> WeeklyMenu_fromJSON (WeeklyMenu_toJSON w) = Some w.
Proof.
  intros (Hs & He & Hm). destruct w as [s e menus].
  unfold WeeklyMenu_fromJSON, WeeklyMenu_toJSON, WeeklyMenu_new.
  cbn [j_startDate j_endDate j_dailyMenus wd_startDate wd_endDate wd_dailyMenus
       startDate endDate dailyMenus nullish] in *.
  rewrite (map_opt_map DailyMenu_fromJSON DailyMenu_toJSON).
  - cbn [wd_startDate wd_endDate wd_dailyMenus nullish].
    now rewrite !CalFacts.parseISO_format.
  - eapply Forall_impl; [|exact Hm]. intros m. apply DailyMenu_round_trip.
Qed.

Lemma MonthlyMenu_round_trip mm :
  Forall week_dates_ok (weeklyMenus mm) ->
  MonthlyMenu_fromJSON (MonthlyMenu_toJSON mm) = Some mm.
Proof.
  intros H. destruct mm as [y mo ws].
  unfold MonthlyMenu_fromJSON, MonthlyMenu_toJSON.
  cbn [j_year j_month j_weeklyMenus year month weeklyMenus] in *.
  rewrite (map_opt_map WeeklyMenu_fromJSON WeeklyMenu_toJSON).
  - reflexivity.
  - eapply Forall_impl; [|exact H]. intros w. apply WeeklyMenu_round_trip.
Qed.

(** The flags a name alone gives, as the constructor computes them. *)
Definition inferredVegan (name : string) : bool :=
  existsb (fun term => Js.includes term (Js.toLowerCase name)) veganTerms.

Definition inferredVegetarian (name : string) : bool :=
  inferredVegan name
  || existsb (fun term => Js.includes term (Js.toLowerCase name)) vegetarianTerms.

(** A date of the four-digit range is rendered as four digits, a dash, two
    digits, a dash and two digits, which name its year, month and day. *)
Definition rendered_as_YYYY_MM_DD (d : Cal.Date) (s : string) : Prop :=
  String.length s = 10%nat /\ Cal.parse_date s = Some d.

Definition tamalesOnly : MenuItemData :=
  {| d_name := "Vegan Corn & Chile Tamales";
     d_description := Some "Vegan Corn & Chile Tamales with Refried Beans & Rice";
     d_category := Some VEGETARIAN_ENTREE;
     d_isVegetarian := None;
     d_isVegan := None;
     d_allergens := Some [];
     d_nutritionalInfo := Some [] |}.

(** C6.  Serialization round-trips at every level of the hierarchy,
    [fromJSON (toJSON x)] giving [x] back field for field, with the dates
    rendered as [YYYY-MM-DD] strings; when the vegetarian and vegan flags are
    missing from the serialized item, [fromJSON] rebuilds them from the name
    as the constructor does, so that "Vegan Corn & Chile Tamales" without
    flags deserializes as vegan and vegetarian.  Dates are those of the
    four-digit range. *)
Theorem serialization_round_trip :
  (forall item, MenuItem_fromJSON (MenuItem_toJSON item) = item)
  /\ (forall m, Cal.date_ok (date m) ->
        DailyMenu_fromJSON (DailyMenu_toJSON m) = Some m
        /\ rendered_as_YYYY_MM_DD (date m) (j_date (DailyMenu_toJSON m)))
  /\ (forall w, week_dates_ok w ->
        WeeklyMenu_fromJSON (WeeklyMenu_toJSON w) = Some w
        /\ rendered_as_YYYY_MM_DD (startDate w) (j_startDate (WeeklyMenu_toJSON w))
        /\ rendered_as_YYYY_MM_DD (endDate w) (j_endDate (WeeklyMenu_toJSON w)))
  /\ (forall mm, Forall week_dates_ok (weeklyMenus mm) ->
        MonthlyMenu_fromJSON (MonthlyMenu_toJSON mm) = Some mm)
  /\ (forall data, d_isVegan data = None -> d_isVegetarian data = None ->
        isVegan (MenuItem_fromJSON data) = inferredVegan (d_name data)
        /\ isVegetarian (MenuItem_fromJSON data) = inferredVegetarian (d_name data)
        /\ MenuItem_fromJSON data = MenuItem_new data)
  /\ (isVegan (MenuItem_fromJSON tamalesOnly) = true
      /\ isVegetarian (MenuItem_fromJSON tamalesOnly) = true).
Proof.
  assert (Hr : forall d, Cal.date_ok d -> rendered_as_YYYY_MM_DD d (Cal.format d)).
  { intros d Hd. split; [|now apply CalFacts.parse_date_format].
    rewrite CalFacts.format_eq. destruct (Cal.civil_from_days d) as [[y mo] dd].
    reflexivity. }
  split; [exact MenuItem_round_trip|].
  split; [intros m Hm; split; [now apply DailyMenu_round_trip|now apply Hr]|].
  split.
  { intros w Hw. split; [now apply WeeklyMenu_round_trip|].
    destruct Hw as (Hs & He & _). split; now apply Hr. }
  split; [exact MonthlyMenu_round_trip|].
  split; [|split; reflexivity].
  intros data Hv Hg. unfold MenuItem_fromJSON, MenuItem_new.
  cbn [isVegan isVegetarian]. rewrite Hv, Hg. repeat split; reflexivity.
Qed.

Definition sampleDailyMenu : DailyMenu :=
  DailyMenu_on (Cal.newDate 2025 2 31) LUNCH [MenuItem_new tamalesOnly].

Definition sampleWeeklyMenu : WeeklyMenu :=
  WeeklyMenu_on (Cal.newDate 2025 2 31) (Cal.newDate 2025 3 6) [sampleDailyMenu].

Definition sampleMonthlyMenu : MonthlyMenu :=
  {| year := 2025; month := 3; weeklyMenus := [sampleWeeklyMenu] |}.

Lemma sample_dates_ok : week_dates_ok sampleWeeklyMenu.
Proof.
  split; [|split].
  - apply date_ok_by_computation. vm_compute. reflexivity.
  - apply date_ok_by_computation. vm_compute. reflexivity.
  - constructor; [|constructor].
    apply date_ok_by_computation. vm_compute. reflexivity.
Defined.

Lemma serialization_round_trip_witness :
  (DailyMenu_fromJSON (DailyMenu_toJSON sampleDailyMenu) = Some sampleDailyMenu
   /\ rendered_as_YYYY_MM_DD (date sampleDailyMenu)
        (j_date (DailyMenu_toJSON sampleDailyMenu)))
  /\ WeeklyMenu_fromJSON (WeeklyMenu_toJSON sampleWeeklyMenu) = Some sampleWeeklyMenu
  /\ MonthlyMenu_fromJSON (MonthlyMenu_toJSON sampleMonthlyMenu)
     = Some sampleMonthlyMenu
  /\ isVegan (MenuItem_fromJSON veganTamalesData) = true.
Proof.
  destruct serialization_round_trip as (_ & Hd & Hw & Hm & Hf & _).
  split; [|split; [|split]].
  - apply Hd. apply date_ok_by_computation. vm_compute. reflexivity.
  - apply Hw. exact sample_dates_ok.
  - apply Hm. constructor; [exact sample_dates_ok|constructor].
  - rewrite (proj1 (Hf veganTamalesData eq_refl eq_refl)). reflexivity.
Defined.

(** ** The temporal index *)

(** [r] is the first element of [l], in the order of the list, that
    satisfies [P]; [None] when no element does. *)
Definition first_such {A : Type} (P : A -> Prop) (l : list A) (r : option A) : Prop :=
  match r with
  | Some x =>
      exists before after,
        l = before ++ x :: after /\ P x /\ Forall (fun y => ~ P y) before
  | None => Forall (fun y => ~ P y) l
  end.

Lemma find_first_such {A : Type} (p : A -> bool) (P : A -> Prop) (l : list A) :
  Forall (fun x => p x = true <-> P x) l -> first_such P l (find p l).
Proof.
  induction 1 as [|x l Hx Hl IH]; cbn [find].
  - constructor.
  - destruct (p x) eqn:E.
    + exists [], l. repeat split; [now apply Hx|constructor].
    + assert (Hn : ~ P x) by (intros HP; apply Hx in HP; congruence).
      destruct (find p l) as [w|]; cbn [first_such] in *.
      * destruct IH as (before & after & -> & HP & Hb).
        exists (x :: before), after. repeat split; [assumption|].
        constructor; assumption.
      * constructor; assumption.
Qed.

(** In a list in ascending order the first element that qualifies comes
    before every other one that does. *)
Lemma first_such_least {A : Type} (P : A -> Prop) (R : A -> A -> Prop)
  (l : list A) (x : A) :
  first_such P l (Some x) -> StronglySorted R l ->
  forall y, In y l -> P y -> y = x \/ R x y.
Proof.
  intros (before & after & -> & _ & Hb) Hs y Hy Py.
  apply in_app_or in Hy as [Hy|[Hy|Hy]].
  - rewrite Forall_forall in Hb. exfalso. exact (Hb y Hy Py).
  - now left.
  - right. clear Hb. induction before as [|b before IH]; cbn [app] in Hs.
    + apply StronglySorted_inv in Hs as [_ Hx]. rewrite Forall_forall in Hx.
      now apply Hx.
    + apply StronglySorted_inv in Hs as [Hs _]. now apply IH.
Qed.

Definition week_range_ok (w : WeeklyMenu) : Prop :=
  Cal.date_ok (startDate w) /\ Cal.date_ok (endDate w).

Definition jan_1_7 : WeeklyMenu :=
  WeeklyMenu_on (Cal.newDate 2024 0 1) (Cal.newDate 2024 0 7) [].

Definition jan_8_14 : WeeklyMenu :=
  WeeklyMenu_on (Cal.newDate 2024 0 8) (Cal.newDate 2024 0 14) [].

Definition january : MonthlyMenu :=
  {| year := 2024; month := 1; weeklyMenus := [jan_1_7; jan_8_14] |}.

Definition jan_15_21 : WeeklyMenu :=
  WeeklyMenu_on (Cal.newDate 2024 0 15) (Cal.newDate 2024 0 21) [].

Definition januaryWithGap : MonthlyMenu :=
  {| year := 2024; month := 1; weeklyMenus := [jan_1_7; jan_15_21] |}.

(** C1, as stated, fails: a weekend day does not resolve to the week that
    starts on the next Monday only.  Saturday 6 January 2024 is followed by
    Monday 8 January; no weekly menu of [januaryWithGap] starts on that
    day, and the result is not [None] but the week of 15 to 21 January,
    the first of the list that starts on or after that Monday. *)
Lemma week_after_next_counterexample :
  Cal.getDay (Cal.newDate 2024 0 6) = 6
  /\ Cal.addDays (Cal.newDate 2024 0 6) 2 = Cal.newDate 2024 0 8
  /\ Forall (fun w => startDate w <> Cal.newDate 2024 0 8)
            (weeklyMenus januaryWithGap)
  /\ getWeeklyMenuForDate januaryWithGap (Cal.newDate 2024 0 6) = Some jan_15_21.
Proof.
  split; [reflexivity|]. split; [reflexivity|]. split; [|reflexivity].
  constructor; [vm_compute; discriminate|].
  constructor; [vm_compute; discriminate|constructor].
Qed.

(** C1, amended.  [getWeeklyMenuForDate] resolves a weekday (Monday to
    Friday) to the weekly menu whose range from start date to end date
    contains it, and a weekend day to the weekly menu whose start date is
    on or after the next Monday, which is the day after a Sunday and two
    days after a Saturday; "the" menu is the first one of the list that
    qualifies, which in a list in ascending order of start date is the one
    that starts earliest.  When no weekly menu qualifies the result is
    [None], not an error.  With the
    weeks of 1-7 and 8-14 January 2024, 3 January resolves to the first
    week, 6 and 7 January to the second, and 20 January to nothing.  Dates
    are those of the four-digit range. *)
Theorem week_of_date_resolution :
  forall (mm : MonthlyMenu) (targetDate : Cal.Date),
    Cal.date_ok targetDate ->
    Cal.date_ok (Cal.addDays targetDate 2) ->
    Forall week_range_ok (weeklyMenus mm) ->
    (1 <= Cal.getDay targetDate <= 5 ->
     first_such (fun w => startDate w <= targetDate <= endDate w)
                (weeklyMenus mm) (getWeeklyMenuForDate mm targetDate))
    /\ (Cal.getDay targetDate = 0 ->
        Cal.getDay (Cal.addDays targetDate 1) = 1
        /\ first_such (fun w => Cal.addDays targetDate 1 <= startDate w)
                      (weeklyMenus mm) (getWeeklyMenuForDate mm targetDate))
    /\ (Cal.getDay targetDate = 6 ->
        Cal.getDay (Cal.addDays targetDate 2) = 1
        /\ first_such (fun w => Cal.addDays targetDate 2 <= startDate w)
                      (weeklyMenus mm) (getWeeklyMenuForDate mm targetDate))
    /\ (StronglySorted (fun a b => startDate a <= startDate b) (weeklyMenus mm) ->
        forall w w',
          getWeeklyMenuForDate mm targetDate = Some w ->
          In w' (weeklyMenus mm) ->
          (Cal.getDay targetDate = 0 /\ Cal.addDays targetDate 1 <= startDate w')
          \/ (Cal.getDay targetDate = 6 /\ Cal.addDays targetDate 2 <= startDate w') ->
          startDate w <= startDate w')
    /\ (getWeeklyMenuForDate january (Cal.newDate 2024 0 3) = Some jan_1_7
        /\ getWeeklyMenuForDate january (Cal.newDate 2024 0 6) = Some jan_8_14
        /\ getWeeklyMenuForDate january (Cal.newDate 2024 0 7) = Some jan_8_14
        /\ getWeeklyMenuForDate january (Cal.newDate 2024 0 20) = None).
Proof.
  intros mm t Ht Ht2 Hw.
  assert (Ht1 : Cal.date_ok (Cal.addDays t 1)).
  { unfold Cal.date_ok, Cal.addDays in *. lia. }
  assert (Hsun : Cal.getDay t = 0 ->
                 first_such (fun w => Cal.addDays t 1 <= startDate w)
                            (weeklyMenus mm) (getWeeklyMenuForDate mm t)).
  { intros Hday. unfold getWeeklyMenuForDate. rewrite Hday. cbn [Z.eqb orb].
    apply find_first_such.
    eapply Forall_impl; [|exact Hw]. intros w [Hs He].
    rewrite CalFacts.str_ge_format by assumption. apply Z.leb_le. }
  assert (Hsat : Cal.getDay t = 6 ->
                 first_such (fun w => Cal.addDays t 2 <= startDate w)
                            (weeklyMenus mm) (getWeeklyMenuForDate mm t)).
  { intros Hday. unfold getWeeklyMenuForDate. rewrite Hday. cbn [Z.eqb orb].
    apply find_first_such.
    eapply Forall_impl; [|exact Hw]. intros w [Hs He].
    rewrite CalFacts.str_ge_format by assumption. apply Z.leb_le. }
  split; [|split; [|split; [|split]]].
  - intros Hday. unfold getWeeklyMenuForDate.
    replace ((Cal.getDay t =? 0) || (Cal.getDay t =? 6)) with false
      by (symmetry; apply orb_false_iff; split; apply Z.eqb_neq; lia).
    apply find_first_such.
    eapply Forall_impl; [|exact Hw]. intros w [Hs He].
    rewrite CalFacts.str_le_format, CalFacts.str_ge_format by assumption.
    rewrite andb_true_iff, !Z.leb_le. tauto.
  - intros Hday. split; [now apply WeekFacts.next_monday_of_sunday|now apply Hsun].
  - intros Hday. split; [now apply WeekFacts.next_monday_of_saturday|now apply Hsat].
  - intros Hsorted w w' Hres Hin [[Hday Hle]|[Hday Hle]].
    + specialize (Hsun Hday). rewrite Hres in Hsun.
      destruct (first_such_least _ _ _ _ Hsun Hsorted w' Hin Hle) as [->|H]; lia.
    + specialize (Hsat Hday). rewrite Hres in Hsat.
      destruct (first_such_least _ _ _ _ Hsat Hsorted w' Hin Hle) as [->|H]; lia.
  - repeat split; vm_compute; reflexivity.
Qed.

Lemma january_ranges_ok : Forall week_range_ok (weeklyMenus january).
Proof.
  constructor; [|constructor; [|constructor]];
    (split; apply date_ok_by_computation; vm_compute; reflexivity).
Defined.

Lemma week_of_date_resolution_witness :
  first_such (fun w => startDate w <= Cal.newDate 2024 0 3 <= endDate w)
             (weeklyMenus january)
             (getWeeklyMenuForDate january (Cal.newDate 2024 0 3))
  /\ first_such (fun w => Cal.addDays (Cal.newDate 2024 0 7) 1 <= startDate w)
                (weeklyMenus january)
                (getWeeklyMenuForDate january (Cal.newDate 2024 0 7))
  /\ first_such (fun w => Cal.addDays (Cal.newDate 2024 0 6) 2 <= startDate w)
                (weeklyMenus january)
                (getWeeklyMenuForDate january (Cal.newDate 2024 0 6)).
Proof.
  assert (ok3 : Cal.date_ok (Cal.newDate 2024 0 3))
    by (apply date_ok_by_computation; vm_compute; reflexivity).
  assert (ok3' : Cal.date_ok (Cal.addDays (Cal.newDate 2024 0 3) 2))
    by (apply date_ok_by_computation; vm_compute; reflexivity).
  assert (ok6 : Cal.date_ok (Cal.newDate 2024 0 6))
    by (apply date_ok_by_computation; vm_compute; reflexivity).
  assert (ok6' : Cal.date_ok (Cal.addDays (Cal.newDate 2024 0 6) 2))
    by (apply date_ok_by_computation; vm_compute; reflexivity).
  assert (ok7 : Cal.date_ok (Cal.newDate 2024 0 7))
    by (apply date_ok_by_computation; vm_compute; reflexivity).
  assert (ok7' : Cal.date_ok (Cal.addDays (Cal.newDate 2024 0 7) 2))
    by (apply date_ok_by_computation; vm_compute; reflexivity).
  assert (wed : 1 <= Cal.getDay (Cal.newDate 2024 0 3) <= 5)
    by (vm_compute; split; discriminate).
  assert (sat : Cal.getDay (Cal.newDate 2024 0 6) = 6) by (vm_compute; reflexivity).
  assert (sun : Cal.getDay (Cal.newDate 2024 0 7) = 0) by (vm_compute; reflexivity).
  split; [|split].
  - exact (proj1 (week_of_date_resolution january _ ok3 ok3' january_ranges_ok) wed).
  - exact (proj2 (proj1 (proj2 (week_of_date_resolution january _ ok7 ok7'
                                  january_ranges_ok)) sun)).
  - exact (proj2 (proj1 (proj2 (proj2 (week_of_date_resolution january _ ok6 ok6'
                                         january_ranges_ok))) sat)).
Defined.

(** ** Strings *)

Module StrFacts.

Lemma append_assoc (a b c : string) : ((a ++ b) ++ c = a ++ (b ++ c))%string.
Proof. induction a as [|x a IH]; cbn; [reflexivity|now rewrite IH]. Qed.

Lemma append_nil_r (a : string) : (a ++ EmptyString)%string = a.
Proof. induction a as [|x a IH]; cbn; [reflexivity|now rewrite IH]. Qed.

Lemma length_append (a b : string) :
  String.length (a ++ b) = (String.length a + String.length b)%nat.
Proof. induction a as [|x a IH]; cbn; [reflexivity|now rewrite IH]. Qed.

Lemma prefix_iff (p s : string) :
  prefix p s = true <-> exists r, s = (p ++ r)%string.
Proof.
  revert s. induction p as [|x p IH]; intros s.
  - destruct s; cbn; (split; [intros _; eexists; reflexivity|reflexivity]).
  - destruct s as [|y s]; cbn [prefix String.append].
    + split; [discriminate|intros [r Hr]; discriminate].
    + destruct (ascii_dec x y) as [->|Hne].
      * rewrite IH. split; intros [r Hr]; exists r; congruence.
      * split; [discriminate|intros [r Hr]; congruence].
Qed.

(** Two prefixes of one string of the same length are equal. *)
Lemma append_same_length (a b c d : string) :
  (a ++ b = c ++ d)%string -> String.length a = String.length c -> a = c /\ b = d.
Proof.
  revert c. induction a as [|x a IH]; intros [|y c] H L; cbn in *;
    try discriminate.
  - now split.
  - injection H as -> H. injection L as L.
    destruct (IH c H L) as [-> ->]. now split.
Qed.

(** The prefixes of a string are ordered by length. *)
Lemma append_shorter (a b c d : string) :
  (a ++ b = c ++ d)%string -> (String.length a <= String.length c)%nat ->
  exists m, c = (a ++ m)%string /\ b = (m ++ d)%string.
Proof.
  revert c. induction a as [|x a IH]; intros c H L; cbn in *.
  - exists c. now split.
  - destruct c as [|y c]; cbn in *; [lia|].
    injection H as -> H.
    destruct (IH c H ltac:(lia)) as (m & -> & ->). now exists m.
Qed.

Fixpoint all_ws (s : string) : bool :=
  match s with
  | EmptyString => true
  | String c s' => Js.is_ws c && all_ws s'
  end.

Lemma skip_ws_all_ws (w s : string) :
  all_ws w = true -> Js.skip_ws (w ++ s) = Js.skip_ws s.
Proof.
  induction w as [|c w IH]; cbn; [reflexivity|].
  intros H. apply andb_true_iff in H as [Hc Hw]. now rewrite Hc, IH.
Qed.

Lemma skip_ws_split (s : string) :
  s = (Js.take_while Js.is_ws s ++ Js.skip_ws s)%string
  /\ all_ws (Js.take_while Js.is_ws s) = true.
Proof.
  induction s as [|c s [IH1 IH2]]; cbn; [now split|].
  destruct (Js.is_ws c) eqn:E; cbn; [|now split].
  rewrite E, IH2. split; [now rewrite <- IH1|reflexivity].
Qed.

Lemma replace_from_absent (pat rep s : string) :
  Js.includes pat s = false -> Js.replace_from pat rep O s = s.
Proof.
  induction s as [|c s IH]; cbn [Js.includes Js.replace_from]; [reflexivity|].
  destruct (prefix pat (String c s)); [discriminate|].
  intros H. now rewrite IH.
Qed.

Lemma replaceAll_absent (pat rep s : string) :
  Js.includes pat s = false -> Js.replaceAll pat rep s = s.
Proof. apply replace_from_absent. Qed.

End StrFacts.

(** ** The title normalizer *)

(** A match of [\s+with\s+] starts right after the prefix [pre] of [s]. *)
Definition separator_occurs_at (s pre : string) : Prop :=
  exists ws1 ws2 post,
    StrFacts.all_ws ws1 = true /\ StrFacts.all_ws ws2 = true
    /\ ws1 <> EmptyString /\ ws2 <> EmptyString
    /\ s = (pre ++ ws1 ++ "with" ++ ws2 ++ post)%string.

(** [pre] is the text before the first occurrence of the separator. *)
Definition first_separator_at (s pre : string) : Prop :=
  separator_occurs_at s pre
  /\ forall pre', separator_occurs_at s pre' ->
                  (String.length pre <= String.length pre')%nat.

Lemma separator_here_iff (s : string) :
  separator_here s = true <-> separator_occurs_at s EmptyString.
Proof.
  unfold separator_occurs_at. split.
  - destruct s as [|c s]; cbn [separator_here]; [discriminate|].
    intros H. apply andb_true_iff in H as [Hc H].
    apply andb_true_iff in H as [Hp Hd].
    destruct (StrFacts.skip_ws_split s) as [Hs Hw].
    apply StrFacts.prefix_iff in Hp as [r Hr]. rewrite Hr in Hd, Hs.
    cbn in Hd. destruct r as [|c' r]; [discriminate|].
    exists (String c (Js.take_while Js.is_ws s)), (String c' EmptyString), r.
    cbn [StrFacts.all_ws]. rewrite Hc, Hw, Hd. cbn.
    repeat split; try discriminate. f_equal.
    rewrite Hs at 1. reflexivity.
  - intros (ws1 & ws2 & post & H1 & H2 & N1 & N2 & ->).
    destruct ws1 as [|c ws1]; [congruence|].
    destruct ws2 as [|c' ws2]; [congruence|].
    cbn in H1, H2. apply andb_true_iff in H1 as [Hc H1].
    apply andb_true_iff in H2 as [Hc' H2].
    cbn [String.append separator_here]. rewrite Hc.
    rewrite StrFacts.skip_ws_all_ws by assumption.
    cbn. now rewrite Hc'.
Qed.

Lemma separator_occurs_at_app (pre rest : string) :
  separator_occurs_at rest EmptyString <-> separator_occurs_at (pre ++ rest) pre.
Proof.
  unfold separator_occurs_at. split.
  - intros (ws1 & ws2 & post & H1 & H2 & N1 & N2 & ->).
    exists ws1, ws2, post. now repeat split.
  - intros (ws1 & ws2 & post & H1 & H2 & N1 & N2 & E).
    exists ws1, ws2, post. repeat split; try assumption.
    cbn [String.append].
    apply (StrFacts.append_same_length pre rest pre _ E eq_refl).
Qed.

Lemma separator_occurs_at_prefix (s pre : string) :
  separator_occurs_at s pre -> exists rest, s = (pre ++ rest)%string.
Proof. intros (ws1 & ws2 & post & _ & _ & _ & _ & ->). eauto. Qed.

Lemma before_separator_some (s pre : string) :
  before_separator s = Some pre -> first_separator_at s pre.
Proof.
  revert pre. induction s as [|c s IH]; intros pre; cbn [before_separator].
  - destruct (separator_here EmptyString) eqn:E; [|discriminate].
    cbn in E. discriminate.
  - destruct (separator_here (String c s)) eqn:E.
    + intros [= <-]. split; [now apply separator_here_iff|]. intros; cbn; lia.
    + destruct (before_separator s) as [p|]; [|discriminate].
      intros [= <-]. destruct (IH p eq_refl) as [Hat Hmin]. split.
      * destruct (separator_occurs_at_prefix _ _ Hat) as [rest ->].
        apply (separator_occurs_at_app (String c p) rest).
        now apply (separator_occurs_at_app p rest).
      * intros pre' Hpre'.
        destruct (separator_occurs_at_prefix _ _ Hpre') as [rest E'].
        destruct pre' as [|c' pre'].
        -- cbn in E'. subst rest. apply separator_here_iff in Hpre'. congruence.
        -- cbn in E'. injection E' as <- ->.
           apply (separator_occurs_at_app (String c pre') rest) in Hpre'.
           apply (separator_occurs_at_app pre' rest) in Hpre'.
           specialize (Hmin _ Hpre'). cbn. lia.
Qed.

Lemma before_separator_none (s pre : string) :
  before_separator s = None -> ~ separator_occurs_at s pre.
Proof.
  revert pre. induction s as [|c s IH]; intros pre; cbn [before_separator].
  - intros _ (ws1 & ws2 & post & _ & _ & N1 & _ & E).
    destruct pre; [|discriminate]. destruct ws1; [congruence|discriminate].
  - destruct (separator_here (String c s)) eqn:E; [discriminate|].
    destruct (before_separator s) as [p|] eqn:B; [discriminate|].
    intros _ Hat.
    destruct (separator_occurs_at_prefix _ _ Hat) as [rest E'].
    destruct pre as [|c' pre].
    + cbn in E'. subst rest. apply separator_here_iff in Hat. congruence.
    + cbn in E'. injection E' as <- ->.
      apply (separator_occurs_at_app (String c pre) rest) in Hat.
      apply (separator_occurs_at_app pre rest) in Hat.
      exact (IH pre eq_refl Hat).
Qed.

Lemma first_separator_unique (s p q : string) :
  first_separator_at s p -> first_separator_at s q -> p = q.
Proof.
  intros [Hp Mp] [Hq Mq].
  pose proof (Mp _ Hq) as L1. pose proof (Mq _ Hp) as L2.
  destruct (separator_occurs_at_prefix _ _ Hp) as [rp Ep].
  destruct (separator_occurs_at_prefix _ _ Hq) as [rq Eq].
  rewrite Ep in Eq.
  apply (StrFacts.append_same_length p rp q rq Eq). lia.
Qed.

Lemma before_separator_first (s pre : string) :
  first_separator_at s pre -> before_separator s = Some pre.
Proof.
  intros H. destruct (before_separator s) as [p|] eqn:B.
  - f_equal. apply (first_separator_unique s); [now apply before_separator_some|assumption].
  - exfalso. exact (before_separator_none s pre B (proj1 H)).
Qed.

Definition doublyEncodedTitle : string := "Fish &amp;amp; Chips with Tartar Sauce".

(** C2, as stated, fails on a title that still holds an entity after the
    handler's decoding: the handler decodes [doublyEncodedTitle] to
    "Fish &amp; Chips with Tartar Sauce", and the description the normalizer
    returns for this decoded title is not that text but
    "Fish & Chips with Tartar Sauce". *)
Lemma title_description_counterexample :
  decodeEntities doublyEncodedTitle = "Fish &amp; Chips with Tartar Sauce"
  /\ snd (parseMenuItemText (decodeEntities doublyEncodedTitle))
     = "Fish & Chips with Tartar Sauce"
  /\ snd (parseMenuItemText (decodeEntities doublyEncodedTitle))
     <> decodeEntities doublyEncodedTitle.
Proof.
  split; [reflexivity|]. split; [reflexivity|]. vm_compute. discriminate.
Qed.

(** C2, amended.  For every decoded item title of ASCII characters, let
    [clean] be the title after the normalizer's own replacement of [&amp;] by [&] and of [&#39;]
    by ['], which is the title itself when it holds neither.  If [clean]
    contains "with" surrounded by white space, the name is the text of
    [clean] before the first occurrence, trimmed, and the description is the
    whole of [clean]; if it does not, name and description are both [clean].
    The character [&] is never a split point: "Chicken & Waffles with Syrup"
    yields the name "Chicken & Waffles" and itself as description. *)
Theorem title_normalizer :
  forall text : string,
    Js.is_ascii text = true ->
    (Js.includes "&amp;" text = false -> Js.includes "&#39;" text = false ->
     cleanText text = text)
    /\ (forall pre, first_separator_at (cleanText text) pre ->
          parseMenuItemText text = (Js.trim pre, cleanText text))
    /\ ((forall pre, ~ separator_occurs_at (cleanText text) pre) ->
          parseMenuItemText text = (cleanText text, cleanText text))
    /\ parseMenuItemText "Chicken & Waffles with Syrup"
       = ("Chicken & Waffles", "Chicken & Waffles with Syrup").
Proof.
  intros text _. split; [|split; [|split]].
  - intros Ha Hq. unfold cleanText.
    rewrite (StrFacts.replaceAll_absent "&amp;") by assumption.
    now apply StrFacts.replaceAll_absent.
  - intros pre H. unfold parseMenuItemText.
    now rewrite (before_separator_first _ _ H).
  - intros H. unfold parseMenuItemText.
    destruct (before_separator (cleanText text)) as [p|] eqn:B; [|reflexivity].
    exfalso. exact (H p (proj1 (before_separator_some _ _ B))).
  - reflexivity.
Qed.

Lemma chicken_waffles_separator :
  first_separator_at (cleanText "Chicken & Waffles with Syrup") "Chicken & Waffles".
Proof. apply before_separator_some. reflexivity. Defined.

Lemma title_normalizer_witness :
  cleanText "Chicken & Waffles with Syrup" = "Chicken & Waffles with Syrup"
  /\ parseMenuItemText "Chicken & Waffles with Syrup"
     = (Js.trim "Chicken & Waffles", cleanText "Chicken & Waffles with Syrup")
  /\ parseMenuItemText "Mac & Cheese" = (cleanText "Mac & Cheese", cleanText "Mac & Cheese").
Proof.
  split; [|split].
  - apply (proj1 (title_normalizer "Chicken & Waffles with Syrup" eq_refl));
      reflexivity.
  - apply (proj1 (proj2 (title_normalizer "Chicken & Waffles with Syrup" eq_refl))).
    exact chicken_waffles_separator.
  - apply (proj1 (proj2 (proj2 (title_normalizer "Mac & Cheese" eq_refl)))).
    intros pre. apply before_separator_none. reflexivity.
Defined.

(** ** The week bucketer *)

Definition by_date (a b : DailyMenu) : Prop := date a <= date b.

Lemma insertByTime_perm x l : Permutation (insertByTime x l) (x :: l).
Proof.
  induction l as [|y l IH]; cbn [insertByTime]; [reflexivity|].
  destruct (date x <=? date y); [reflexivity|].
  rewrite IH. apply perm_swap.
Qed.

Lemma sortByTime_perm l : Permutation (sortByTime l) l.
Proof.
  induction l as [|x l IH]; cbn [sortByTime]; [reflexivity|].
  rewrite insertByTime_perm. now constructor.
Qed.

Lemma insertByTime_sorted x l :
  StronglySorted by_date l -> StronglySorted by_date (insertByTime x l).
Proof.
  induction 1 as [|y l Hs IH Hy]; cbn [insertByTime].
  - repeat constructor.
  - destruct (Z.leb_spec (date x) (date y)) as [Hle|Hgt].
    + constructor; [now constructor|].
      constructor; [exact Hle|].
      eapply Forall_impl; [|exact Hy]. unfold by_date. intros; lia.
    + constructor; [exact IH|].
      rewrite (insertByTime_perm x l). constructor; [unfold by_date; lia|exact Hy].
Qed.

Lemma sortByTime_sorted l : StronglySorted by_date (sortByTime l).
Proof.
  induction l as [|x l IH]; cbn [sortByTime]; [constructor|].
  now apply insertByTime_sorted.
Qed.

(** The sort keeps a list that is already in order as it is. *)
Lemma sortByTime_of_sorted l : StronglySorted by_date l -> sortByTime l = l.
Proof.
  induction 1 as [|x l Hs IH Hx]; cbn [sortByTime]; [reflexivity|].
  rewrite IH. destruct l as [|y l]; [reflexivity|]. cbn [insertByTime].
  apply Forall_inv in Hx. unfold by_date in Hx.
  now replace (date x <=? date y) with true by (symmetry; apply Z.leb_le; lia).
Qed.

Lemma sortByTime_idem l : sortByTime (sortByTime l) = sortByTime l.
Proof. apply sortByTime_of_sorted, sortByTime_sorted. Qed.

(** The weekly menus the loop builds from the running week [s], its menus
    [cur] and the daily menus still to come. *)
Fixpoint weeksFrom (s : Cal.Date) (cur rest : list DailyMenu) : list WeeklyMenu :=
  match rest with
  | [] => [WeeklyMenu_on s (Cal.endOfWeek s) cur]
  | m :: rest' =>
      if Cal.isSameWeek (Cal.startOfWeek (date m)) s
      then weeksFrom s (cur ++ [m]) rest'
      else WeeklyMenu_on s (Cal.endOfWeek s) cur
           :: weeksFrom (Cal.startOfWeek (date m)) [m] rest'
  end.

Lemma length_pos_nonempty {A : Type} (l : list A) :
  l <> [] -> (0 <? Z.of_nat (List.length l)) = true.
Proof. destruct l; [congruence|]. intros _. apply Z.ltb_lt. cbn [List.length]. lia. Qed.

Lemma weekLoop_weeksFrom rest :
  forall acc cur s, cur <> [] ->
    pushWeek (fold_left weekStep rest
                {| weeklyMenusAcc := acc; currentWeekMenus := cur;
                   currentWeekStartDate := Some s |})
    = acc ++ weeksFrom s cur rest.
Proof.
  induction rest as [|m rest IH]; intros acc cur s Hcur.
  - cbn [fold_left weeksFrom]. unfold pushWeek.
    cbn [currentWeekStartDate currentWeekMenus weeklyMenusAcc].
    now rewrite length_pos_nonempty.
  - cbn [fold_left weeksFrom]. unfold weekStep at 2.
    cbn [currentWeekStartDate currentWeekMenus weeklyMenusAcc].
    destruct (Cal.isSameWeek (Cal.startOfWeek (date m)) s); cbn [negb].
    + apply IH. destruct cur; discriminate.
    + rewrite IH by discriminate. unfold pushWeek.
      cbn [currentWeekStartDate currentWeekMenus weeklyMenusAcc].
      rewrite length_pos_nonempty by assumption.
      now rewrite <- app_assoc.
Qed.

Lemma groupDailyMenusByWeek_eq l :
  groupDailyMenusByWeek l =
  match sortByTime l with
  | [] => []
  | m :: rest => weeksFrom (Cal.startOfWeek (date m)) [m] rest
  end.
Proof.
  unfold groupDailyMenusByWeek. destruct l as [|x l]; [reflexivity|].
  destruct (sortByTime (x :: l)) as [|m rest] eqn:E.
  - pose proof (sortByTime_perm (x :: l)) as P. rewrite E in P.
    apply Permutation_nil in P. discriminate.
  - cbn [fold_left]. unfold weekStep at 2.
    cbn [currentWeekStartDate currentWeekMenus weeklyMenusAcc].
    rewrite weekLoop_weeksFrom by discriminate. reflexivity.
Qed.

(** A weekly menu as the bucketer should build it: not empty, starting on
    the Monday that is the week start of each of its daily menus, ending six
    days later. *)
Definition week_bucket_ok (w : WeeklyMenu) : Prop :=
  dailyMenus w <> []
  /\ Cal.getDay (startDate w) = 1
  /\ endDate w = startDate w + 6
  /\ Forall (fun m => Cal.startOfWeek (date m) = startDate w) (dailyMenus w).

Definition week_before (a b : WeeklyMenu) : Prop := startDate a < startDate b.

Lemma isSameWeek_monday d s :
  Cal.getDay s = 1 ->
  Cal.isSameWeek (Cal.startOfWeek d) s = (Cal.startOfWeek d =? s).
Proof.
  intros Hs. unfold Cal.isSameWeek.
  now rewrite WeekFacts.startOfWeek_idem, (WeekFacts.startOfWeek_of_monday s Hs).
Qed.

Lemma weeksFrom_ok rest :
  forall s cur,
    Cal.getDay s = 1 -> cur <> [] ->
    Forall (fun m => Cal.startOfWeek (date m) = s) cur ->
    Forall week_bucket_ok (weeksFrom s cur rest).
Proof.
  assert (Hone : forall s cur, Cal.getDay s = 1 -> cur <> [] ->
                   Forall (fun m => Cal.startOfWeek (date m) = s) cur ->
                   week_bucket_ok (WeeklyMenu_on s (Cal.endOfWeek s) cur)).
  { intros s cur Hs Hc Hall. unfold week_bucket_ok, WeeklyMenu_on.
    cbn [startDate endDate dailyMenus].
    repeat split; try assumption. now apply WeekFacts.endOfWeek_of_monday. }
  induction rest as [|m rest IH]; intros s cur Hs Hc Hall; cbn [weeksFrom].
  - constructor; [now apply Hone|constructor].
  - rewrite isSameWeek_monday by assumption.
    destruct (Z.eqb_spec (Cal.startOfWeek (date m)) s) as [E|E].
    + apply IH; [assumption|destruct cur; discriminate|].
      apply Forall_app. split; [assumption|]. now constructor.
    + constructor; [now apply Hone|].
      apply IH; [apply WeekFacts.startOfWeek_monday|discriminate|].
      now constructor.
Qed.

Lemma weeksFrom_flat rest :
  forall s cur, flat_map dailyMenus (weeksFrom s cur rest) = cur ++ rest.
Proof.
  induction rest as [|m rest IH]; intros s cur; cbn [weeksFrom].
  - cbn. now rewrite app_nil_r.
  - destruct (Cal.isSameWeek (Cal.startOfWeek (date m)) s).
    + rewrite IH. now rewrite <- app_assoc.
    + cbn [flat_map dailyMenus WeeklyMenu_on]. now rewrite IH.
Qed.

Lemma weeksFrom_ascending rest :
  forall s cur,
    Cal.getDay s = 1 ->
    StronglySorted by_date rest ->
    Forall (fun m => s <= Cal.startOfWeek (date m)) rest ->
    StronglySorted week_before (weeksFrom s cur rest)
    /\ Forall (fun w => s <= startDate w) (weeksFrom s cur rest).
Proof.
  induction rest as [|m rest IH]; intros s cur Hs Hsorted Hge; cbn [weeksFrom].
  - split; repeat constructor. cbn. lia.
  - apply StronglySorted_inv in Hsorted as [Hsorted Hm].
    apply Forall_cons_iff in Hge as [Hgm Hge].
    rewrite isSameWeek_monday by assumption.
    destruct (Z.eqb_spec (Cal.startOfWeek (date m)) s) as [E|E].
    + now apply IH.
    + assert (Hnext : Forall (fun m' => Cal.startOfWeek (date m)
                                         <= Cal.startOfWeek (date m')) rest).
      { eapply Forall_impl; [|exact Hm]. intros m' Hle.
        now apply WeekFacts.startOfWeek_mono. }
      destruct (IH (Cal.startOfWeek (date m)) [m]
                  (WeekFacts.startOfWeek_monday _) Hsorted Hnext) as [S G].
      split.
      * constructor; [exact S|].
        eapply Forall_impl; [|exact G]. unfold week_before. cbn. intros; lia.
      * constructor; [cbn; lia|].
        eapply Forall_impl; [|exact G]. cbn. intros; lia.
Qed.

Lemma group_flat l : flat_map dailyMenus (groupDailyMenusByWeek l) = sortByTime l.
Proof.
  rewrite groupDailyMenusByWeek_eq.
  destruct (sortByTime l) as [|m rest]; [reflexivity|].
  now rewrite weeksFrom_flat.
Qed.

Lemma group_ok l : Forall week_bucket_ok (groupDailyMenusByWeek l).
Proof.
  rewrite groupDailyMenusByWeek_eq.
  destruct (sortByTime l) as [|m rest]; [constructor|].
  apply weeksFrom_ok; [apply WeekFacts.startOfWeek_monday|discriminate|].
  now constructor.
Qed.

Lemma group_ascending l : StronglySorted week_before (groupDailyMenusByWeek l).
Proof.
  rewrite groupDailyMenusByWeek_eq.
  pose proof (sortByTime_sorted l) as S.
  destruct (sortByTime l) as [|m rest]; [constructor|].
  apply StronglySorted_inv in S as [S Hm].
  apply weeksFrom_ascending; [apply WeekFacts.startOfWeek_monday|exact S|].
  eapply Forall_impl; [|exact Hm]. intros m' Hle.
  now apply WeekFacts.startOfWeek_mono.
Qed.

Lemma bucket_in_range w :
  week_bucket_ok w ->
  Forall (fun m => startDate w <= date m <= endDate w) (dailyMenus w).
Proof.
  intros (_ & Hmon & Hend & Hall).
  eapply Forall_impl; [|exact Hall]. intros m Hm. cbn in Hm.
  rewrite Hend. now apply WeekFacts.in_week_iff.
Qed.

(** The dates are of the four-digit range, and so are the ends of their
    weeks. *)
Definition dates_in_range (l : list DailyMenu) : Prop :=
  Forall (fun m => Cal.date_ok (date m) /\ Cal.date_ok (Cal.addDays (date m) 6)) l.

(** C8.  Every weekly menu the bucketer produces starts on the Monday that
    is the week start of its members' dates and ends six days later, on the
    Sunday, and each of its daily menus falls between the two; the weekly
    menus come in ascending order of start date, one for each week that has
    a daily menu in the input and none for any other week.  The bucketer
    hands the start and the end of a week to [WeeklyMenu]'s constructor as
    rendered dates: the input dates are those of the four-digit range, with
    the ends of their weeks. *)
Theorem week_buckets_invariant :
  forall l : list DailyMenu,
    dates_in_range l ->
    Forall (fun w =>
              dailyMenus w <> []
              /\ Forall (fun m => startDate w = Cal.startOfWeek (date m)) (dailyMenus w)
              /\ Cal.getDay (startDate w) = 1
              /\ endDate w = Cal.addDays (startDate w) 6
              /\ Cal.getDay (endDate w) = 0
              /\ Forall (fun m => startDate w <= date m <= endDate w) (dailyMenus w))
           (groupDailyMenusByWeek l)
    /\ StronglySorted (fun a b => startDate a < startDate b) (groupDailyMenusByWeek l)
    /\ (forall s, In s (map startDate (groupDailyMenusByWeek l))
                  <-> exists m, In m l /\ Cal.startOfWeek (date m) = s)
    /\ Permutation (flat_map dailyMenus (groupDailyMenusByWeek l)) l.
Proof.
  intros l _. pose proof (group_ok l) as Hok.
  split; [|split; [exact (group_ascending l)|split]].
  - eapply Forall_impl; [|exact Hok]. intros w Hw.
    pose proof (bucket_in_range w Hw) as Hr.
    destruct Hw as (Hne & Hmon & Hend & Hall).
    repeat split; try assumption.
    + eapply Forall_impl; [|exact Hall]. cbn. intros; congruence.
    + rewrite Hend. unfold Cal.getDay in *. lia.
  - intros s. rewrite in_map_iff. split.
    + intros (w & <- & Hw).
      rewrite Forall_forall in Hok. destruct (Hok w Hw) as (Hne & _ & _ & Hall).
      destruct (dailyMenus w) as [|m ms] eqn:E; [congruence|].
      exists m. split; [|now apply Forall_inv in Hall].
      apply (Permutation_in m (sortByTime_perm l)). rewrite <- group_flat.
      apply in_flat_map. exists w. split; [assumption|]. rewrite E. now left.
    + intros (m & Hm & <-).
      apply (Permutation_in m (Permutation_sym (sortByTime_perm l))) in Hm.
      rewrite <- group_flat in Hm. apply in_flat_map in Hm as (w & Hw & Hmw).
      exists w. split; [|assumption].
      rewrite Forall_forall in Hok. destruct (Hok w Hw) as (_ & _ & _ & Hall).
      rewrite Forall_forall in Hall. symmetry. now apply Hall.
  - rewrite group_flat. apply sortByTime_perm.
Qed.

(** *** Independence of the input order *)

Definition in_week (s : Cal.Date) (m : DailyMenu) : bool :=
  Cal.startOfWeek (date m) =? s.

Lemma filter_perm {A : Type} (p : A -> bool) (l l' : list A) :
  Permutation l l' -> Permutation (filter p l) (filter p l').
Proof.
  induction 1 as [|x l l' _ IH|x y l|l l' l'' _ IH1 _ IH2]; cbn [filter].
  - constructor.
  - destruct (p x); [now constructor|exact IH].
  - destruct (p x), (p y); try reflexivity. apply perm_swap.
  - now transitivity (filter p l').
Qed.

Lemma filter_all {A : Type} (p : A -> bool) (l : list A) :
  Forall (fun x => p x = true) l -> filter p l = l.
Proof.
  induction 1 as [|x l Hx _ IH]; cbn [filter]; [reflexivity|].
  now rewrite Hx, IH.
Qed.

Lemma filter_none {A : Type} (p : A -> bool) (l : list A) :
  Forall (fun x => p x = false) l -> filter p l = [].
Proof.
  induction 1 as [|x l Hx _ IH]; cbn [filter]; [reflexivity|].
  now rewrite Hx, IH.
Qed.

(** The daily menus of the weeks after a week [s] are in another week. *)
Lemma later_weeks_elsewhere s ws :
  Forall week_bucket_ok ws ->
  Forall (fun w => s < startDate w) ws ->
  Forall (fun m => in_week s m = false) (flat_map dailyMenus ws).
Proof.
  intros Hok Hlt. apply Forall_forall. intros m Hm.
  apply in_flat_map in Hm as (w & Hw & Hmw).
  rewrite Forall_forall in Hok, Hlt.
  destruct (Hok w Hw) as (_ & _ & _ & Hall). rewrite Forall_forall in Hall.
  specialize (Hall m Hmw). specialize (Hlt w Hw). cbn in Hall.
  unfold in_week. apply Z.eqb_neq. lia.
Qed.

Lemma first_week_split w ws :
  Forall week_bucket_ok (w :: ws) ->
  StronglySorted week_before (w :: ws) ->
  filter (in_week (startDate w)) (flat_map dailyMenus (w :: ws)) = dailyMenus w
  /\ filter (fun m => negb (in_week (startDate w) m)) (flat_map dailyMenus (w :: ws))
     = flat_map dailyMenus ws.
Proof.
  intros Hok Hs. apply Forall_cons_iff in Hok as [Hw Hok].
  apply StronglySorted_inv in Hs as [_ Hlt].
  pose proof (later_weeks_elsewhere (startDate w) ws Hok Hlt) as Hlater.
  destruct Hw as (_ & _ & _ & Hall).
  cbn [flat_map]. rewrite !filter_app. split.
  - rewrite filter_all, filter_none, app_nil_r; [reflexivity|exact Hlater|].
    eapply Forall_impl; [|exact Hall]. intros m Hm. cbn in Hm.
    unfold in_week. now apply Z.eqb_eq.
  - rewrite filter_none, filter_all; [reflexivity| |].
    + eapply Forall_impl; [|exact Hlater]. cbn. now intros m ->.
    + eapply Forall_impl; [|exact Hall]. intros m Hm. cbn in Hm.
      unfold in_week. apply negb_false_iff. now apply Z.eqb_eq.
Qed.

(** The first week of an ascending list of buckets is the earliest week of
    any of their daily menus. *)
Lemma first_week_least w ws m :
  Forall week_bucket_ok (w :: ws) ->
  StronglySorted week_before (w :: ws) ->
  In m (flat_map dailyMenus (w :: ws)) ->
  startDate w <= Cal.startOfWeek (date m).
Proof.
  intros Hok Hs Hm. apply in_flat_map in Hm as (w' & Hw' & Hmw').
  rewrite Forall_forall in Hok.
  destruct (Hok w' Hw') as (_ & _ & _ & Hall).
  rewrite Forall_forall in Hall. rewrite (Hall m Hmw').
  destruct Hw' as [<-|Hw']; [lia|].
  apply StronglySorted_inv in Hs as [_ Hlt]. rewrite Forall_forall in Hlt.
  specialize (Hlt w' Hw'). unfold week_before in Hlt. lia.
Qed.

(** Two ascending lists of well-formed buckets over the same daily menus
    have the same weeks, with the same members up to their order. *)
Lemma buckets_determined ws :
  forall ws',
    Forall week_bucket_ok ws -> StronglySorted week_before ws ->
    Forall week_bucket_ok ws' -> StronglySorted week_before ws' ->
    Permutation (flat_map dailyMenus ws) (flat_map dailyMenus ws') ->
    Forall2 (fun w w' => startDate w = startDate w' /\ endDate w = endDate w'
                         /\ Permutation (dailyMenus w) (dailyMenus w')) ws ws'.
Proof.
  induction ws as [|w ws IH]; intros ws' Hok Hs Hok' Hs' P.
  - destruct ws' as [|w' ws']; [constructor|]. exfalso.
    apply Forall_inv in Hok'. destruct Hok' as (Hne & _).
    cbn [flat_map] in P. apply Permutation_nil in P.
    apply app_eq_nil in P as [P _]. congruence.
  - destruct ws' as [|w' ws'].
    + exfalso. apply Forall_inv in Hok. destruct Hok as (Hne & _).
      cbn [flat_map] in P. apply Permutation_sym, Permutation_nil in P.
      apply app_eq_nil in P as [P _]. congruence.
    + assert (Hstart : startDate w = startDate w').
      { pose proof (Forall_inv Hok) as (Hne & _ & _ & Hall).
        pose proof (Forall_inv Hok') as (Hne' & _ & _ & Hall').
        destruct (dailyMenus w) as [|m ms] eqn:E; [congruence|].
        destruct (dailyMenus w') as [|m' ms'] eqn:E'; [congruence|].
        apply Forall_inv in Hall, Hall'. cbn in Hall, Hall'.
        assert (Hm : In m (flat_map dailyMenus (w :: ws))).
        { cbn [flat_map]. rewrite E. now left. }
        assert (Hm' : In m' (flat_map dailyMenus (w' :: ws'))).
        { cbn [flat_map]. rewrite E'. now left. }
        pose proof (first_week_least w' ws' m Hok' Hs'
                      (Permutation_in m P Hm)) as L1.
        pose proof (first_week_least w ws m' Hok Hs
                      (Permutation_in m' (Permutation_sym P) Hm')) as L2.
        lia. }
      destruct (first_week_split w ws Hok Hs) as [F1 F2].
      destruct (first_week_split w' ws' Hok' Hs') as [F1' F2'].
      rewrite <- Hstart in F1', F2'.
      constructor.
      * split; [exact Hstart|]. split.
        -- pose proof (Forall_inv Hok) as (_ & _ & He & _).
           pose proof (Forall_inv Hok') as (_ & _ & He' & _). lia.
        -- rewrite <- F1, <- F1'. now apply filter_perm.
      * apply IH.
        -- now apply Forall_inv_tail in Hok.
        -- now apply StronglySorted_inv in Hs.
        -- now apply Forall_inv_tail in Hok'.
        -- now apply StronglySorted_inv in Hs'.
        -- rewrite <- F2, <- F2'. now apply filter_perm.
Qed.

Lemma Forall2_map_eq {A B : Type} (f : A -> B) (R : A -> A -> Prop) (l l' : list A) :
  (forall a b, R a b -> f a = f b) -> Forall2 R l l' -> map f l = map f l'.
Proof.
  intros H. induction 1 as [|a b l l' Hab _ IH]; cbn [map]; [reflexivity|].
  now rewrite (H a b Hab), IH.
Qed.

(** C9.  Week bucketing does not depend on the order of its input, and
    bucketing its own output changes nothing: for a list of daily menus and
    any permutation of it, the two results have the same start and end
    dates, bucket by bucket, and the same daily menus in each bucket up to
    their order, in ascending order of start date; and bucketing the
    flattened result gives the result again. *)
Theorem week_buckets_order_independent :
  forall l l' : list DailyMenu,
    Permutation l l' ->
    map (fun w => (startDate w, endDate w)) (groupDailyMenusByWeek l')
    = map (fun w => (startDate w, endDate w)) (groupDailyMenusByWeek l)
    /\ Forall2 (fun w w' => Permutation (dailyMenus w) (dailyMenus w'))
               (groupDailyMenusByWeek l) (groupDailyMenusByWeek l')
    /\ StronglySorted (fun a b => startDate a < startDate b)
                      (groupDailyMenusByWeek l')
    /\ groupDailyMenusByWeek (flat_map dailyMenus (groupDailyMenusByWeek l))
       = groupDailyMenusByWeek l.
Proof.
  intros l l' P.
  assert (D : Forall2 (fun w w' => startDate w = startDate w'
                                   /\ endDate w = endDate w'
                                   /\ Permutation (dailyMenus w) (dailyMenus w'))
                      (groupDailyMenusByWeek l) (groupDailyMenusByWeek l')).
  { apply buckets_determined; try apply group_ok; try apply group_ascending.
    rewrite !group_flat, !sortByTime_perm. exact P. }
  split; [|split; [|split]].
  - symmetry. eapply Forall2_map_eq; [|exact D].
    intros a b (-> & -> & _). reflexivity.
  - eapply Forall2_impl; [|exact D]. now intros a b (_ & _ & H).
  - apply group_ascending.
  - rewrite group_flat, !groupDailyMenusByWeek_eq.
    now rewrite sortByTime_idem.
Qed.

Definition mondayLunch : DailyMenu := DailyMenu_on (Cal.newDate 2024 0 8) LUNCH [].
Definition mondayBreakfast : DailyMenu := DailyMenu_on (Cal.newDate 2024 0 8) BREAKFAST [].
Definition wednesdayLunch : DailyMenu := DailyMenu_on (Cal.newDate 2024 0 3) LUNCH [].

Example three_menus_bucketed :
  groupDailyMenusByWeek [mondayLunch; wednesdayLunch; mondayBreakfast]
  = [WeeklyMenu_on (Cal.newDate 2024 0 1) (Cal.newDate 2024 0 7) [wednesdayLunch];
     WeeklyMenu_on (Cal.newDate 2024 0 8) (Cal.newDate 2024 0 14)
                   [mondayLunch; mondayBreakfast]].
Proof. vm_compute. reflexivity. Qed.

Lemma week_buckets_invariant_witness :
  StronglySorted (fun a b => startDate a < startDate b)
    (groupDailyMenusByWeek [mondayLunch; wednesdayLunch; mondayBreakfast])
  /\ Permutation
       (flat_map dailyMenus
          (groupDailyMenusByWeek [mondayLunch; wednesdayLunch; mondayBreakfast]))
       [mondayLunch; wednesdayLunch; mondayBreakfast].
Proof.
  assert (Hrange : dates_in_range [mondayLunch; wednesdayLunch; mondayBreakfast]).
  { constructor; [|constructor; [|constructor; [|constructor]]];
      (split; apply date_ok_by_computation; vm_compute; reflexivity). }
  destruct (week_buckets_invariant [mondayLunch; wednesdayLunch; mondayBreakfast]
              Hrange)
    as (_ & Hsorted & _ & Hperm).
  split; assumption.
Defined.

Lemma week_buckets_order_independent_witness :
  map (fun w => (startDate w, endDate w))
      (groupDailyMenusByWeek [wednesdayLunch; mondayLunch; mondayBreakfast])
  = map (fun w => (startDate w, endDate w))
        (groupDailyMenusByWeek [mondayLunch; wednesdayLunch; mondayBreakfast])
  /\ Forall2 (fun w w' => Permutation (dailyMenus w) (dailyMenus w'))
             (groupDailyMenusByWeek [mondayLunch; wednesdayLunch; mondayBreakfast])
             (groupDailyMenusByWeek [wednesdayLunch; mondayLunch; mondayBreakfast])
  /\ StronglySorted (fun a b => startDate a < startDate b)
       (groupDailyMenusByWeek [wednesdayLunch; mondayLunch; mondayBreakfast])
  /\ groupDailyMenusByWeek
       (flat_map dailyMenus
          (groupDailyMenusByWeek [mondayLunch; wednesdayLunch; mondayBreakfast]))
     = groupDailyMenusByWeek [mondayLunch; wednesdayLunch; mondayBreakfast].
Proof.
  exact (week_buckets_order_independent
           [mondayLunch; wednesdayLunch; mondayBreakfast]
           [wednesdayLunch; mondayLunch; mondayBreakfast]
           (perm_swap wednesdayLunch mondayLunch [mondayBreakfast])).
Defined.

(** ** The date element *)





(** Where the dates of a state come from. *)
Module InlineDates.
Import Inline.

Definition dates_in (D : Cal.Date -> Prop) (st : State) : Prop :=
  (forall box d, currentDayBox st = Some box -> box_date box = Some d -> D d)
  /\ Forall (fun box => forall d, box_date box = Some d -> D d) (dayBoxes st).






End InlineDates.

Module StatefulDates.
Import Stateful.

Definition dates_in (D : Cal.Date -> Prop) (st : ScraperState) : Prop :=
  (forall box d, currentDayBox st = Some box -> box_date box = Some d -> D d)
  /\ Forall (fun dm => D (date dm)) (completedDays st).






End StatefulDates.

(** *** A day box and its date element *)

(** The attributes of a date element are ASCII text and, when they resolve
    to a date, it is one of the four-digit range: on these the date
    handlers embedded here are those of the code. *)
Definition date_in_range (dataDay dataMonth dataYear : option string) : Prop :=
  Js.ascii_attr dataDay && Js.ascii_attr dataMonth && Js.ascii_attr dataYear = true
  /\ match dateOfAttributes dataDay dataMonth dataYear with
     | Some d => Cal.date_ok d
     | None => True
     end.

Definition event_in_range (e : Event) : Prop :=
  match e with
  | DateEl dataDay dataMonth dataYear => date_in_range dataDay dataMonth dataYear
  | _ => True
  end.




Module InlineDay.
Import Inline.






End InlineDay.

Module StatefulDay.
Import Stateful.







End StatefulDay.







(** ** The two parsers compared *)

Definition noEventsStream : list Event :=
  [Daybox (Some "fsCalendarDaybox");
   DateEl (Some "6") (Some "0") (Some "2025");
   Info;
   EventTitle (Some "Cheese Pizza")].

(** C10, as stated, fails: a day box without the [fsStateHasEvents] class is
    not opened by the inline-state parser, which guards on that class, and
    is opened by the [ScraperState] parser, so the first yields nothing and
    the second a daily menu. *)
Lemma parsers_differ_counterexample :
  Inline.parseCalendarFragment noEventsStream LUNCH = []
  /\ Stateful.parseCalendarFragment noEventsStream LUNCH
     = [DailyMenu_on (Cal.newDate 2025 0 6) LUNCH
          [MenuItem_new {| d_name := "Cheese Pizza";
                           d_description := Some "Cheese Pizza";
                           d_category := Some OTHER;
                           d_isVegetarian := None; d_isVegan := None;
                           d_allergens := Some []; d_nutritionalInfo := Some [] |}]]
  /\ Inline.parseCalendarFragment noEventsStream LUNCH
     <> Stateful.parseCalendarFragment noEventsStream LUNCH.
Proof.
  split; [vm_compute; reflexivity|]. split; [vm_compute; reflexivity|].
  vm_compute. discriminate.
Qed.

(** The class list of a day box that both parsers open. *)
Definition opens_day (class : option string) : Prop :=
  Js.includes "fsCalendarWeekendDayBox" (Js.attr_or class EmptyString) = false
  /\ Js.includes "fsStateHasEvents" (Js.attr_or class EmptyString) = true.

(** The text the title handlers pass on. *)
Definition decodedTitle (title : option string) : string :=
  decodeEntities (Js.trim (Js.attr_or title EmptyString)).

(** The two tests for administrative announcements agree on the title. *)
Definition tests_agree (title : option string) : Prop :=
  Inline.isAdminAnnouncement (decodedTitle title)
  = Stateful.isAdminAnnouncement (decodedTitle title).

(** The events inside a single day box: no further day box, at most one
    title for each item, and only titles on which the two tests agree.
    [titled] tells whether a title was seen since the last item-info. *)
Fixpoint inside_day (titled : bool) (body : list Event) : Prop :=
  match body with
  | [] => True
  | Daybox _ :: _ => False
  | Info :: rest => inside_day false rest
  | EventTitle title :: rest =>
      titled = false /\ tests_agree title /\ inside_day true rest
  | _ :: rest => inside_day titled rest
  end.

Module Agreement.

(** What both parsers keep true of the item being accumulated. *)
Definition item_ok (it : MenuItemData) : Prop :=
  d_isVegetarian it = None /\ d_isVegan it = None
  /\ exists desc, d_description it = Some desc
                  /\ (Js.truthy (d_name it) = true -> Js.truthy desc = true).

Lemma parseMenuItemText_described text :
  Js.truthy (fst (parseMenuItemText text)) = true ->
  Js.truthy (snd (parseMenuItemText text)) = true.
Proof.
  unfold parseMenuItemText.
  destruct (before_separator (cleanText text)) as [p|] eqn:B; cbn [fst snd];
    [|trivial].
  destruct (cleanText text); [|reflexivity].
  cbn in B. discriminate.
Qed.

Lemma item_ok_empty : item_ok emptyMenuItem.
Proof.
  split; [reflexivity|]. split; [reflexivity|].
  exists EmptyString. split; [reflexivity|discriminate].
Qed.

Lemma item_ok_category c it : item_ok it -> item_ok (setCategory c it).
Proof. intros H. exact H. Qed.

Lemma item_ok_title text it :
  item_ok it -> item_ok (setNameDescription (parseMenuItemText text) it).
Proof.
  intros (Hv & Hg & _). split; [exact Hv|]. split; [exact Hg|].
  exists (snd (parseMenuItemText text)). split; [reflexivity|].
  apply parseMenuItemText_described.
Qed.

(** The copy the state class pushes is the item itself. *)
Lemma pushed_copy it :
  item_ok it -> Js.truthy (d_name it) = true ->
  {| d_name := d_name it;
     d_description :=
       Some (Js.or_else (nullish (d_description it) EmptyString) (d_name it));
     d_category := d_category it;
     d_isVegetarian := None;
     d_isVegan := None;
     d_allergens := d_allergens it;
     d_nutritionalInfo := d_nutritionalInfo it |} = it.
Proof.
  intros (Hv & Hg & desc & Hd & Ht) Hn. destruct it as [n de c v g a i].
  cbn in *. subst. cbn [nullish]. unfold Js.or_else. now rewrite (Ht Hn).
Qed.

(** The open items of the two parsers: the same item, without a name as
    long as no title was seen; or, after an administrative title, an item
    without a name in the inline state and none in the state class. *)
Inductive items_match (titled : bool)
  : option MenuItemData -> option MenuItemData -> Prop :=
| match_none : items_match titled None None
| match_same it :
    item_ok it -> (titled = false -> d_name it = EmptyString) ->
    items_match titled (Some it) (Some it)
| match_dropped it :
    titled = true -> d_name it = EmptyString ->
    items_match titled (Some it) None.

(** The states of the two parsers inside a single open day box. *)
Definition sim (mt : MealType) (titled : bool)
  (si : Inline.State) (ss : Stateful.ScraperState) : Prop :=
  exists d items itemI itemS,
    si = {| Inline.currentDayBox :=
              Some {| Inline.box_date := d; Inline.box_menuItems := items |};
            Inline.currentMenuItem := itemI;
            Inline.dayBoxes := [] |}
    /\ ss = {| Stateful.currentDayBox :=
                 Some {| Stateful.box_date := d; Stateful.box_mealType := mt;
                         Stateful.box_menuItems := items |};
               Stateful.currentMenuItem := itemS;
               Stateful.completedDays := [];
               Stateful.stateMealType := mt |}
    /\ items_match titled itemI itemS.

Lemma sim_open mt class :
  opens_day class ->
  sim mt false (Inline.handle Inline.init (Daybox class))
               (Stateful.handle (Stateful.new mt) (Daybox class)).
Proof.
  intros [Hw He]. cbn [Inline.handle Stateful.handle].
  unfold Inline.onDaybox, Stateful.onDaybox. rewrite Hw, He.
  exists None, [], None, None.
  split; [reflexivity|]. split; [reflexivity|]. constructor.
Qed.

(** Completing the open item gives both parsers the same list. *)
Lemma completed_items titled itemI itemS d mt items :
  items_match titled itemI itemS ->
  exists items',
    Inline.pushPending itemI
      {| Inline.box_date := d; Inline.box_menuItems := items |}
    = {| Inline.box_date := d; Inline.box_menuItems := items' |}
    /\ Stateful.currentDayBox
         (Stateful.completePreviousMenuItem
            {| Stateful.currentDayBox :=
                 Some {| Stateful.box_date := d; Stateful.box_mealType := mt;
                         Stateful.box_menuItems := items |};
               Stateful.currentMenuItem := itemS;
               Stateful.completedDays := [];
               Stateful.stateMealType := mt |})
       = Some {| Stateful.box_date := d; Stateful.box_mealType := mt;
                 Stateful.box_menuItems := items' |}
    /\ Stateful.completedDays
         (Stateful.completePreviousMenuItem
            {| Stateful.currentDayBox :=
                 Some {| Stateful.box_date := d; Stateful.box_mealType := mt;
                         Stateful.box_menuItems := items |};
               Stateful.currentMenuItem := itemS;
               Stateful.completedDays := [];
               Stateful.stateMealType := mt |}) = []
    /\ Stateful.stateMealType
         (Stateful.completePreviousMenuItem
            {| Stateful.currentDayBox :=
                 Some {| Stateful.box_date := d; Stateful.box_mealType := mt;
                         Stateful.box_menuItems := items |};
               Stateful.currentMenuItem := itemS;
               Stateful.completedDays := [];
               Stateful.stateMealType := mt |}) = mt.
Proof.
  unfold Inline.pushPending, Stateful.completePreviousMenuItem.
  cbn [Stateful.currentMenuItem Stateful.currentDayBox].
  intros [|it Hok Hn|it Ht Hn].
  - exists items. repeat split.
  - destruct (Js.truthy (d_name it)) eqn:N.
    + rewrite (pushed_copy it Hok N). exists (items ++ [it]). repeat split.
    + exists items. repeat split.
  - rewrite Hn. exists items. repeat split.
Qed.

Lemma sim_step mt titled si ss e rest :
  sim mt titled si ss -> inside_day titled (e :: rest) ->
  exists titled',
    sim mt titled' (Inline.handle si e) (Stateful.handle ss e)
    /\ inside_day titled' rest.
Proof.
  intros (d & items & itemI & itemS & -> & -> & Hm) He.
  destruct e as [cls|dd mm yy| |style|title]; cbn [inside_day] in He;
    cbn [Inline.handle Stateful.handle].
  - destruct He.
  - exists titled. split; [|exact He].
    unfold Inline.onDate, Stateful.onDate, Stateful.setDateInfo.
    cbn [Inline.currentDayBox Stateful.currentDayBox].
    destruct (dateOfAttributes dd mm yy) as [d0|].
    + exists (Some d0), items, itemI, itemS.
      split; [reflexivity|]. split; [reflexivity|exact Hm].
    + exists d, items, itemI, itemS.
      split; [reflexivity|]. split; [reflexivity|exact Hm].
  - exists false. split; [|exact He].
    destruct (completed_items titled itemI itemS d mt items Hm)
      as (items' & EI & ES & EC & EM).
    unfold Inline.onInfo, Stateful.startMenuItem.
    cbn [Inline.currentDayBox Inline.currentMenuItem Inline.dayBoxes].
    rewrite EI, ES, EC, EM.
    exists d, items', (Some emptyMenuItem), (Some emptyMenuItem).
    split; [reflexivity|]. split; [reflexivity|].
    constructor; [apply item_ok_empty|reflexivity].
  - exists titled. split; [|exact He].
    unfold Inline.onColorIcon, Stateful.onColorIcon, Stateful.setMenuItemCategory.
    cbn [Inline.currentMenuItem Stateful.currentMenuItem
         Inline.currentDayBox Inline.dayBoxes].
    destruct (categoryOfStyle style) as [c|].
    + destruct Hm as [|it Hok Hn|it Ht Hn].
      * exists d, items, None, None.
        split; [reflexivity|]. split; [reflexivity|constructor].
      * exists d, items, (Some (setCategory c it)), (Some (setCategory c it)).
        split; [reflexivity|]. split; [reflexivity|].
        constructor; [now apply item_ok_category|exact Hn].
      * exists d, items, (Some (setCategory c it)), None.
        split; [reflexivity|]. split; [reflexivity|].
        constructor; [exact Ht|exact Hn].
    + exists d, items, itemI, itemS.
      split; [destruct itemI; reflexivity|]. split; [reflexivity|exact Hm].
  - destruct He as (-> & Hagree & He). exists true. split; [|exact He].
    unfold Inline.onEventTitle, Stateful.onEventTitle, Stateful.setMenuItemTitle.
    cbn [Inline.currentMenuItem Stateful.currentMenuItem
         Inline.currentDayBox Inline.dayBoxes].
    unfold tests_agree, decodedTitle in Hagree.
    destruct Hm as [|it Hok Hn|it Ht Hn]; [| |discriminate].
    + exists d, items, None, None.
      split; [reflexivity|]. split; [|constructor].
      now destruct (Js.truthy _).
    + destruct (Js.truthy (Js.trim (Js.attr_or title EmptyString))).
      * rewrite <- Hagree.
        destruct (Inline.isAdminAnnouncement _).
        -- exists d, items, (Some it), None.
           split; [reflexivity|]. split; [reflexivity|].
           constructor; [reflexivity|now apply Hn].
        -- eexists d, items, (Some _), (Some _).
           split; [reflexivity|]. split; [reflexivity|].
           constructor; [now apply item_ok_title|discriminate].
      * exists d, items, (Some it), (Some it).
        split; [reflexivity|]. split; [reflexivity|].
        constructor; [exact Hok|discriminate].
Qed.

Lemma sim_run mt body :
  forall titled si ss,
    sim mt titled si ss -> inside_day titled body ->
    exists titled',
      sim mt titled' (fold_left Inline.handle body si)
                     (fold_left Stateful.handle body ss).
Proof.
  induction body as [|e body IH]; intros titled si ss Hs Hb; cbn [fold_left].
  - now exists titled.
  - destruct (sim_step mt titled si ss e body Hs Hb) as (titled' & Hs' & Hb').
    exact (IH titled' _ _ Hs' Hb').
Qed.

Lemma sim_finish mt titled si ss :
  sim mt titled si ss ->
  Inline.toDailyMenus mt (Inline.completeDayBox si)
  = Stateful.getCompletedDays (Stateful.endDayBox (Stateful.endMenuItem ss)).
Proof.
  intros (d & items & itemI & itemS & -> & -> & Hm).
  destruct (completed_items titled itemI itemS d mt items Hm)
    as (items' & EI & ES & EC & EM).
  unfold Inline.completeDayBox, Stateful.getCompletedDays, Stateful.endDayBox,
    Stateful.endMenuItem, Stateful.completePreviousDayBox.
  cbn [Inline.currentDayBox Inline.currentMenuItem Inline.dayBoxes
       Stateful.currentDayBox Stateful.currentMenuItem
       Stateful.completedDays Stateful.stateMealType].
  rewrite EI, ES, EC, EM. unfold Inline.hasValidData.
  cbn [Inline.box_date Inline.box_menuItems Stateful.box_date
       Stateful.box_menuItems Stateful.box_mealType].
  destruct d as [d0|]; [|reflexivity].
  destruct (0 <? Z.of_nat (List.length items')) eqn:L; [|reflexivity].
  cbn. now rewrite L.
Qed.

End Agreement.

(** C10, amended.  On every event sequence that opens exactly one day box,
    as its first event, whose class list holds [fsStateHasEvents] and no
    weekend marker, in which each item has at most one title and the two
    tests for administrative announcements agree on every title, and whose
    date elements have ASCII attributes that resolve to no date or to a
    date of the four-digit range, the inline-state parser and the
    [ScraperState] parser produce the same sequence of daily menus, for
    every meal type. *)
Theorem parsers_agree_on_single_day :
  forall (class : option string) (body : list Event) (mt : MealType),
    opens_day class ->
    inside_day false body ->
    Forall event_in_range body ->
    Inline.parseCalendarFragment (Daybox class :: body) mt
    = Stateful.parseCalendarFragment (Daybox class :: body) mt.
Proof.
  intros class body mt Hopen Hbody _.
  unfold Inline.parseCalendarFragment, Stateful.parseCalendarFragment.
  cbn [fold_left].
  destruct (Agreement.sim_run mt body false _ _
              (Agreement.sim_open mt class Hopen) Hbody) as (titled & Hsim).
  exact (Agreement.sim_finish mt titled _ _ Hsim).
Qed.

Definition fridayBody : list Event :=
  [DateEl (Some "7") (Some "2") (Some "2025");
   Info;
   ColorIcon (Some "background:#BC0945");
   EventTitle (Some "Chicken &amp; Waffles with Syrup");
   Info;
   EventTitle (Some "Early Release - Teacher Planning");
   Info;
   ColorIcon (Some "background:#52B73E");
   EventTitle (Some "Vegan Corn &amp; Chile Tamales")].

Lemma fridayBody_inside : inside_day false fridayBody.
Proof.
  cbn [inside_day fridayBody].
  repeat split; vm_compute; reflexivity.
Defined.

Lemma fridayBody_in_range : Forall event_in_range fridayBody.
Proof.
  unfold fridayBody.
  constructor;
    [split; [reflexivity|apply date_ok_by_computation; vm_compute; reflexivity]|].
  repeat (constructor; [exact I|]). constructor.
Defined.

Lemma parsers_agree_witness :
  Inline.parseCalendarFragment
    (Daybox (Some "fsCalendarDaybox fsStateHasEvents") :: fridayBody) LUNCH
  = Stateful.parseCalendarFragment
      (Daybox (Some "fsCalendarDaybox fsStateHasEvents") :: fridayBody) LUNCH.
Proof.
  apply (parsers_agree_on_single_day
           (Some "fsCalendarDaybox fsStateHasEvents") fridayBody LUNCH).
  - split; vm_compute; reflexivity.
  - exact fridayBody_inside.
  - exact fridayBody_in_range.
Defined.

Example friday_menu :
  Inline.parseCalendarFragment
    (Daybox (Some "fsCalendarDaybox fsStateHasEvents") :: fridayBody) LUNCH
  = [DailyMenu_on (Cal.newDate 2025 2 7) LUNCH
       [{| name := "Chicken & Waffles";
           description := Some "Chicken & Waffles with Syrup";
           category := MAIN_ENTREE;
           isVegetarian := false; isVegan := false;
           allergens := []; nutritionalInfo := [] |};
        {| name := "Vegan Corn & Chile Tamales";
           description := Some "Vegan Corn & Chile Tamales";
           category := VEGETARIAN_ENTREE;
           isVegetarian := true; isVegan := true;
           allergens := []; nutritionalInfo := [] |}]].
Proof. vm_compute. reflexivity. Qed.

(** ** Weekend day boxes *)

Definition fridayThenSaturday : list Event :=
  [Daybox (Some "fsCalendarDaybox fsStateHasEvents");
   DateEl (Some "3") (Some "0") (Some "2025");
   Info;
   EventTitle (Some "Cheese Pizza");
   Daybox (Some "fsCalendarDaybox fsCalendarWeekendDayBox fsStateHasEvents");
   DateEl (Some "4") (Some "0") (Some "2025");
   Info;
   EventTitle (Some "Weekend Brunch")].

Definition fridayOnly : list Event :=
  [Daybox (Some "fsCalendarDaybox fsStateHasEvents");
   DateEl (Some "3") (Some "0") (Some "2025");
   Info;
   EventTitle (Some "Cheese Pizza")].

Definition plainItem (title : string) : MenuItem :=
  {| name := title; description := Some title; category := OTHER;
     isVegetarian := false; isVegan := false;
     allergens := []; nutritionalInfo := [] |}.

(** The day-box handler of the [ScraperState] parser returns on the weekend
    marker and leaves the state as it is. *)
Lemma state_parser_ignores_weekend_marker class st :
  Js.includes "fsCalendarWeekendDayBox" (Js.attr_or class EmptyString) = true ->
  Stateful.handle st (Daybox class) = st.
Proof. intros H. cbn [Stateful.handle]. unfold Stateful.onDaybox. now rewrite H. Qed.

(** C4 holds of the inline-state parser and fails on the [ScraperState]
    parser, whose day-box handler returns on the weekend marker without
    touching the state: the date and the item of the Saturday box land in
    the Friday box that is still open, so the output is one daily menu
    dated Saturday with both items, where Friday's menu with the pizza alone
    was due.  On the same events the inline-state parser yields Friday's
    menu alone. *)
Theorem weekend_box_state_parser_defect :
  Stateful.parseCalendarFragment fridayThenSaturday LUNCH
  = [DailyMenu_on (Cal.newDate 2025 0 4) LUNCH
       [plainItem "Cheese Pizza"; plainItem "Weekend Brunch"]]
  /\ Stateful.parseCalendarFragment fridayOnly LUNCH
     = [DailyMenu_on (Cal.newDate 2025 0 3) LUNCH [plainItem "Cheese Pizza"]]
  /\ Inline.parseCalendarFragment fridayThenSaturday LUNCH
     = [DailyMenu_on (Cal.newDate 2025 0 3) LUNCH [plainItem "Cheese Pizza"]].
Proof. repeat split; vm_compute; reflexivity. Qed.

(** ** Administrative announcements *)

Definition quarterEndsDay : list Event :=
  [Daybox (Some "fsCalendarDaybox fsStateHasEvents");
   DateEl (Some "6") (Some "0") (Some "2025");
   Info;
   EventTitle (Some "Quarter Ends");
   Info;
   EventTitle (Some "Cheese Pizza")].

(** C3 holds of the inline-state parser and fails on the [ScraperState]
    parser, whose list of administrative substrings lacks "quarter ends":
    the item titled "Quarter Ends" appears in its output.  On the same
    events the inline-state parser yields the pizza alone. *)
Theorem quarter_ends_state_parser_defect :
  Stateful.isAdminAnnouncement "Quarter Ends" = false
  /\ Inline.isAdminAnnouncement "Quarter Ends" = true
  /\ Stateful.parseCalendarFragment quarterEndsDay LUNCH
     = [DailyMenu_on (Cal.newDate 2025 0 6) LUNCH
          [plainItem "Quarter Ends"; plainItem "Cheese Pizza"]]
  /\ Inline.parseCalendarFragment quarterEndsDay LUNCH
     = [DailyMenu_on (Cal.newDate 2025 0 6) LUNCH [plainItem "Cheese Pizza"]].
Proof. repeat split; vm_compute; reflexivity. Qed.

(** ** Weekend boxes and announcements in the inline-state parser *)

Definition is_daybox (e : Event) : bool :=
  match e with Daybox _ => true | _ => false end.

(** The stream goes on with a new day box, or ends. *)
Definition at_day_boundary (post : list Event) : Prop :=
  match post with
  | [] => True
  | e :: _ => is_daybox e = true
  end.

Module InlineFacts.
Import Inline.

(** The state with no open day box and no open item. *)
Definition idle (saved : list DayBox) : State :=
  {| currentDayBox := None; currentMenuItem := None; dayBoxes := saved |}.

Lemma weekend_clears class st :
  Js.includes "fsCalendarWeekendDayBox" (Js.attr_or class EmptyString) = true ->
  onDaybox class st = idle (completeDayBox st).
Proof. intros H. unfold onDaybox. now rewrite H. Qed.

Lemma idle_ignores saved e : is_daybox e = false -> handle (idle saved) e = idle saved.
Proof.
  destruct e as [cls|dd mm yy| |style|title]; cbn [is_daybox handle];
    [discriminate| | | |]; intros _.
  - unfold onDate. cbn. now destruct (dateOfAttributes dd mm yy).
  - reflexivity.
  - reflexivity.
  - reflexivity.
Qed.

Lemma idle_ignores_all saved body :
  forallb (fun e => negb (is_daybox e)) body = true ->
  fold_left handle body (idle saved) = idle saved.
Proof.
  induction body as [|e body IH]; cbn [forallb fold_left]; [reflexivity|].
  intros H. apply andb_true_iff in H as [He Hb].
  rewrite idle_ignores by now apply negb_true_iff. now apply IH.
Qed.

(** What the rest of the stream and the end of the stream see of a state. *)
Definition same_at_boundary (a b : State) : Prop :=
  completeDayBox a = completeDayBox b.

Lemma daybox_sees_completion class a b :
  same_at_boundary a b -> onDaybox class a = onDaybox class b.
Proof. unfold same_at_boundary, onDaybox. now intros ->. Qed.

Lemma boundary_run mt a b post :
  same_at_boundary a b -> at_day_boundary post ->
  toDailyMenus mt (completeDayBox (fold_left handle post a))
  = toDailyMenus mt (completeDayBox (fold_left handle post b)).
Proof.
  intros Hab Hpost. destruct post as [|e post]; cbn [fold_left].
  - now rewrite Hab.
  - destruct e; try discriminate. cbn [handle].
    now rewrite (daybox_sees_completion _ a b Hab).
Qed.

Lemma idle_same_at_boundary st : same_at_boundary (idle (completeDayBox st)) st.
Proof. reflexivity. Qed.

(** In the inline-state parser a day box with the weekend marker clears
    both accumulators, and the output is the one of the stream without the
    weekend box and its contents. *)
Lemma weekend_box_contributes_nothing pre class body post mt :
  Js.includes "fsCalendarWeekendDayBox" (Js.attr_or class EmptyString) = true ->
  forallb (fun e => negb (is_daybox e)) body = true ->
  at_day_boundary post ->
  (let st := fold_left handle (pre ++ [Daybox class]) init in
   currentDayBox st = None /\ currentMenuItem st = None)
  /\ parseCalendarFragment (pre ++ Daybox class :: body ++ post) mt
     = parseCalendarFragment (pre ++ post) mt.
Proof.
  intros Hw Hbody Hpost. split.
  - rewrite fold_left_app. cbn [fold_left handle].
    rewrite weekend_clears by assumption. now split.
  - unfold parseCalendarFragment.
    rewrite !fold_left_app. cbn [fold_left handle].
    rewrite weekend_clears by assumption.
    rewrite fold_left_app, idle_ignores_all by assumption.
    apply boundary_run; [apply idle_same_at_boundary|assumption].
Qed.

(** An administrative title leaves the state as it is. *)
Lemma admin_title_ignored title st :
  isAdminAnnouncement (decodeEntities (Js.trim (Js.attr_or title EmptyString))) = true ->
  onEventTitle title st = st.
Proof.
  intros H. unfold onEventTitle.
  destruct (currentMenuItem st); [|reflexivity].
  rewrite H. now destruct (Js.truthy _).
Qed.

(** An open item is there only inside an open day box. *)
Definition item_in_box (st : State) : Prop :=
  currentDayBox st = None -> currentMenuItem st = None.

Lemma handle_item_in_box st e : item_in_box st -> item_in_box (handle st e).
Proof.
  unfold item_in_box. destruct st as [box item saved].
  cbn [currentDayBox currentMenuItem]. intros H.
  destruct e as [cls|dd mm yy| |style|title]; cbn [handle].
  - unfold onDaybox. destruct (Js.includes _ _); [reflexivity|].
    destruct (Js.includes _ _); [discriminate|reflexivity].
  - unfold onDate. cbn [currentDayBox].
    destruct (dateOfAttributes dd mm yy); [|exact H].
    destruct box; [discriminate|exact H].
  - unfold onInfo. cbn [currentDayBox].
    destruct box; [discriminate|exact H].
  - unfold onColorIcon. cbn [currentMenuItem].
    destruct item; [|exact H].
    destruct (categoryOfStyle style); cbn [currentDayBox currentMenuItem];
      intros B; specialize (H B); discriminate.
  - unfold onEventTitle. cbn [currentMenuItem].
    destruct item; [|exact H].
    destruct (Js.truthy _); [|exact H].
    destruct (isAdminAnnouncement _); [exact H|].
    cbn [currentDayBox currentMenuItem]. intros B. specialize (H B). discriminate.
Qed.

Lemma run_item_in_box evs : forall st, item_in_box st -> item_in_box (fold_left handle evs st).
Proof.
  induction evs as [|e evs IH]; intros st H; cbn [fold_left]; [exact H|].
  apply IH. now apply handle_item_in_box.
Qed.

Definition is_color (e : Event) : bool :=
  match e with ColorIcon _ => true | _ => false end.

(** Colour icons keep the box and the name of the open item. *)
Lemma colors_keep_name colors :
  forallb is_color colors = true ->
  forall box it saved,
    exists it',
      fold_left handle colors
        {| currentDayBox := Some box; currentMenuItem := Some it; dayBoxes := saved |}
      = {| currentDayBox := Some box; currentMenuItem := Some it'; dayBoxes := saved |}
      /\ d_name it' = d_name it.
Proof.
  induction colors as [|e colors IH]; cbn [forallb fold_left]; intros H box it saved.
  - now exists it.
  - apply andb_true_iff in H as [He Hc].
    destruct e as [| | |style|]; try discriminate. cbn [handle].
    unfold onColorIcon. cbn [currentMenuItem currentDayBox dayBoxes].
    destruct (categoryOfStyle style) as [c|].
    + destruct (IH Hc box (setCategory c it) saved) as (it' & E & N).
      exists it'. now split.
    + now apply IH.
Qed.

Lemma colors_ignored_idle colors saved :
  forallb is_color colors = true ->
  fold_left handle colors (idle saved) = idle saved.
Proof.
  intros H. apply idle_ignores_all.
  induction colors as [|e colors IH]; [reflexivity|].
  cbn [forallb] in *. apply andb_true_iff in H as [He Hc].
  rewrite IH by assumption. now destruct e.
Qed.

(** The stream goes on with a new item, a new day box, or ends. *)
Definition at_item_boundary (post : list Event) : Prop :=
  match post with
  | [] => True
  | Info :: _ => True
  | e :: _ => is_daybox e = true
  end.

Lemma pushPending_nameless it box :
  d_name it = EmptyString -> pushPending (Some it) box = box.
Proof. intros H. unfold pushPending. now rewrite H. Qed.

(** X20.  In the inline-state parser an item whose only title is administrative
    leaves the rest of the parse as if its item-info, colour and title
    events had not occurred. *)
Lemma admin_item_leaves_no_trace pre colors title post mt :
  forallb is_color colors = true ->
  isAdminAnnouncement (decodeEntities (Js.trim (Js.attr_or title EmptyString))) = true ->
  at_item_boundary post ->
  parseCalendarFragment (pre ++ Info :: colors ++ EventTitle title :: post) mt
  = parseCalendarFragment (pre ++ post) mt.
Proof.
  intros Hc Ha Hpost. unfold parseCalendarFragment.
  rewrite !fold_left_app. cbn [fold_left].
  pose proof (run_item_in_box pre init (fun _ => eq_refl)) as Hin.
  set (st := fold_left handle pre init) in *.
  rewrite fold_left_app. cbn [fold_left].
  destruct st as [[box|] item saved]; unfold item_in_box in Hin; cbn in Hin.
  - cbn [handle]. unfold onInfo. cbn [currentDayBox currentMenuItem dayBoxes].
    destruct (colors_keep_name colors Hc (pushPending item box) emptyMenuItem saved)
      as (it' & -> & N).
    rewrite admin_title_ignored by assumption.
    cbn [d_name emptyMenuItem] in N.
    destruct post as [|e post]; cbn [fold_left].
    + unfold completeDayBox. cbn [currentDayBox currentMenuItem dayBoxes].
      now rewrite pushPending_nameless.
    + destruct e; cbn [at_item_boundary is_daybox] in Hpost; try discriminate;
        cbn [handle].
      * unfold onDaybox, completeDayBox.
        cbn [currentDayBox currentMenuItem dayBoxes].
        now rewrite pushPending_nameless.
      * unfold onInfo. cbn [currentDayBox currentMenuItem dayBoxes].
        now rewrite pushPending_nameless.
  - rewrite (Hin eq_refl). cbn [handle]. unfold onInfo.
    cbn [currentDayBox]. fold (idle saved).
    rewrite colors_ignored_idle by assumption.
    cbn [handle]. now rewrite admin_title_ignored.
Qed.

End InlineFacts.

(** Where the items of the inline-state parser's output come from. *)
Module InlineItems.
Import Inline.

Section Origin.

(** [P name description]: the name and description were set by a title of
    the stream that is not an administrative announcement. *)
Variable P : string -> option string -> Prop.

Definition named (it : MenuItemData) : Prop := P (d_name it) (d_description it).

Definition pending_ok (item : option MenuItemData) : Prop :=
  forall it, item = Some it -> d_name it = EmptyString \/ named it.

Definition items_in (st : State) : Prop :=
  pending_ok (currentMenuItem st)
  /\ (forall box, currentDayBox st = Some box -> Forall named (box_menuItems box))
  /\ Forall (fun box => Forall named (box_menuItems box)) (dayBoxes st).

Lemma pushPending_named item box :
  pending_ok item -> Forall named (box_menuItems box) ->
  Forall named (box_menuItems (pushPending item box)).
Proof.
  intros Hi Hb. unfold pushPending. destruct item as [it|]; [|exact Hb].
  destruct (Js.truthy (d_name it)) eqn:N; [|exact Hb].
  cbn [box_menuItems]. apply Forall_app. split; [exact Hb|].
  constructor; [|constructor].
  destruct (Hi it eq_refl) as [E|H]; [|exact H].
  rewrite E in N. discriminate.
Qed.

Lemma completeDayBox_named st :
  items_in st ->
  Forall (fun box => Forall named (box_menuItems box)) (completeDayBox st).
Proof.
  destruct st as [box item saved]. intros (Hi & Hb & Hs).
  cbn [currentMenuItem currentDayBox dayBoxes] in *. unfold completeDayBox.
  cbn [currentMenuItem currentDayBox dayBoxes].
  destruct box as [box|]; [|exact Hs].
  destruct (hasValidData _); [|exact Hs].
  apply Forall_app. split; [exact Hs|]. constructor; [|constructor].
  apply pushPending_named; [exact Hi|]. now apply Hb.
Qed.

Lemma handle_items st e :
  items_in st ->
  (forall title, e = EventTitle title ->
     let t := decodeEntities (Js.trim (Js.attr_or title EmptyString)) in
     isAdminAnnouncement t = false ->
     P (fst (parseMenuItemText t)) (Some (snd (parseMenuItemText t)))) ->
  items_in (handle st e).
Proof.
  intros Hst He. pose proof (completeDayBox_named st Hst) as Hsaved.
  destruct st as [box item saved]. destruct Hst as (Hi & Hb & Hs).
  cbn [currentMenuItem currentDayBox dayBoxes] in *.
  destruct e as [cls|dd mm yy| |style|title]; cbn [handle].
  - unfold onDaybox.
    destruct (Js.includes _ _); [|destruct (Js.includes _ _)];
      (split; [intros it; discriminate|]);
      (split; [|exact Hsaved]); cbn [currentDayBox]; try discriminate.
    intros b [= <-]. constructor.
  - unfold onDate. cbn [currentDayBox].
    destruct (dateOfAttributes dd mm yy); [|now repeat split].
    destruct box as [b|]; [|now repeat split].
    split; [exact Hi|]. split; [|exact Hs].
    cbn [currentDayBox]. intros b' [= <-]. cbn [box_menuItems]. now apply Hb.
  - unfold onInfo. cbn [currentDayBox].
    destruct box as [b|]; [|now repeat split].
    split; [|split; [|exact Hs]]; cbn [currentMenuItem currentDayBox].
    + intros it [= <-]. now left.
    + intros b' [= <-]. apply pushPending_named; [exact Hi|]. now apply Hb.
  - unfold onColorIcon. cbn [currentMenuItem].
    destruct item as [it|]; [|now repeat split].
    destruct (categoryOfStyle style) as [c|]; [|now repeat split].
    split; [|split; [exact Hb|exact Hs]]. cbn [currentMenuItem].
    intros it' [= <-]. exact (Hi it eq_refl).
  - unfold onEventTitle. cbn [currentMenuItem].
    destruct item as [it|]; [|now repeat split].
    destruct (Js.truthy _); [|now repeat split].
    destruct (isAdminAnnouncement _) eqn:A; [now repeat split|].
    split; [|split; [exact Hb|exact Hs]]. cbn [currentMenuItem].
    intros it' [= <-]. right. unfold named. cbn. now apply (He title).
Qed.

End Origin.

(** The title [title] of the stream, not an administrative announcement,
    gave the name [n] and the description [de]. *)
Definition titled_by (evs : list Event) (n : string) (de : option string) : Prop :=
  exists title,
    In (EventTitle title) evs
    /\ (let t := decodeEntities (Js.trim (Js.attr_or title EmptyString)) in
        isAdminAnnouncement t = false
        /\ n = fst (parseMenuItemText t)
        /\ de = Some (snd (parseMenuItemText t))).

Lemma run_items P evs :
  forall st,
    items_in P st ->
    (forall title, In (EventTitle title) evs ->
       let t := decodeEntities (Js.trim (Js.attr_or title EmptyString)) in
       isAdminAnnouncement t = false ->
       P (fst (parseMenuItemText t)) (Some (snd (parseMenuItemText t)))) ->
    items_in P (fold_left handle evs st).
Proof.
  induction evs as [|e evs IH]; intros st Hst He; cbn [fold_left]; [exact Hst|].
  apply IH.
  - apply handle_items; [exact Hst|].
    intros title ->. apply He. now left.
  - intros title Hin. apply He. now right.
Qed.

(** X21.  In the inline-state parser every item of every daily menu of the
    output has the name and description that the normalizer gives to a
    title of the stream that is not an administrative announcement. *)
Lemma output_items_from_plain_titles evs mt dm item :
  In dm (parseCalendarFragment evs mt) -> In item (menuItems dm) ->
  titled_by evs (name item) (description item).
Proof.
  intros Hdm Hitem.
  assert (H : items_in (titled_by evs) (fold_left handle evs init)).
  { apply run_items.
    - split; [intros it; discriminate|]. split; [discriminate|constructor].
    - intros title Hin t Ha. exists title. now repeat split. }
  apply completeDayBox_named in H. unfold parseCalendarFragment, toDailyMenus in Hdm.
  apply in_flat_map in Hdm as (box & Hbox & Hdm).
  rewrite Forall_forall in H. specialize (H box Hbox).
  destruct (box_date box) as [d|]; [|contradiction].
  destruct (0 <? _); [|contradiction].
  destruct Hdm as [<-|[]]. cbn [menuItems DailyMenu_on] in Hitem.
  apply in_map_iff in Hitem as (it & <- & Hit).
  rewrite Forall_forall in H. exact (H it Hit).
Qed.

End InlineItems.

(** ** Where the two parsers part *)

Definition mondayThenTuesday : list Event :=
  [Daybox (Some "fsCalendarDaybox fsStateHasEvents");
   DateEl (Some "6") (Some "0") (Some "2025");
   Info;
   EventTitle (Some "Cheese Pizza");
   Daybox (Some "fsCalendarDaybox fsStateHasEvents");
   DateEl (Some "7") (Some "0") (Some "2025");
   Info;
   EventTitle (Some "Tacos")].

(** [ScraperState.startDayBox] completes the previous day box without first
    completing the item still open, so the last item of a day is pushed into
    the next day's box: Monday, left with no item, is dropped and its pizza
    is served on Tuesday.  The inline-state parser completes the open item
    first. *)
Example last_item_carried_to_next_day :
  Inline.parseCalendarFragment mondayThenTuesday LUNCH
  = [DailyMenu_on (Cal.newDate 2025 0 6) LUNCH [plainItem "Cheese Pizza"];
     DailyMenu_on (Cal.newDate 2025 0 7) LUNCH [plainItem "Tacos"]]
  /\ Stateful.parseCalendarFragment mondayThenTuesday LUNCH
     = [DailyMenu_on (Cal.newDate 2025 0 7) LUNCH
          [plainItem "Cheese Pizza"; plainItem "Tacos"]].
Proof. split; vm_compute; reflexivity. Qed.

Definition announcementThenDish : list Event :=
  [Daybox (Some "fsCalendarDaybox fsStateHasEvents");
   DateEl (Some "6") (Some "0") (Some "2025");
   Info;
   EventTitle (Some "No School");
   EventTitle (Some "Tacos")].

(** On an administrative title the inline-state parser keeps the open item
    and the [ScraperState] parser drops it, so a further title of the same
    item is taken by the first and ignored by the second. *)
Example title_after_announcement :
  Inline.parseCalendarFragment announcementThenDish LUNCH
  = [DailyMenu_on (Cal.newDate 2025 0 6) LUNCH [plainItem "Tacos"]]
  /\ Stateful.parseCalendarFragment announcementThenDish LUNCH = [].
Proof. split; vm_compute; reflexivity. Qed.

(* ================================================================== *)
(** * Part III.  The rest of the hierarchy, the layouts' day selection and
      the scraper's entry points                                        *)
(* ================================================================== *)

(** ** Definitions *)

(** [enum Weekday]: a numeric enum, so a weekday is its number, 0 for Sunday
    to 6 for Saturday; the layouts compute with these numbers. *)
Definition Weekday := Z.
Definition SUNDAY : Weekday := 0.
Definition MONDAY : Weekday := 1.
Definition TUESDAY : Weekday := 2.
Definition WEDNESDAY : Weekday := 3.
Definition THURSDAY : Weekday := 4.
Definition FRIDAY : Weekday := 5.
Definition SATURDAY : Weekday := 6.

(** [===] on the two string enums. *)
Definition MealType_eqb (a b : MealType) : bool :=
  match a, b with
  | BREAKFAST, BREAKFAST | LUNCH, LUNCH | SNACK, SNACK => true
  | _, _ => false
  end.

Definition FoodCategory_eqb (a b : FoodCategory) : bool :=
  match a, b with
  | MAIN_ENTREE, MAIN_ENTREE
  | VEGETARIAN_ENTREE, VEGETARIAN_ENTREE
  | ELEMENTARY_SECONDARY_SECOND_CHOICE, ELEMENTARY_SECONDARY_SECOND_CHOICE
  | ELEMENTARY_SECONDARY_SIDE_DISH, ELEMENTARY_SECONDARY_SIDE_DISH
  | AFTERSCHOOL_SNACK, AFTERSCHOOL_SNACK
  | PRESCHOOL_SNACK, PRESCHOOL_SNACK
  | SAC_SNACK, SAC_SNACK
  | OTHER, OTHER => true
  | _, _ => false
  end.

(** *** [DailyMenu] *)

(** [DailyMenu.addMenuItem]: [this.menuItems.push(item)]. *)
Definition addMenuItem (item : MenuItem) (m : DailyMenu) : DailyMenu :=
  {| date := date m; mealType := mealType m;
     menuItems := menuItems m ++ [item];
     specialNotes := specialNotes m; isSchoolDay := isSchoolDay m |}.

Definition getItemsByCategory (c : FoodCategory) (m : DailyMenu) : list MenuItem :=
  filter (fun item => FoodCategory_eqb (category item) c) (menuItems m).

Definition getVegetarianItems (m : DailyMenu) : list MenuItem :=
  filter (fun item => isVegetarian item) (menuItems m).

Definition getVeganItems (m : DailyMenu) : list MenuItem :=
  filter (fun item => isVegan item) (menuItems m).

(** *** [WeeklyMenu] *)

(** [DailyMeals] *)
Record DailyMeals := mkDailyMeals {
  breakfast : option DailyMenu;
  lunch : option DailyMenu;
  snack : option DailyMenu
}.

(** [WeeklyMenu.addDailyMenu] *)
Definition addDailyMenu (m : DailyMenu) (w : WeeklyMenu) : WeeklyMenu :=
  {| startDate := startDate w; endDate := endDate w;
     dailyMenus := dailyMenus w ++ [m] |}.

(** [WeeklyMenu.getMenusByType] *)
Definition weekMenusByType (mt : MealType) (w : WeeklyMenu) : list DailyMenu :=
  filter (fun menu => MealType_eqb (mealType menu) mt) (dailyMenus w).

(** [format(menu.date, "yyyy-MM-dd") === targetDateStr] *)
Definition onDateStr (targetDateStr : string) (menu : DailyMenu) : bool :=
  String.eqb (Cal.format (date menu)) targetDateStr.

(** [WeeklyMenu.getMenuByDate] *)
Definition getMenuByDate (targetDate : Cal.Date) (w : WeeklyMenu) : option DailyMenu :=
  let targetDateStr := Cal.format targetDate in
  find (onDateStr targetDateStr) (dailyMenus w).

(** [WeeklyMenu.getMenusByDate] *)
Definition getMenusByDate (targetDate : Cal.Date) (w : WeeklyMenu) : list DailyMenu :=
  let targetDateStr := Cal.format targetDate in
  filter (onDateStr targetDateStr) (dailyMenus w).

(** [WeeklyMenu.getMenuByDateAndType] *)
Definition getMenuByDateAndType (targetDate : Cal.Date) (mt : MealType)
  (w : WeeklyMenu) : option DailyMenu :=
  let targetDateStr := Cal.format targetDate in
  find (fun menu => onDateStr targetDateStr menu && MealType_eqb (mealType menu) mt)
       (dailyMenus w).

(** [WeeklyMenu.getMealsByDate] *)
Definition getMealsByDate (targetDate : Cal.Date) (w : WeeklyMenu) : DailyMeals :=
  let targetDateStr := Cal.format targetDate in
  let menus := filter (onDateStr targetDateStr) (dailyMenus w) in
  {| breakfast := find (fun menu => MealType_eqb (mealType menu) BREAKFAST) menus;
     lunch := find (fun menu => MealType_eqb (mealType menu) LUNCH) menus;
     snack := find (fun menu => MealType_eqb (mealType menu) SNACK) menus |}.

(** [menu.date.getDay() === weekday] *)
Definition onWeekday (weekday : Weekday) (menu : DailyMenu) : bool :=
  Cal.getDay (date menu) =? weekday.

(** [WeeklyMenu.getMealsByWeekday] *)
Definition getMealsByWeekday (weekday : Weekday) (w : WeeklyMenu) : DailyMeals :=
  let menus := filter (onWeekday weekday) (dailyMenus w) in
  {| breakfast := find (fun menu => MealType_eqb (mealType menu) BREAKFAST) menus;
     lunch := find (fun menu => MealType_eqb (mealType menu) LUNCH) menus;
     snack := find (fun menu => MealType_eqb (mealType menu) SNACK) menus |}.

(** [WeeklyMenu.getMenusByWeekday] *)
Definition getMenusByWeekday (weekday : Weekday) (w : WeeklyMenu) : list DailyMenu :=
  filter (onWeekday weekday) (dailyMenus w).

(** [WeeklyMenu.getMenuByWeekdayAndType] *)
Definition getMenuByWeekdayAndType (weekday : Weekday) (mt : MealType)
  (w : WeeklyMenu) : option DailyMenu :=
  find (fun menu => onWeekday weekday menu && MealType_eqb (mealType menu) mt)
       (dailyMenus w).

(** *** [MonthlyMenu] *)

(** [MonthlyMenu.addWeeklyMenu] *)
Definition addWeeklyMenu (w : WeeklyMenu) (mm : MonthlyMenu) : MonthlyMenu :=
  {| year := year mm; month := month mm; weeklyMenus := weeklyMenus mm ++ [w] |}.

(** [MonthlyMenu.getMenusByType] *)
Definition getMenusByType (mt : MealType) (mm : MonthlyMenu) : list DailyMenu :=
  filter (fun menu => MealType_eqb (mealType menu) mt) (getAllDailyMenus mm).

(** *** Weekday names *)

(** [getWeekdayFromName]; [None] is [null]. *)
Definition getWeekdayFromName (weekdayName : string) : option Weekday :=
  let name := Js.toLowerCase weekdayName in
  if String.eqb name "sunday" || String.eqb name "sun" then Some SUNDAY
  else if String.eqb name "monday" || String.eqb name "mon" then Some MONDAY
  else if String.eqb name "tuesday" || String.eqb name "tue" || String.eqb name "tues"
  then Some TUESDAY
  else if String.eqb name "wednesday" || String.eqb name "wed" then Some WEDNESDAY
  else if String.eqb name "thursday" || String.eqb name "thu" || String.eqb name "thurs"
  then Some THURSDAY
  else if String.eqb name "friday" || String.eqb name "fri" then Some FRIDAY
  else if String.eqb name "saturday" || String.eqb name "sat" then Some SATURDAY
  else None.

(** [getWeekdayName] *)
Definition getWeekdayName (weekday : Weekday) : string :=
  if weekday =? SUNDAY then "Sunday"
  else if weekday =? MONDAY then "Monday"
  else if weekday =? TUESDAY then "Tuesday"
  else if weekday =? WEDNESDAY then "Wednesday"
  else if weekday =? THURSDAY then "Thursday"
  else if weekday =? FRIDAY then "Friday"
  else if weekday =? SATURDAY then "Saturday"
  else "Unknown".

(** *** The layouts' choice of days ([src/index.ts]) *)

(** [getDateForWeekday]; [addDays] of [date-fns] moves by whole days. *)
Definition getDateForWeekday (w : WeeklyMenu) (weekday : Weekday) : Cal.Date :=
  let mondayOffset := weekday - 1 in
  Cal.addDays (startDate w) mondayOffset.

(** [getNextWeekday] *)
Definition getNextWeekday (weekday : Weekday) : option Weekday :=
  if weekday >=? FRIDAY then None else Some (weekday + 1).

(** [getQuadrantWeekday] *)
Definition getQuadrantWeekday (d : Cal.Date) : Weekday :=
  let dayOfWeek := Cal.getDay d in
  if (dayOfWeek =? 0) || (dayOfWeek =? 6) then MONDAY else dayOfWeek.

(** [getHalfVerticalWeekdays]: [first] and [second]. *)
Definition getHalfVerticalWeekdays (d : Cal.Date) : Weekday * option Weekday :=
  let firstWeekday := getQuadrantWeekday d in
  let secondWeekday := getNextWeekday firstWeekday in
  (firstWeekday, secondWeekday).

(** *** The scraper's entry points (the same in both versions) *)

(** [d.getFullYear()] and [d.getMonth()], the month counted from 0. *)
Definition getFullYear (d : Cal.Date) : Z := fst (fst (Cal.civil_from_days d)).
Definition getMonth (d : Cal.Date) : Z := snd (fst (Cal.civil_from_days d)) - 1.

Section Scraper.

(** The version's [parseCalendarFragment], and what the endpoint of a meal
    type answers for a date: the events of the response, or [None] when the
    request fails or the answer is not OK. *)
Variable parseCalendarFragment : list Event -> MealType -> list DailyMenu.
Variable respond : Cal.Date -> MealType -> option (list Event).

(** [fetchMenuForDateAjax]; [None] is the [null] of the [catch]. *)
Definition fetchMenuForDateAjax (targetDate : Cal.Date) (mt : MealType)
  : option (list DailyMenu) :=
  match respond targetDate mt with
  | Some events => Some (parseCalendarFragment events mt)
  | None => None
  end.

(** [fetchAllMealsForDateAjax]; [None] is [null]. *)
Definition fetchAllMealsForDateAjax (targetDate : Cal.Date) : option MonthlyMenu :=
  let allDailyMenus :=
    fold_left (fun acc mt =>
                 match fetchMenuForDateAjax targetDate mt with
                 | Some dailyMenus => acc ++ dailyMenus
                 | None => acc
                 end)
              [BREAKFAST; LUNCH; SNACK] [] in
  if Nat.eqb (List.length allDailyMenus) 0 then None
  else
    let monthlyMenu :=
      {| month := getMonth targetDate + 1; year := getFullYear targetDate;
         weeklyMenus := [] |} in
    Some (fold_left (fun mm w => addWeeklyMenu w mm)
                    (groupDailyMenusByWeek allDailyMenus) monthlyMenu).

(** The target date of [fetchWeeklyMenuForScheduledRun]: a week later at
    the weekend. *)
Definition scheduledTargetDate (now : Cal.Date) : Cal.Date :=
  let currentDay := Cal.getDay now in
  if (currentDay =? 0) || (currentDay =? 6) then Cal.addDays now 7 else now.

(** [fetchWeeklyMenuForScheduledRun], given the date of the run; the loop
    over the weekly menus stops at the first one whose days contain the
    target date.  The source rebuilds the three dates it compares from
    their year, month and day, which gives the same days from the year 100
    on; the days are compared here. *)
Definition fetchWeeklyMenuForScheduledRun (now : Cal.Date) : option WeeklyMenu :=
  let targetDate := scheduledTargetDate now in
  match fetchAllMealsForDateAjax targetDate with
  | None => None
  | Some monthlyMenu =>
      find (fun weeklyMenu =>
              (startDate weeklyMenu <=? targetDate)
              && (targetDate <=? endDate weeklyMenu))
           (weeklyMenus monthlyMenu)
  end.

End Scraper.

(** ** Properties *)

(** *** Looking a day up in a weekly menu *)

Lemma find_filter {A : Type} (p q : A -> bool) (l : list A) :
  find q (filter p l) = find (fun x => p x && q x) l.
Proof.
  induction l as [|x l IH]; cbn [filter find]; [reflexivity|].
  destruct (p x); cbn [find andb]; [|exact IH].
  destruct (q x); [reflexivity|exact IH].
Qed.

Lemma find_hd_filter {A : Type} (p : A -> bool) (l : list A) :
  find p l = hd_error (filter p l).
Proof.
  induction l as [|x l IH]; cbn [filter find]; [reflexivity|].
  destruct (p x); [reflexivity|exact IH].
Qed.

Lemma MealType_eqb_eq a b : MealType_eqb a b = true <-> a = b.
Proof. destruct a, b; cbn; split; congruence. Qed.

Lemma FoodCategory_eqb_eq a b : FoodCategory_eqb a b = true <-> a = b.
Proof. destruct a, b; cbn; split; congruence. Qed.

Lemma format_inj a b :
  Cal.date_ok a -> Cal.date_ok b -> Cal.format a = Cal.format b -> a = b.
Proof.
  intros Ha Hb E.
  pose proof (CalFacts.parse_date_format a Ha) as Pa.
  pose proof (CalFacts.parse_date_format b Hb) as Pb.
  rewrite E in Pa. congruence.
Qed.

Lemma onDateStr_format t m :
  Cal.date_ok t -> Cal.date_ok (date m) ->
  onDateStr (Cal.format t) m = (date m =? t).
Proof.
  intros Ht Hm. unfold onDateStr.
  destruct (Z.eqb_spec (date m) t) as [->|N].
  - apply String.eqb_refl.
  - apply String.eqb_neq. intros E. apply N. now apply format_inj.
Qed.

(** The field of a [DailyMeals] for a meal type. *)
Definition mealOf (mt : MealType) (meals : DailyMeals) : option DailyMenu :=
  match mt with
  | BREAKFAST => breakfast meals
  | LUNCH => lunch meals
  | SNACK => snack meals
  end.

(** X1.  The lookups of a weekly menu by weekday agree with one another:
    each field of [getMealsByWeekday] is what [getMenuByWeekdayAndType]
    returns for the same weekday and that meal type, and it is the first of
    [getMenusByWeekday] with that meal type.  A menu that is found is one of
    the week's daily menus, on the weekday and of the meal type asked for;
    nothing is found exactly when the week has no such daily menu. *)
Theorem meals_by_weekday_consistent :
  forall (w : WeeklyMenu) (weekday : Weekday) (mt : MealType),
    mealOf mt (getMealsByWeekday weekday w) = getMenuByWeekdayAndType weekday mt w
    /\ getMenuByWeekdayAndType weekday mt w
       = find (fun menu => MealType_eqb (mealType menu) mt)
              (getMenusByWeekday weekday w)
    /\ (forall m, getMenuByWeekdayAndType weekday mt w = Some m ->
          In m (dailyMenus w) /\ Cal.getDay (date m) = weekday /\ mealType m = mt)
    /\ (getMenuByWeekdayAndType weekday mt w = None <->
        forall m, In m (dailyMenus w) -> Cal.getDay (date m) = weekday ->
                  mealType m <> mt).
Proof.
  intros w weekday mt.
  assert (E : getMenuByWeekdayAndType weekday mt w
              = find (fun menu => MealType_eqb (mealType menu) mt)
                     (getMenusByWeekday weekday w)).
  { unfold getMenuByWeekdayAndType, getMenusByWeekday. now rewrite find_filter. }
  split; [|split; [exact E|split]].
  - rewrite E. destruct mt; reflexivity.
  - intros m Hm. unfold getMenuByWeekdayAndType in Hm.
    apply find_some in Hm as [Hin Hp].
    apply andb_true_iff in Hp as [Hd Ht].
    apply Z.eqb_eq in Hd. apply MealType_eqb_eq in Ht. now repeat split.
  - unfold getMenuByWeekdayAndType. split.
    + intros Hn m Hin Hd Ht.
      pose proof (find_none _ _ Hn m Hin) as Hp. cbn beta in Hp.
      unfold onWeekday in Hp. rewrite (proj2 (Z.eqb_eq _ _) Hd) in Hp.
      rewrite (proj2 (MealType_eqb_eq _ _) Ht) in Hp. discriminate.
    + intros Hall.
      destruct (find _ (dailyMenus w)) as [m|] eqn:F; [|reflexivity].
      apply find_some in F as [Hin Hp].
      apply andb_true_iff in Hp as [Hd Ht].
      apply Z.eqb_eq in Hd. apply MealType_eqb_eq in Ht.
      exfalso. exact (Hall m Hin Hd Ht).
Qed.

(** X2.  The lookups of a weekly menu by date compare the dates as
    rendered; on dates of the four-digit range that is equality of the
    days.  Then [getMenusByDate] is the week's daily menus on that day, in
    their order, [getMenuByDate] is the first of them, each field of
    [getMealsByDate] is what [getMenuByDateAndType] returns for that meal
    type, and a menu that is found is on the day and of the meal type asked
    for. *)
Theorem meals_by_date_consistent :
  forall (w : WeeklyMenu) (targetDate : Cal.Date) (mt : MealType),
    Cal.date_ok targetDate ->
    Forall (fun m => Cal.date_ok (date m)) (dailyMenus w) ->
    getMenusByDate targetDate w
    = filter (fun m => date m =? targetDate) (dailyMenus w)
    /\ getMenuByDate targetDate w = hd_error (getMenusByDate targetDate w)
    /\ mealOf mt (getMealsByDate targetDate w) = getMenuByDateAndType targetDate mt w
    /\ (forall m, getMenuByDateAndType targetDate mt w = Some m ->
          In m (dailyMenus w) /\ date m = targetDate /\ mealType m = mt)
    /\ (getMenuByDateAndType targetDate mt w = None <->
        forall m, In m (dailyMenus w) -> date m = targetDate -> mealType m <> mt).
Proof.
  intros w t mt Ht Hw. rewrite Forall_forall in Hw.
  assert (E : getMenuByDateAndType t mt w
              = find (fun menu => MealType_eqb (mealType menu) mt)
                     (getMenusByDate t w)).
  { unfold getMenuByDateAndType, getMenusByDate. now rewrite find_filter. }
  split; [|split; [|split; [|split]]].
  - unfold getMenusByDate. apply filter_ext_in.
    intros m Hm. apply onDateStr_format; [exact Ht|now apply Hw].
  - unfold getMenuByDate, getMenusByDate. apply find_hd_filter.
  - rewrite E. destruct mt; reflexivity.
  - intros m Hm. unfold getMenuByDateAndType in Hm.
    apply find_some in Hm as [Hin Hp].
    apply andb_true_iff in Hp as [Hd Hmt].
    rewrite onDateStr_format in Hd by (try exact Ht; now apply Hw).
    apply Z.eqb_eq in Hd. apply MealType_eqb_eq in Hmt. now repeat split.
  - unfold getMenuByDateAndType. split.
    + intros Hn m Hin Hd Hmt.
      pose proof (find_none _ _ Hn m Hin) as Hp. cbn beta in Hp.
      rewrite onDateStr_format in Hp by (try exact Ht; now apply Hw).
      rewrite (proj2 (Z.eqb_eq _ _) Hd) in Hp.
      rewrite (proj2 (MealType_eqb_eq _ _) Hmt) in Hp. discriminate.
    + intros Hall.
      destruct (find _ (dailyMenus w)) as [m|] eqn:F; [|reflexivity].
      apply find_some in F as [Hin Hp].
      apply andb_true_iff in Hp as [Hd Hmt].
      rewrite onDateStr_format in Hd by (try exact Ht; now apply Hw).
      apply Z.eqb_eq in Hd. apply MealType_eqb_eq in Hmt.
      exfalso. exact (Hall m Hin Hd Hmt).
Qed.

Definition secondWeekOfJanuary : WeeklyMenu :=
  WeeklyMenu_on (Cal.newDate 2024 0 8) (Cal.newDate 2024 0 14)
                [mondayLunch; mondayBreakfast].

Lemma meals_by_date_consistent_witness :
  getMenusByDate (Cal.newDate 2024 0 8) secondWeekOfJanuary
  = filter (fun m => date m =? Cal.newDate 2024 0 8) (dailyMenus secondWeekOfJanuary)
  /\ mealOf BREAKFAST (getMealsByDate (Cal.newDate 2024 0 8) secondWeekOfJanuary)
     = getMenuByDateAndType (Cal.newDate 2024 0 8) BREAKFAST secondWeekOfJanuary.
Proof.
  assert (Ht : Cal.date_ok (Cal.newDate 2024 0 8))
    by (apply date_ok_by_computation; vm_compute; reflexivity).
  assert (Hw : Forall (fun m => Cal.date_ok (date m)) (dailyMenus secondWeekOfJanuary)).
  { constructor; [exact Ht|]. constructor; [exact Ht|]. constructor. }
  pose proof (meals_by_date_consistent secondWeekOfJanuary (Cal.newDate 2024 0 8)
                BREAKFAST Ht Hw) as H.
  split; [exact (proj1 H)|exact (proj1 (proj2 (proj2 H)))].
Defined.

(** *** The seven weekdays of a weekly menu *)

Lemma filter_filter_other {A : Type} (p q : A -> bool) (l : list A) :
  (forall x, In x l -> p x = true -> q x = false) ->
  filter p (filter (fun x => negb (q x)) l) = filter p l.
Proof.
  induction l as [|x l IH]; intros H; cbn [filter]; [reflexivity|].
  assert (IH' : filter p (filter (fun x => negb (q x)) l) = filter p l).
  { apply IH. intros y Hy. apply H. now right. }
  destruct (q x) eqn:Q; cbn [negb filter].
  - destruct (p x) eqn:Px; [|exact IH'].
    rewrite (H x (or_introl eq_refl) Px) in Q. discriminate.
  - now rewrite IH'.
Qed.

Lemma filter_split_perm {A : Type} (q : A -> bool) (l : list A) :
  Permutation (filter q l ++ filter (fun x => negb (q x)) l) l.
Proof.
  induction l as [|x l IH]; cbn [filter]; [constructor|].
  destruct (q x); cbn [negb app].
  - now constructor.
  - rewrite <- Permutation_middle. now constructor.
Qed.

Lemma flat_map_same_on {A B : Type} (f g : A -> list B) (l : list A) :
  (forall a, In a l -> f a = g a) -> flat_map f l = flat_map g l.
Proof.
  induction l as [|a l IH]; intros H; cbn [flat_map]; [reflexivity|].
  rewrite (H a (or_introl eq_refl)), IH; [reflexivity|].
  intros b Hb. apply H. now right.
Qed.

(** Filtering by each key of a list of distinct keys splits a list whose
    elements all have one of the keys. *)
Lemma keyed_partition_perm {A : Type} (key : A -> Z) (ks : list Z) :
  NoDup ks ->
  forall l : list A,
    (forall x, In x l -> In (key x) ks) ->
    Permutation (flat_map (fun k => filter (fun x => key x =? k) l) ks) l.
Proof.
  induction 1 as [|k ks Hk Hnd IH]; intros l Hl; cbn [flat_map].
  - destruct l as [|x l]; [constructor|]. destruct (Hl x (or_introl eq_refl)).
  - etransitivity; [|apply (filter_split_perm (fun x => key x =? k) l)].
    apply Permutation_app_head.
    rewrite <- (IH (filter (fun x => negb (key x =? k)) l)).
    + apply Permutation_refl'. apply flat_map_same_on. intros k' Hk'.
      symmetry. apply filter_filter_other.
      intros x _ Hx. apply Z.eqb_eq in Hx. apply Z.eqb_neq. congruence.
    + intros x Hx. apply filter_In in Hx as [Hin Hq].
      apply negb_true_iff, Z.eqb_neq in Hq.
      destruct (Hl x Hin) as [E|Hin']; [congruence|exact Hin'].
Qed.

Definition weekdays : list Weekday :=
  [SUNDAY; MONDAY; TUESDAY; WEDNESDAY; THURSDAY; FRIDAY; SATURDAY].

(** X3.  Each daily menu of a weekly menu is returned by
    [getMenusByWeekday] for the weekday of its date and for no other: the
    lists of the seven weekdays together hold every daily menu of the week
    once, and a weekday outside Sunday to Saturday gets the empty list. *)
Theorem menus_by_weekday_partition :
  forall w : WeeklyMenu,
    (forall weekday m,
        In m (getMenusByWeekday weekday w)
        <-> In m (dailyMenus w) /\ Cal.getDay (date m) = weekday)
    /\ Permutation (flat_map (fun weekday => getMenusByWeekday weekday w) weekdays)
                   (dailyMenus w)
    /\ (forall weekday, ~ In weekday weekdays -> getMenusByWeekday weekday w = []).
Proof.
  intros w.
  assert (Hin : forall weekday m,
             In m (getMenusByWeekday weekday w)
             <-> In m (dailyMenus w) /\ Cal.getDay (date m) = weekday).
  { intros weekday m. unfold getMenusByWeekday, onWeekday.
    rewrite filter_In, Z.eqb_eq. reflexivity. }
  assert (Hday : forall d, In (Cal.getDay d) weekdays).
  { intros d. pose proof (WeekFacts.getDay_range d) as R.
    unfold weekdays, SUNDAY, MONDAY, TUESDAY, WEDNESDAY, THURSDAY, FRIDAY, SATURDAY.
    cbn [In]. lia. }
  split; [exact Hin|split].
  - apply (keyed_partition_perm (fun m => Cal.getDay (date m))).
    + unfold weekdays, SUNDAY, MONDAY, TUESDAY, WEDNESDAY, THURSDAY, FRIDAY, SATURDAY.
      repeat (constructor; [cbn [In]; lia|]). constructor.
    + intros m _. apply Hday.
  - intros weekday Hnot.
    destruct (getMenusByWeekday weekday w) as [|m l] eqn:E; [reflexivity|].
    assert (Hm : In m (getMenusByWeekday weekday w)) by (rewrite E; now left).
    apply Hin in Hm as [_ Hd]. exfalso. apply Hnot. rewrite <- Hd. apply Hday.
Qed.

(** *** The date a layout prints over a weekday's column *)

(** X4.  In a weekly menu built by the week bucketer, the daily menus that
    [getMenusByWeekday] returns for a weekday from Monday to Saturday all
    have the date that [getDateForWeekday] gives for that weekday, the one
    printed over the column.  For Sunday [getDateForWeekday] gives the day
    before the week's Monday, seven days before the date of the week's
    Sunday menus. *)
Theorem column_date_is_menu_date :
  forall (l : list DailyMenu) (w : WeeklyMenu) (weekday : Weekday) (m : DailyMenu),
    In w (groupDailyMenusByWeek l) ->
    In m (getMenusByWeekday weekday w) ->
    (MONDAY <= weekday <= SATURDAY -> date m = getDateForWeekday w weekday)
    /\ (weekday = SUNDAY -> date m = Cal.addDays (getDateForWeekday w weekday) 7).
Proof.
  intros l w weekday m Hw Hm.
  pose proof (group_ok l) as Hok. rewrite Forall_forall in Hok.
  destruct (Hok w Hw) as (_ & Hmon & _ & Hall).
  unfold getMenusByWeekday in Hm. apply filter_In in Hm as [Hin Hd].
  unfold onWeekday in Hd. apply Z.eqb_eq in Hd.
  rewrite Forall_forall in Hall. specialize (Hall m Hin).
  apply WeekFacts.in_week_iff in Hall; [|exact Hmon].
  unfold getDateForWeekday, Cal.addDays, MONDAY, SATURDAY, SUNDAY.
  unfold Cal.getDay in *. split; intros Hwd; lia.
Qed.

Lemma column_date_is_menu_date_witness :
  date wednesdayLunch
  = getDateForWeekday
      (WeeklyMenu_on (Cal.newDate 2024 0 1) (Cal.newDate 2024 0 7) [wednesdayLunch])
      WEDNESDAY.
Proof.
  assert (Hw : In (WeeklyMenu_on (Cal.newDate 2024 0 1) (Cal.newDate 2024 0 7)
                                 [wednesdayLunch])
                  (groupDailyMenusByWeek [mondayLunch; wednesdayLunch; mondayBreakfast]))
    by (vm_compute; left; reflexivity).
  assert (Hm : In wednesdayLunch
                  (getMenusByWeekday WEDNESDAY
                     (WeeklyMenu_on (Cal.newDate 2024 0 1) (Cal.newDate 2024 0 7)
                                    [wednesdayLunch])))
    by (vm_compute; left; reflexivity).
  assert (Hr : MONDAY <= WEDNESDAY <= SATURDAY) by (vm_compute; split; discriminate).
  exact (proj1 (column_date_is_menu_date _ _ _ _ Hw Hm) Hr).
Defined.

(** *** Weekday names *)

Lemma lower_upper_char c : Js.lower_char (Js.upper_char c) = Js.lower_char c.
Proof. destruct c as [[] [] [] [] [] [] [] []]; reflexivity. Qed.

Lemma lower_lower_char c : Js.lower_char (Js.lower_char c) = Js.lower_char c.
Proof. destruct c as [[] [] [] [] [] [] [] []]; reflexivity. Qed.

Lemma toLowerCase_toUpperCase s :
  Js.toLowerCase (Js.toUpperCase s) = Js.toLowerCase s.
Proof.
  unfold Js.toLowerCase, Js.toUpperCase.
  induction s as [|c s IH]; cbn [Js.map_chars]; [reflexivity|].
  now rewrite lower_upper_char, IH.
Qed.

Lemma toLowerCase_idem s : Js.toLowerCase (Js.toLowerCase s) = Js.toLowerCase s.
Proof.
  unfold Js.toLowerCase.
  induction s as [|c s IH]; cbn [Js.map_chars]; [reflexivity|].
  now rewrite lower_lower_char, IH.
Qed.

(** X5.  [getWeekdayFromName] reads back the name [getWeekdayName] gives to
    a weekday from Sunday to Saturday, and its first three letters; the name
    of any other number is "Unknown", which reads back as [null].  The case
    of the letters of a name is of no account. *)
Theorem weekday_name_round_trip :
  forall (weekday : Weekday) (weekdayName : string),
    (SUNDAY <= weekday <= SATURDAY ->
     getWeekdayFromName (getWeekdayName weekday) = Some weekday
     /\ getWeekdayFromName (substring 0 3 (getWeekdayName weekday)) = Some weekday)
    /\ (~ SUNDAY <= weekday <= SATURDAY ->
        getWeekdayName weekday = "Unknown"
        /\ getWeekdayFromName (getWeekdayName weekday) = None)
    /\ getWeekdayFromName (Js.toUpperCase weekdayName) = getWeekdayFromName weekdayName
    /\ getWeekdayFromName (Js.toLowerCase weekdayName) = getWeekdayFromName weekdayName.
Proof.
  intros weekday weekdayName.
  unfold SUNDAY, SATURDAY. split; [|split; [|split]].
  - intros R.
    assert (C : In weekday [0; 1; 2; 3; 4; 5; 6]) by (cbn [In]; lia).
    cbn [In] in C.
    destruct C as [<-|[<-|[<-|[<-|[<-|[<-|[<-|[]]]]]]]]; split; reflexivity.
  - intros R. unfold getWeekdayName, SUNDAY, MONDAY, TUESDAY, WEDNESDAY, THURSDAY,
      FRIDAY, SATURDAY.
    repeat match goal with
           | |- context [?a =? ?b] => destruct (Z.eqb_spec a b); [lia|]
           end.
    split; reflexivity.
  - unfold getWeekdayFromName. now rewrite toLowerCase_toUpperCase.
  - unfold getWeekdayFromName. now rewrite toLowerCase_idem.
Qed.

(** *** The days a layout shows *)

(** X6.  The weekday a layout shows for a date is never Saturday or Sunday:
    [getQuadrantWeekday] gives the date's own weekday from Monday to Friday
    and Monday at the weekend.  [getHalfVerticalWeekdays] gives that day
    and the next one, which is missing exactly when the first is Friday, so
    the second day, when there is one, is from Tuesday to Friday. *)
Theorem layout_days_are_school_days :
  forall d : Cal.Date,
    MONDAY <= getQuadrantWeekday d <= FRIDAY
    /\ (MONDAY <= Cal.getDay d <= FRIDAY -> getQuadrantWeekday d = Cal.getDay d)
    /\ (Cal.getDay d = SATURDAY \/ Cal.getDay d = SUNDAY -> getQuadrantWeekday d = MONDAY)
    /\ fst (getHalfVerticalWeekdays d) = getQuadrantWeekday d
    /\ (snd (getHalfVerticalWeekdays d) = None <-> getQuadrantWeekday d = FRIDAY)
    /\ (forall second, snd (getHalfVerticalWeekdays d) = Some second ->
          second = getQuadrantWeekday d + 1 /\ TUESDAY <= second <= FRIDAY).
Proof.
  intros d. pose proof (WeekFacts.getDay_range d) as R.
  unfold getHalfVerticalWeekdays, getNextWeekday, getQuadrantWeekday.
  unfold MONDAY, TUESDAY, FRIDAY, SATURDAY, SUNDAY. cbv [fst snd].
  assert (Hnext : forall k, MONDAY <= k <= FRIDAY ->
             ((if k >=? 5 then None else Some (k + 1)) = None <-> k = 5)
             /\ (forall second,
                   (if k >=? 5 then None else Some (k + 1)) = Some second ->
                   second = k + 1 /\ 2 <= second <= 5)).
  { unfold MONDAY, FRIDAY. intros k Hk. destruct (Z.geb_spec k 5) as [G|G].
    - split; [split; intros; [lia|reflexivity]|]. intros second. discriminate.
    - split; [split; [discriminate|lia]|]. intros second [= <-]. lia. }
  unfold MONDAY, FRIDAY in Hnext.
  destruct (Z.eqb_spec (Cal.getDay d) 0) as [E0|N0];
    [|destruct (Z.eqb_spec (Cal.getDay d) 6) as [E6|N6]]; cbn [orb].
  - split; [lia|]. split; [lia|]. split; [reflexivity|]. split; [reflexivity|].
    apply Hnext. lia.
  - split; [lia|]. split; [lia|]. split; [reflexivity|]. split; [reflexivity|].
    apply Hnext. lia.
  - split; [lia|]. split; [reflexivity|]. split; [lia|]. split; [reflexivity|].
    apply Hnext. lia.
Qed.

(** *** The shape of what the parsers emit *)

(** An item as the handlers build it: no flags, no allergens, no
    nutritional information, and a description that is not empty once the
    name is not. *)
Definition built_by_handlers (it : MenuItemData) : Prop :=
  d_isVegetarian it = None /\ d_isVegan it = None
  /\ d_allergens it = Some [] /\ d_nutritionalInfo it = Some []
  /\ exists de, d_description it = Some de
                /\ (d_name it <> EmptyString -> de <> EmptyString).

(** An item as it is pushed into a day box. *)
Definition pushed_item (it : MenuItemData) : Prop :=
  d_name it <> EmptyString /\ built_by_handlers it.

(** A daily menu as [parseCalendarFragment] builds it for the meal type
    [mt], from the items [raws] of a day box. *)
Definition menu_of_day_box (mt : MealType) (dm : DailyMenu) : Prop :=
  mealType dm = mt /\ isSchoolDay dm = true /\ specialNotes dm = []
  /\ exists raws, raws <> [] /\ Forall pushed_item raws
                  /\ menuItems dm = map MenuItem_new raws.

Lemma truthy_nonempty s : Js.truthy s = true <-> s <> EmptyString.
Proof. destruct s; cbn; split; congruence. Qed.

Lemma named_title_is_described text :
  fst (parseMenuItemText text) <> EmptyString ->
  snd (parseMenuItemText text) <> EmptyString.
Proof.
  unfold parseMenuItemText.
  destruct (before_separator (cleanText text)) as [p|] eqn:B; cbn [fst snd];
    [|trivial].
  destruct (cleanText text); [|discriminate].
  cbn in B. discriminate.
Qed.

Lemma built_empty : built_by_handlers emptyMenuItem.
Proof.
  repeat (split; [reflexivity|]).
  exists EmptyString. split; [reflexivity|]. intros H. now destruct H.
Qed.

Lemma built_category c it : built_by_handlers it -> built_by_handlers (setCategory c it).
Proof. intros H. exact H. Qed.

Lemma built_title text it :
  built_by_handlers it ->
  built_by_handlers (setNameDescription (parseMenuItemText text) it).
Proof.
  intros (V & G & A & N & _). unfold built_by_handlers. cbn.
  repeat (split; [assumption|]).
  exists (snd (parseMenuItemText text)). split; [reflexivity|].
  apply named_title_is_described.
Qed.

Lemma nonempty_length {A : Type} (l : list A) :
  (0 <? Z.of_nat (List.length l)) = true -> l <> [].
Proof. destruct l; [discriminate|discriminate]. Qed.

Lemma menu_on_day_box d mt raws :
  raws <> [] -> Forall pushed_item raws ->
  menu_of_day_box mt (DailyMenu_on d mt (map MenuItem_new raws)).
Proof.
  intros Hne Hall. unfold menu_of_day_box, DailyMenu_on. cbn.
  repeat (split; [reflexivity|]). exists raws. now repeat split.
Qed.

Module InlineShape.
Import Inline.

Definition state_ok (st : State) : Prop :=
  (forall it, currentMenuItem st = Some it -> built_by_handlers it)
  /\ (forall box, currentDayBox st = Some box -> Forall pushed_item (box_menuItems box))
  /\ Forall (fun box => Forall pushed_item (box_menuItems box)) (dayBoxes st).

Lemma pushPending_pushed item box :
  (forall it, item = Some it -> built_by_handlers it) ->
  Forall pushed_item (box_menuItems box) ->
  Forall pushed_item (box_menuItems (pushPending item box)).
Proof.
  intros Hi Hb. unfold pushPending. destruct item as [it|]; [|exact Hb].
  destruct (Js.truthy (d_name it)) eqn:N; [|exact Hb].
  cbn [box_menuItems]. apply Forall_app. split; [exact Hb|].
  constructor; [|constructor].
  split; [now apply truthy_nonempty|now apply Hi].
Qed.

Lemma completeDayBox_pushed st :
  state_ok st ->
  Forall (fun box => Forall pushed_item (box_menuItems box)) (completeDayBox st).
Proof.
  destruct st as [box item saved]. intros (Hi & Hb & Hs).
  cbn [currentMenuItem currentDayBox dayBoxes] in *. unfold completeDayBox.
  cbn [currentMenuItem currentDayBox dayBoxes].
  destruct box as [box|]; [|exact Hs].
  destruct (hasValidData _); [|exact Hs].
  apply Forall_app. split; [exact Hs|]. constructor; [|constructor].
  apply pushPending_pushed; [exact Hi|]. now apply Hb.
Qed.

Lemma handle_state_ok st e : state_ok st -> state_ok (handle st e).
Proof.
  intros Hst. pose proof (completeDayBox_pushed st Hst) as Hsaved.
  destruct st as [box item saved]. destruct Hst as (Hi & Hb & Hs).
  cbn [currentMenuItem currentDayBox dayBoxes] in *.
  destruct e as [cls|dd mm yy| |style|title]; cbn [handle].
  - unfold onDaybox.
    destruct (Js.includes _ _); [|destruct (Js.includes _ _)];
      (split; [intros it; discriminate|]);
      (split; [|exact Hsaved]); cbn [currentDayBox]; try discriminate.
    intros b [= <-]. constructor.
  - unfold onDate. cbn [currentDayBox].
    destruct (dateOfAttributes dd mm yy); [|exact (conj Hi (conj Hb Hs))].
    destruct box as [b|]; [|exact (conj Hi (conj Hb Hs))].
    split; [exact Hi|]. split; [|exact Hs].
    cbn [currentDayBox]. intros b' [= <-]. cbn [box_menuItems]. now apply Hb.
  - unfold onInfo. cbn [currentDayBox].
    destruct box as [b|]; [|exact (conj Hi (conj Hb Hs))].
    split; [|split; [|exact Hs]]; cbn [currentMenuItem currentDayBox].
    + intros it [= <-]. apply built_empty.
    + intros b' [= <-]. apply pushPending_pushed; [exact Hi|]. now apply Hb.
  - unfold onColorIcon. cbn [currentMenuItem].
    destruct item as [it|]; [|exact (conj Hi (conj Hb Hs))].
    destruct (categoryOfStyle style) as [c|]; [|exact (conj Hi (conj Hb Hs))].
    split; [|split; [exact Hb|exact Hs]]. cbn [currentMenuItem].
    intros it' [= <-]. apply built_category. exact (Hi it eq_refl).
  - unfold onEventTitle. cbn [currentMenuItem].
    destruct item as [it|]; [|exact (conj Hi (conj Hb Hs))].
    destruct (Js.truthy _); [|exact (conj Hi (conj Hb Hs))].
    destruct (isAdminAnnouncement _) eqn:A; [exact (conj Hi (conj Hb Hs))|].
    split; [|split; [exact Hb|exact Hs]]. cbn [currentMenuItem].
    intros it' [= <-]. apply built_title. exact (Hi it eq_refl).
Qed.

Lemma run_state_ok evs : forall st, state_ok st -> state_ok (fold_left handle evs st).
Proof.
  induction evs as [|e evs IH]; intros st H; cbn [fold_left]; [exact H|].
  apply IH. now apply handle_state_ok.
Qed.

Lemma output_shape evs mt :
  Forall (menu_of_day_box mt) (parseCalendarFragment evs mt).
Proof.
  assert (H : state_ok (fold_left handle evs init)).
  { apply run_state_ok. split; [intros it; discriminate|].
    split; [discriminate|constructor]. }
  apply completeDayBox_pushed in H. unfold parseCalendarFragment, toDailyMenus.
  induction H as [|box boxes Hbox _ IH]; cbn [flat_map]; [constructor|].
  apply Forall_app. split; [|exact IH].
  destruct (box_date box) as [d|]; [|constructor].
  destruct (0 <? _) eqn:L; [|constructor].
  constructor; [|constructor].
  apply menu_on_day_box; [now apply nonempty_length|exact Hbox].
Qed.

End InlineShape.

Module StatefulShape.
Import Stateful.

Section ForMealType.

Variable mt : MealType.

Definition state_ok (st : ScraperState) : Prop :=
  stateMealType st = mt
  /\ (forall it, currentMenuItem st = Some it -> built_by_handlers it)
  /\ (forall box, currentDayBox st = Some box ->
        box_mealType box = mt /\ Forall pushed_item (box_menuItems box))
  /\ Forall (menu_of_day_box mt) (completedDays st).

Lemma completePreviousDayBox_ok st : state_ok st -> state_ok (completePreviousDayBox st).
Proof.
  intros Hst. unfold completePreviousDayBox.
  destruct (currentDayBox st) as [box|] eqn:B; [|exact Hst].
  destruct (box_date box) as [d|]; [|exact Hst].
  destruct (0 <? _) eqn:L; [|exact Hst].
  destruct Hst as (Hm & Hi & Hb & Hc).
  destruct (Hb box B) as [Hbm Hbi].
  split; [exact Hm|]. split; [exact Hi|].
  split; cbn [currentDayBox completedDays].
  - intros b' [= <-]. now split.
  - apply Forall_app. split; [exact Hc|]. constructor; [|constructor].
    rewrite Hbm. apply menu_on_day_box; [now apply nonempty_length|exact Hbi].
Qed.

Lemma completePreviousMenuItem_ok st :
  state_ok st -> state_ok (completePreviousMenuItem st).
Proof.
  intros Hst. unfold completePreviousMenuItem.
  destruct (currentMenuItem st) as [it|] eqn:I; [|exact Hst].
  destruct (currentDayBox st) as [box|] eqn:B; [|exact Hst].
  destruct (Js.truthy (d_name it)) eqn:N; [|exact Hst].
  destruct Hst as (Hm & Hi & Hb & Hc).
  destruct (Hb box B) as [Hbm Hbi].
  destruct (Hi it I) as (_ & _ & A & NI & _).
  split; [exact Hm|].
  split; [cbn [currentMenuItem]; intros it' [= <-]; now apply Hi|].
  split; [|exact Hc].
  cbn [currentDayBox]. intros b' [= <-]. cbn [box_mealType box_menuItems].
  split; [exact Hbm|]. apply Forall_app. split; [exact Hbi|].
  constructor; [|constructor].
  apply truthy_nonempty in N.
  split; [exact N|]. unfold built_by_handlers. cbn.
  repeat (split; [reflexivity || assumption|]).
  eexists. split; [reflexivity|]. intros _.
  unfold Js.or_else. destruct (Js.truthy _) eqn:T; [|exact N].
  now apply truthy_nonempty.
Qed.

Lemma state_handle_state_ok st e : state_ok st -> state_ok (handle st e).
Proof.
  intros Hst.
  destruct e as [cls|dd mm yy| |style|title]; cbn [handle].
  - unfold onDaybox. destruct (Js.includes _ _); [exact Hst|].
    unfold startDayBox. apply completePreviousDayBox_ok in Hst.
    destruct Hst as (Hm & Hi & Hb & Hc).
    split; [exact Hm|]. split; [exact Hi|]. split; [|exact Hc].
    cbn [currentDayBox]. intros b' [= <-]. cbn [box_mealType box_menuItems].
    split; [exact Hm|constructor].
  - unfold onDate. destruct (dateOfAttributes dd mm yy); [|exact Hst].
    unfold setDateInfo. destruct (currentDayBox st) as [box|] eqn:B; [|exact Hst].
    destruct Hst as (Hm & Hi & Hb & Hc).
    split; [exact Hm|]. split; [exact Hi|]. split; [|exact Hc].
    cbn [currentDayBox]. intros b' [= <-]. cbn [box_mealType box_menuItems].
    now apply Hb.
  - unfold startMenuItem. apply completePreviousMenuItem_ok in Hst.
    destruct Hst as (Hm & Hi & Hb & Hc).
    split; [exact Hm|]. split; [|split; [exact Hb|exact Hc]].
    cbn [currentMenuItem]. intros it [= <-]. apply built_empty.
  - unfold onColorIcon. destruct (categoryOfStyle style) as [c|]; [|exact Hst].
    unfold setMenuItemCategory.
    destruct (currentMenuItem st) as [it|] eqn:I; [|exact Hst].
    destruct Hst as (Hm & Hi & Hb & Hc).
    split; [exact Hm|]. split; [|split; [exact Hb|exact Hc]].
    cbn [currentMenuItem]. intros it' [= <-]. apply built_category. now apply Hi.
  - unfold onEventTitle. destruct (Js.truthy _); [|exact Hst].
    unfold setMenuItemTitle.
    destruct (currentMenuItem st) as [it|] eqn:I; [|exact Hst].
    destruct Hst as (Hm & Hi & Hb & Hc).
    destruct (isAdminAnnouncement _).
    + split; [exact Hm|]. split; [|split; [exact Hb|exact Hc]].
      cbn [currentMenuItem]. intros it'. discriminate.
    + split; [exact Hm|]. split; [|split; [exact Hb|exact Hc]].
      cbn [currentMenuItem]. intros it' [= <-]. apply built_title. now apply Hi.
Qed.

Lemma state_run_state_ok evs : forall st, state_ok st -> state_ok (fold_left handle evs st).
Proof.
  induction evs as [|e evs IH]; intros st H; cbn [fold_left]; [exact H|].
  apply IH. now apply state_handle_state_ok.
Qed.

Lemma state_output_shape evs :
  Forall (menu_of_day_box mt) (parseCalendarFragment evs mt).
Proof.
  assert (H : state_ok (fold_left handle evs (new mt))).
  { apply state_run_state_ok. split; [reflexivity|].
    split; [intros it; discriminate|]. split; [discriminate|constructor]. }
  apply completePreviousMenuItem_ok in H.
  assert (H' : state_ok (endMenuItem (fold_left handle evs (new mt)))).
  { unfold endMenuItem. destruct H as (Hm & Hi & Hb & Hc).
    split; [exact Hm|]. split; [|split; [exact Hb|exact Hc]].
    intros it. discriminate. }
  apply completePreviousDayBox_ok in H'.
  unfold parseCalendarFragment, getCompletedDays, endDayBox. cbn [completedDays].
  apply H'.
Qed.

End ForMealType.

End StatefulShape.

(** X7.  Every daily menu that either version of [parseCalendarFragment]
    emits is of the meal type asked for, is a school day without special
    notes, and has at least one item; each of its items has a name and a
    description that are not empty, no allergens and no nutritional
    information. *)
Theorem scraped_menus_well_formed :
  forall (events : list Event) (mt : MealType) (dm : DailyMenu),
    In dm (Inline.parseCalendarFragment events mt)
    \/ In dm (Stateful.parseCalendarFragment events mt) ->
    mealType dm = mt /\ isSchoolDay dm = true /\ specialNotes dm = []
    /\ menuItems dm <> []
    /\ Forall (fun item =>
                 name item <> EmptyString
                 /\ (exists de, description item = Some de /\ de <> EmptyString)
                 /\ allergens item = [] /\ nutritionalInfo item = [])
              (menuItems dm).
Proof.
  intros events mt dm Hdm.
  assert (H : menu_of_day_box mt dm).
  { destruct Hdm as [Hdm|Hdm].
    - pose proof (InlineShape.output_shape events mt) as F.
      rewrite Forall_forall in F. now apply F.
    - pose proof (StatefulShape.state_output_shape mt events) as F.
      rewrite Forall_forall in F. now apply F. }
  destruct H as (Hm & Hs & Hn & raws & Hne & Hall & ->).
  repeat (split; [assumption|]). split.
  - destruct raws; [congruence|discriminate].
  - apply Forall_map. eapply Forall_impl; [|exact Hall].
    intros it (Hname & _ & _ & A & N & de & D & Hde).
    unfold MenuItem_new. cbn [name description allergens nutritionalInfo].
    split; [exact Hname|]. split; [exists de; split; [exact D|now apply Hde]|].
    rewrite A, N. now split.
Qed.

Lemma scraped_menus_well_formed_witness :
  mealType (DailyMenu_on (Cal.newDate 2025 0 3) LUNCH [plainItem "Cheese Pizza"]) = LUNCH
  /\ menuItems (DailyMenu_on (Cal.newDate 2025 0 3) LUNCH [plainItem "Cheese Pizza"]) <> [].
Proof.
  assert (H : In (DailyMenu_on (Cal.newDate 2025 0 3) LUNCH [plainItem "Cheese Pizza"])
                 (Inline.parseCalendarFragment fridayOnly LUNCH)
              \/ In (DailyMenu_on (Cal.newDate 2025 0 3) LUNCH [plainItem "Cheese Pizza"])
                    (Stateful.parseCalendarFragment fridayOnly LUNCH))
    by (left; vm_compute; left; reflexivity).
  pose proof (scraped_menus_well_formed fridayOnly LUNCH _ H) as W.
  split; [exact (proj1 W)|exact (proj1 (proj2 (proj2 (proj2 W))))].
Defined.

(** X8.  In every daily menu that either version of
    [parseCalendarFragment] emits the dietary flags of the items are the
    ones [MenuItem]'s constructor infers from the name, so every item
    [getVeganItems] returns is among those [getVegetarianItems] returns,
    and the two lists keep the order of the menu. *)
Theorem scraped_vegan_items_are_vegetarian :
  forall (events : list Event) (mt : MealType) (dm : DailyMenu),
    In dm (Inline.parseCalendarFragment events mt)
    \/ In dm (Stateful.parseCalendarFragment events mt) ->
    getVeganItems dm = filter (fun item => isVegan item) (getVegetarianItems dm)
    /\ (forall item, In item (getVeganItems dm) -> In item (getVegetarianItems dm))
    /\ Forall (fun item =>
                 isVegan item
                 = existsb (fun term => Js.includes term (Js.toLowerCase (name item)))
                           veganTerms
                 /\ isVegetarian item
                    = (isVegan item
                       || existsb (fun term => Js.includes term (Js.toLowerCase (name item)))
                                  vegetarianTerms))
              (menuItems dm).
Proof.
  intros events mt dm Hdm.
  assert (H : menu_of_day_box mt dm).
  { destruct Hdm as [Hdm|Hdm].
    - pose proof (InlineShape.output_shape events mt) as F.
      rewrite Forall_forall in F. now apply F.
    - pose proof (StatefulShape.state_output_shape mt events) as F.
      rewrite Forall_forall in F. now apply F. }
  destruct H as (_ & _ & _ & raws & _ & Hall & E).
  assert (Hflags : Forall (fun item =>
                 isVegan item
                 = existsb (fun term => Js.includes term (Js.toLowerCase (name item)))
                           veganTerms
                 /\ isVegetarian item
                    = (isVegan item
                       || existsb (fun term => Js.includes term (Js.toLowerCase (name item)))
                                  vegetarianTerms))
              (menuItems dm)).
  { rewrite E. apply Forall_map. eapply Forall_impl; [|exact Hall].
    intros it (_ & V & G & _). unfold MenuItem_new.
    cbn [name isVegan isVegetarian]. rewrite V, G. now split. }
  assert (Himp : forall item, In item (menuItems dm) ->
                              isVegan item = true -> isVegetarian item = true).
  { rewrite Forall_forall in Hflags. intros item Hin Hv.
    destruct (Hflags item Hin) as [_ ->]. now rewrite Hv. }
  split; [|split; [|exact Hflags]].
  - unfold getVeganItems, getVegetarianItems.
    clear E Hflags. induction (menuItems dm) as [|x l IH]; [reflexivity|].
    cbn [filter]. destruct (isVegan x) eqn:V.
    + rewrite (Himp x (or_introl eq_refl) V). cbn [filter]. rewrite V.
      f_equal. apply IH. intros y Hy. apply Himp. now right.
    + destruct (isVegetarian x); cbn [filter]; [rewrite V|];
        apply IH; intros y Hy; apply Himp; now right.
  - unfold getVeganItems, getVegetarianItems. intros item Hin.
    apply filter_In in Hin as [Hin Hv]. apply filter_In. split; [exact Hin|].
    now apply Himp.
Qed.

Definition fridayLunch : DailyMenu :=
  DailyMenu_on (Cal.newDate 2025 2 7) LUNCH
    [{| name := "Chicken & Waffles";
        description := Some "Chicken & Waffles with Syrup";
        category := MAIN_ENTREE;
        isVegetarian := false; isVegan := false;
        allergens := []; nutritionalInfo := [] |};
     {| name := "Vegan Corn & Chile Tamales";
        description := Some "Vegan Corn & Chile Tamales";
        category := VEGETARIAN_ENTREE;
        isVegetarian := true; isVegan := true;
        allergens := []; nutritionalInfo := [] |}].

Lemma scraped_vegan_items_are_vegetarian_witness :
  getVeganItems fridayLunch
  = filter (fun item => isVegan item) (getVegetarianItems fridayLunch).
Proof.
  assert (H : In fridayLunch
                 (Inline.parseCalendarFragment
                    (Daybox (Some "fsCalendarDaybox fsStateHasEvents") :: fridayBody)
                    LUNCH)
              \/ In fridayLunch
                    (Stateful.parseCalendarFragment
                       (Daybox (Some "fsCalendarDaybox fsStateHasEvents") :: fridayBody)
                       LUNCH))
    by (left; vm_compute; left; reflexivity).
  exact (proj1 (scraped_vegan_items_are_vegetarian _ LUNCH fridayLunch H)).
Defined.

(** *** The inline-state parser, day box by day box *)

Module InlineDays.
Import Inline.

(** The state [st] with the day boxes [saved] completed before it. *)
Definition after (saved : list DayBox) (st : State) : State :=
  {| currentDayBox := currentDayBox st;
     currentMenuItem := currentMenuItem st;
     dayBoxes := saved ++ dayBoxes st |}.

Lemma completeDayBox_after saved st :
  completeDayBox (after saved st) = saved ++ completeDayBox st.
Proof.
  destruct st as [box item boxes].
  unfold completeDayBox, after. cbn [currentDayBox currentMenuItem dayBoxes].
  destruct box as [box|]; [|reflexivity].
  destruct (hasValidData _); [|reflexivity].
  now rewrite app_assoc.
Qed.

Lemma handle_after saved st e : handle (after saved st) e = after saved (handle st e).
Proof.
  destruct e as [cls|dd mm yy| |style|title]; cbn [handle].
  - unfold onDaybox. rewrite completeDayBox_after.
    destruct (Js.includes _ _); [reflexivity|].
    destruct (Js.includes _ _); reflexivity.
  - destruct st as [box item boxes]. unfold onDate, after.
    cbn [currentDayBox currentMenuItem dayBoxes].
    destruct (dateOfAttributes dd mm yy); [|reflexivity].
    destruct box; reflexivity.
  - destruct st as [box item boxes]. unfold onInfo, after.
    cbn [currentDayBox currentMenuItem dayBoxes].
    destruct box; reflexivity.
  - destruct st as [box item boxes]. unfold onColorIcon, after.
    cbn [currentDayBox currentMenuItem dayBoxes].
    destruct item; [|reflexivity].
    destruct (categoryOfStyle style); reflexivity.
  - destruct st as [box item boxes]. unfold onEventTitle, after.
    cbn [currentDayBox currentMenuItem dayBoxes].
    destruct item; [|reflexivity].
    destruct (Js.truthy _); [|reflexivity].
    destruct (isAdminAnnouncement _); reflexivity.
Qed.

Lemma run_after evs :
  forall saved st,
    fold_left handle evs (after saved st) = after saved (fold_left handle evs st).
Proof.
  induction evs as [|e evs IH]; intros saved st; cbn [fold_left]; [reflexivity|].
  now rewrite handle_after, IH.
Qed.

Lemma toDailyMenus_app mt a b :
  toDailyMenus mt (a ++ b) = toDailyMenus mt a ++ toDailyMenus mt b.
Proof. unfold toDailyMenus. apply flat_map_app. Qed.

(** A day-box event sees of the state before it only the completed day
    boxes. *)
Lemma daybox_after class st :
  handle st (Daybox class) = after (completeDayBox st) (handle init (Daybox class)).
Proof.
  cbn [handle]. unfold onDaybox, after.
  change (completeDayBox init) with (@nil DayBox).
  destruct (Js.includes _ _); [|destruct (Js.includes _ _)];
    cbn [currentDayBox currentMenuItem dayBoxes]; now rewrite app_nil_r.
Qed.

Lemma split_at_day_box pre post mt :
  at_day_boundary post ->
  parseCalendarFragment (pre ++ post) mt
  = parseCalendarFragment pre mt ++ parseCalendarFragment post mt.
Proof.
  intros Hpost. unfold parseCalendarFragment.
  destruct post as [|e post].
  - rewrite app_nil_r. cbn [fold_left].
    change (toDailyMenus mt (completeDayBox init)) with (@nil DailyMenu).
    symmetry. apply app_nil_r.
  - destruct e as [class| | | |]; cbn [at_day_boundary is_daybox] in Hpost;
      try discriminate.
    rewrite fold_left_app. cbn [fold_left].
    rewrite (daybox_after class (fold_left handle pre init)).
    rewrite run_after, completeDayBox_after, toDailyMenus_app. reflexivity.
Qed.

(** A day box that is not opened leaves nothing behind. *)
Lemma unopened_day_box class body mt :
  Js.includes "fsCalendarWeekendDayBox" (Js.attr_or class EmptyString) = true
  \/ Js.includes "fsStateHasEvents" (Js.attr_or class EmptyString) = false ->
  forallb (fun e => negb (is_daybox e)) body = true ->
  parseCalendarFragment (Daybox class :: body) mt = [].
Proof.
  intros Hc Hbody. unfold parseCalendarFragment. cbn [fold_left handle].
  assert (E : onDaybox class init = InlineFacts.idle []).
  { unfold onDaybox. destruct Hc as [-> | Hc]; [reflexivity|].
    rewrite Hc. destruct (Js.includes "fsCalendarWeekendDayBox" _); reflexivity. }
  rewrite E, InlineFacts.idle_ignores_all by assumption. reflexivity.
Qed.

End InlineDays.

(** X9.  The inline-state parser handles each day box on its own: cutting
    the events before a day-box element, the output of the whole is the
    output of the part before the cut followed by the output of the part
    after it, so the daily menus come in the order of their day boxes.  A
    day box with the weekend marker, or without the marker for events,
    contributes nothing, whatever elements it holds.  The [ScraperState]
    parser does not have the first property: it carries the last item of
    Monday over to Tuesday. *)
Theorem inline_parser_by_day_box :
  forall (pre post : list Event) (mt : MealType),
    at_day_boundary post ->
    Inline.parseCalendarFragment (pre ++ post) mt
    = Inline.parseCalendarFragment pre mt ++ Inline.parseCalendarFragment post mt
    /\ (forall class body,
          Js.includes "fsCalendarWeekendDayBox" (Js.attr_or class EmptyString) = true
          \/ Js.includes "fsStateHasEvents" (Js.attr_or class EmptyString) = false ->
          forallb (fun e => negb (is_daybox e)) body = true ->
          Inline.parseCalendarFragment (pre ++ Daybox class :: body ++ post) mt
          = Inline.parseCalendarFragment (pre ++ post) mt)
    /\ Stateful.parseCalendarFragment mondayThenTuesday LUNCH
       <> Stateful.parseCalendarFragment (firstn 4 mondayThenTuesday) LUNCH
          ++ Stateful.parseCalendarFragment (skipn 4 mondayThenTuesday) LUNCH.
Proof.
  intros pre post mt Hpost. split; [|split].
  - now apply InlineDays.split_at_day_box.
  - intros class body Hc Hbody.
    rewrite (InlineDays.split_at_day_box pre post mt Hpost).
    rewrite (InlineDays.split_at_day_box pre (Daybox class :: body ++ post) mt eq_refl).
    change (Daybox class :: body ++ post) with ((Daybox class :: body) ++ post).
    rewrite (InlineDays.split_at_day_box (Daybox class :: body) post mt Hpost).
    now rewrite InlineDays.unopened_day_box.
  - vm_compute. discriminate.
Qed.

Lemma inline_parser_by_day_box_witness :
  Inline.parseCalendarFragment
    (firstn 4 mondayThenTuesday ++ skipn 4 mondayThenTuesday) LUNCH
  = Inline.parseCalendarFragment (firstn 4 mondayThenTuesday) LUNCH
    ++ Inline.parseCalendarFragment (skipn 4 mondayThenTuesday) LUNCH.
Proof.
  assert (H : at_day_boundary (skipn 4 mondayThenTuesday)) by reflexivity.
  exact (proj1 (inline_parser_by_day_box (firstn 4 mondayThenTuesday)
                  (skipn 4 mondayThenTuesday) LUNCH H)).
Defined.

(** *** No more days than day boxes, no more items than item elements *)

Definition is_info (e : Event) : bool :=
  match e with Info => true | _ => false end.

Definition count_events (p : Event -> bool) (evs : list Event) : nat :=
  List.length (filter p evs).

(** The number of items of a list of daily menus. *)
Definition total_items (menus : list DailyMenu) : nat :=
  list_sum (map (fun dm => List.length (menuItems dm)) menus).

Lemma total_items_app a b : total_items (a ++ b) = (total_items a + total_items b)%nat.
Proof. unfold total_items. now rewrite map_app, list_sum_app. Qed.

Lemma count_events_cons p e evs :
  count_events p (e :: evs)
  = ((if p e then 1 else 0) + count_events p evs)%nat.
Proof. unfold count_events. cbn [filter]. now destruct (p e). Qed.

Module InlineCounts.
Import Inline.

Definition box_items (boxes : list DayBox) : nat :=
  list_sum (map (fun box => List.length (box_menuItems box)) boxes).

Definition days (st : State) : nat :=
  (List.length (dayBoxes st)
   + match currentDayBox st with Some _ => 1 | None => 0 end)%nat.

Definition items (st : State) : nat :=
  (box_items (dayBoxes st)
   + match currentDayBox st with
     | Some box => List.length (box_menuItems box)
     | None => 0
     end
   + match currentMenuItem st with Some _ => 1 | None => 0 end)%nat.

Lemma box_items_app a b : box_items (a ++ b) = (box_items a + box_items b)%nat.
Proof. unfold box_items. now rewrite map_app, list_sum_app. Qed.

Lemma pushPending_length item box :
  (List.length (box_menuItems (pushPending item box))
   <= List.length (box_menuItems box)
      + match item with Some _ => 1 | None => 0 end)%nat.
Proof.
  unfold pushPending. destruct item as [it|]; [|lia].
  destruct (Js.truthy (d_name it)); cbn [box_menuItems]; [|lia].
  rewrite length_app. cbn [List.length]. lia.
Qed.

Lemma completeDayBox_counts st :
  (List.length (completeDayBox st) <= days st)%nat
  /\ (box_items (completeDayBox st) <= items st)%nat.
Proof.
  destruct st as [box item saved]. unfold completeDayBox, days, items.
  cbn [currentDayBox currentMenuItem dayBoxes].
  destruct box as [box|]; [|split; lia].
  pose proof (pushPending_length item box) as L.
  destruct (hasValidData _); [|split; lia].
  rewrite length_app, box_items_app. unfold box_items at 2.
  cbn [List.length map list_sum fold_right]. split; lia.
Qed.

Lemma handle_counts st e :
  (days (handle st e) <= (if is_daybox e then 1 else 0) + days st)%nat
  /\ (items (handle st e) <= (if is_info e then 1 else 0) + items st)%nat.
Proof.
  destruct (completeDayBox_counts st) as [Cd Ci].
  destruct e as [cls|dd mm yy| |style|title]; cbn [handle is_daybox is_info].
  - unfold onDaybox.
    destruct (Js.includes _ _); [|destruct (Js.includes _ _)];
      unfold days at 1, items at 1;
      cbn [currentDayBox currentMenuItem dayBoxes box_menuItems List.length];
      split; lia.
  - destruct st as [box item saved]. unfold onDate.
    cbn [currentDayBox currentMenuItem dayBoxes].
    destruct (dateOfAttributes dd mm yy); [|split; lia].
    destruct box as [box|]; [|split; lia].
    unfold days, items.
    cbn [currentDayBox currentMenuItem dayBoxes box_menuItems]. split; lia.
  - destruct st as [box item saved]. unfold onInfo.
    cbn [currentDayBox currentMenuItem dayBoxes].
    destruct box as [box|]; [|split; lia].
    pose proof (pushPending_length item box) as L.
    unfold days, items.
    cbn [currentDayBox currentMenuItem dayBoxes]. split; lia.
  - destruct st as [box item saved]. unfold onColorIcon.
    cbn [currentDayBox currentMenuItem dayBoxes].
    destruct item as [it|]; [|split; lia].
    destruct (categoryOfStyle style); [|split; lia].
    unfold days, items.
    cbn [currentDayBox currentMenuItem dayBoxes]. split; lia.
  - destruct st as [box item saved]. unfold onEventTitle.
    cbn [currentDayBox currentMenuItem dayBoxes].
    destruct item as [it|]; [|split; lia].
    destruct (Js.truthy _); [|split; lia].
    destruct (isAdminAnnouncement _); [split; lia|].
    unfold days, items.
    cbn [currentDayBox currentMenuItem dayBoxes]. split; lia.
Qed.

Lemma run_counts evs :
  forall st,
    (days (fold_left handle evs st) <= count_events is_daybox evs + days st)%nat
    /\ (items (fold_left handle evs st) <= count_events is_info evs + items st)%nat.
Proof.
  induction evs as [|e evs IH]; intros st; cbn [fold_left].
  - unfold count_events. cbn. split; lia.
  - rewrite !count_events_cons.
    destruct (IH (handle st e)) as [Id Ii].
    destruct (handle_counts st e) as [Hd Hi]. split; lia.
Qed.

Lemma toDailyMenus_counts mt boxes :
  (List.length (toDailyMenus mt boxes) <= List.length boxes)%nat
  /\ (total_items (toDailyMenus mt boxes) <= box_items boxes)%nat.
Proof.
  unfold toDailyMenus.
  induction boxes as [|box boxes [IHd IHi]]; cbn [flat_map].
  - split; [apply Nat.le_refl|]. cbn. lia.
  - rewrite length_app, total_items_app.
    change (box_items (box :: boxes))
      with (List.length (box_menuItems box) + box_items boxes)%nat.
    cbn [List.length].
    destruct (box_date box) as [d|]; [|cbn; split; lia].
    destruct (0 <? _); [|cbn; split; lia].
    unfold total_items at 1. cbn [map list_sum fold_right menuItems DailyMenu_on List.length].
    rewrite length_map. split; lia.
Qed.

Lemma output_counts evs mt :
  (List.length (parseCalendarFragment evs mt) <= count_events is_daybox evs)%nat
  /\ (total_items (parseCalendarFragment evs mt) <= count_events is_info evs)%nat.
Proof.
  unfold parseCalendarFragment.
  destruct (toDailyMenus_counts mt (completeDayBox (fold_left handle evs init)))
    as [Td Ti].
  destruct (completeDayBox_counts (fold_left handle evs init)) as [Cd Ci].
  destruct (run_counts evs init) as [Rd Ri].
  change (days init) with 0%nat in Rd. change (items init) with 0%nat in Ri.
  split; lia.
Qed.

End InlineCounts.

Module StatefulCounts.
Import Stateful.

Definition days (st : ScraperState) : nat :=
  (List.length (completedDays st)
   + match currentDayBox st with Some _ => 1 | None => 0 end)%nat.

Definition items (st : ScraperState) : nat :=
  (total_items (completedDays st)
   + match currentDayBox st with
     | Some box => List.length (box_menuItems box)
     | None => 0
     end
   + match currentMenuItem st with Some _ => 1 | None => 0 end)%nat.

(** Completing the day box copies it to the completed days and leaves it
    open; the caller replaces it. *)
Lemma completePreviousDayBox_counts st :
  currentMenuItem (completePreviousDayBox st) = currentMenuItem st
  /\ (List.length (completedDays (completePreviousDayBox st)) <= days st)%nat
  /\ (total_items (completedDays (completePreviousDayBox st))
      + match currentMenuItem st with Some _ => 1 | None => 0 end
      <= items st)%nat.
Proof.
  destruct st as [box item done mt]. unfold completePreviousDayBox, days, items.
  cbn [currentDayBox currentMenuItem completedDays].
  destruct box as [box|]; [|cbn [currentMenuItem completedDays]; repeat split; lia].
  destruct (box_date box) as [d|];
    [|cbn [currentMenuItem completedDays]; repeat split; lia].
  destruct (0 <? _); cbn [currentMenuItem completedDays]; [|repeat split; lia].
  rewrite length_app, total_items_app. unfold total_items at 2.
  cbn [map list_sum fold_right menuItems DailyMenu_on List.length]. rewrite length_map.
  repeat split; lia.
Qed.

(** Completing the item copies it to the day box and leaves it open; the
    caller replaces it. *)
Lemma completePreviousMenuItem_counts st :
  completedDays (completePreviousMenuItem st) = completedDays st
  /\ (match currentDayBox (completePreviousMenuItem st) with
      | Some _ => 1 | None => 0
      end
      = match currentDayBox st with Some _ => 1 | None => 0 end)%nat
  /\ (match currentDayBox (completePreviousMenuItem st) with
      | Some box => List.length (box_menuItems box)
      | None => 0
      end
      <= match currentDayBox st with
         | Some box => List.length (box_menuItems box)
         | None => 0
         end
         + match currentMenuItem st with Some _ => 1 | None => 0 end)%nat.
Proof.
  destruct st as [box item done mt]. unfold completePreviousMenuItem.
  cbn [currentDayBox currentMenuItem completedDays].
  destruct item as [it|]; [|cbn [currentDayBox completedDays]; repeat split; lia].
  destruct box as [box|]; [|cbn [currentDayBox completedDays]; repeat split; lia].
  destruct (Js.truthy (d_name it)); cbn [currentDayBox completedDays box_menuItems];
    [|repeat split; lia].
  rewrite length_app. cbn [List.length]. repeat split; lia.
Qed.

Lemma state_handle_counts st e :
  (days (handle st e) <= (if is_daybox e then 1 else 0) + days st)%nat
  /\ (items (handle st e) <= (if is_info e then 1 else 0) + items st)%nat.
Proof.
  destruct e as [cls|dd mm yy| |style|title]; cbn [handle is_daybox is_info].
  - unfold onDaybox. destruct (Js.includes _ _); [split; lia|].
    destruct (completePreviousDayBox_counts st) as (Ei & Cd & Ci).
    unfold startDayBox. unfold days at 1, items at 1.
    cbn [currentDayBox currentMenuItem completedDays box_menuItems List.length].
    rewrite Ei. split; lia.
  - unfold onDate. destruct (dateOfAttributes dd mm yy); [|split; lia].
    destruct st as [box item done mt]. unfold setDateInfo.
    cbn [currentDayBox currentMenuItem completedDays].
    destruct box as [box|]; [|split; lia].
    unfold days, items.
    cbn [currentDayBox currentMenuItem completedDays box_menuItems]. split; lia.
  - destruct (completePreviousMenuItem_counts st) as (Ec & Eb & Ci).
    unfold startMenuItem. unfold days at 1, items at 1.
    cbn [currentDayBox currentMenuItem completedDays]. rewrite Ec, Eb.
    unfold days, items. split; lia.
  - unfold onColorIcon. destruct (categoryOfStyle style); [|split; lia].
    destruct st as [box item done mt]. unfold setMenuItemCategory.
    cbn [currentDayBox currentMenuItem completedDays].
    destruct item as [it|]; [|split; lia].
    unfold days, items.
    cbn [currentDayBox currentMenuItem completedDays]. split; lia.
  - unfold onEventTitle. destruct (Js.truthy _); [|split; lia].
    destruct st as [box item done mt]. unfold setMenuItemTitle.
    cbn [currentDayBox currentMenuItem completedDays].
    destruct item as [it|]; [|split; lia].
    destruct (isAdminAnnouncement _); unfold days, items;
      cbn [currentDayBox currentMenuItem completedDays]; split; lia.
Qed.

Lemma state_run_counts evs :
  forall st,
    (days (fold_left handle evs st) <= count_events is_daybox evs + days st)%nat
    /\ (items (fold_left handle evs st) <= count_events is_info evs + items st)%nat.
Proof.
  induction evs as [|e evs IH]; intros st; cbn [fold_left].
  - unfold count_events. cbn. split; lia.
  - rewrite !count_events_cons.
    destruct (IH (handle st e)) as [Id Ii].
    destruct (state_handle_counts st e) as [Hd Hi]. split; lia.
Qed.

Lemma endMenuItem_counts st :
  (days (endMenuItem st) <= days st)%nat /\ (items (endMenuItem st) <= items st)%nat.
Proof.
  destruct (completePreviousMenuItem_counts st) as (Ec & Eb & Ci).
  unfold endMenuItem. unfold days at 1, items at 1.
  cbn [currentDayBox currentMenuItem completedDays]. rewrite Ec, Eb.
  unfold days, items. split; lia.
Qed.

Lemma state_output_counts evs mt :
  (List.length (parseCalendarFragment evs mt) <= count_events is_daybox evs)%nat
  /\ (total_items (parseCalendarFragment evs mt) <= count_events is_info evs)%nat.
Proof.
  unfold parseCalendarFragment, getCompletedDays, endDayBox.
  cbn [completedDays].
  set (st := fold_left handle evs (new mt)).
  destruct (state_run_counts evs (new mt)) as [Rd Ri]. fold st in Rd, Ri.
  change (days (new mt)) with 0%nat in Rd. change (items (new mt)) with 0%nat in Ri.
  destruct (endMenuItem_counts st) as [Ed Ei].
  destruct (completePreviousDayBox_counts (endMenuItem st)) as (_ & Cd & Ct).
  split; lia.
Qed.

End StatefulCounts.

(** X10.  Neither version of [parseCalendarFragment] emits more daily
    menus than the response has day-box elements, or more menu items in all
    than it has item-info elements. *)
Theorem scraped_counts_bounded :
  forall (events : list Event) (mt : MealType),
    (List.length (Inline.parseCalendarFragment events mt)
     <= count_events is_daybox events)%nat
    /\ (total_items (Inline.parseCalendarFragment events mt)
        <= count_events is_info events)%nat
    /\ (List.length (Stateful.parseCalendarFragment events mt)
        <= count_events is_daybox events)%nat
    /\ (total_items (Stateful.parseCalendarFragment events mt)
        <= count_events is_info events)%nat.
Proof.
  intros events mt.
  destruct (InlineCounts.output_counts events mt) as [A B].
  destruct (StatefulCounts.state_output_counts events mt) as [C D].
  repeat split; assumption.
Qed.

(** *** A month from the three endpoints *)

Lemma addWeeklyMenu_all ws :
  forall mm,
    fold_left (fun mm w => addWeeklyMenu w mm) ws mm
    = {| year := year mm; month := month mm; weeklyMenus := weeklyMenus mm ++ ws |}.
Proof.
  induction ws as [|w ws IH]; intros mm; cbn [fold_left].
  - rewrite app_nil_r. now destruct mm.
  - rewrite IH. unfold addWeeklyMenu. cbn [year month weeklyMenus].
    now rewrite <- app_assoc.
Qed.

Section ScraperFacts.

Variable parseCalendarFragment : list Event -> MealType -> list DailyMenu.
Variable respond : Cal.Date -> MealType -> option (list Event).

(** The daily menus of the answers for breakfast, lunch and snack, in this
    order; a failed request gives none. *)
Definition fetchedMenus (targetDate : Cal.Date) : list DailyMenu :=
  flat_map (fun mt =>
              match respond targetDate mt with
              | Some events => parseCalendarFragment events mt
              | None => []
              end)
           [BREAKFAST; LUNCH; SNACK].

Lemma fetchAllMealsForDateAjax_eq targetDate :
  fetchAllMealsForDateAjax parseCalendarFragment respond targetDate
  = match fetchedMenus targetDate with
    | [] => None
    | _ :: _ =>
        Some {| year := getFullYear targetDate; month := getMonth targetDate + 1;
                weeklyMenus := groupDailyMenusByWeek (fetchedMenus targetDate) |}
    end.
Proof.
  unfold fetchAllMealsForDateAjax.
  assert (E : fold_left
                (fun acc mt =>
                   match fetchMenuForDateAjax parseCalendarFragment respond targetDate mt with
                   | Some dailyMenus => acc ++ dailyMenus
                   | None => acc
                   end) [BREAKFAST; LUNCH; SNACK] []
              = fetchedMenus targetDate).
  { unfold fetchedMenus, fetchMenuForDateAjax. cbn [fold_left flat_map].
    destruct (respond targetDate BREAKFAST), (respond targetDate LUNCH),
      (respond targetDate SNACK); cbn [app];
      rewrite ?app_nil_r, <- ?app_assoc; reflexivity. }
  rewrite E. destruct (fetchedMenus targetDate) as [|m l] eqn:F; [reflexivity|].
  cbn [List.length Nat.eqb]. now rewrite addWeeklyMenu_all.
Qed.

End ScraperFacts.

Lemma all_meals_month_facts parse respond t mm :
  fetchAllMealsForDateAjax parse respond t = Some mm ->
  exists l, weeklyMenus mm = groupDailyMenusByWeek l
            /\ Permutation (getAllDailyMenus mm) l.
Proof.
  rewrite fetchAllMealsForDateAjax_eq.
  destruct (fetchedMenus parse respond t) as [|m l] eqn:F; [discriminate|].
  intros [= <-]. exists (m :: l). split; [reflexivity|].
  change (Permutation (flat_map dailyMenus (groupDailyMenusByWeek (m :: l))) (m :: l)).
  rewrite group_flat. apply sortByTime_perm.
Qed.

(** X11.  [fetchAllMealsForDateAjax] returns [null] exactly when the three
    endpoints together give no daily menu, a failed request counting for
    none.  Otherwise the monthly menu carries the year and the month, from
    1 to 12, of the target date; its weekly menus are those the week
    bucketer makes of the daily menus of breakfast, lunch and snack put
    together, so there is at least one, and its daily menus are the fetched
    ones, each once. *)
Theorem all_meals_month :
  forall (parseCalendarFragment : list Event -> MealType -> list DailyMenu)
         (respond : Cal.Date -> MealType -> option (list Event))
         (targetDate : Cal.Date),
    (fetchAllMealsForDateAjax parseCalendarFragment respond targetDate = None
     <-> fetchedMenus parseCalendarFragment respond targetDate = [])
    /\ (forall mm,
          fetchAllMealsForDateAjax parseCalendarFragment respond targetDate = Some mm ->
          weeklyMenus mm
          = groupDailyMenusByWeek (fetchedMenus parseCalendarFragment respond targetDate)
          /\ weeklyMenus mm <> []
          /\ Permutation (getAllDailyMenus mm)
                         (fetchedMenus parseCalendarFragment respond targetDate)
          /\ 1 <= month mm <= 12
          /\ exists day, Cal.civil_from_days targetDate = (year mm, month mm, day)).
Proof.
  intros parse respond t. rewrite fetchAllMealsForDateAjax_eq.
  destruct (fetchedMenus parse respond t) as [|m l] eqn:F.
  - split; [split; reflexivity|]. intros mm. discriminate.
  - split; [split; discriminate|]. intros mm Hmm. injection Hmm as <-.
    split; [reflexivity|].
    assert (P : Permutation (flat_map dailyMenus (groupDailyMenusByWeek (m :: l)))
                            (m :: l)).
    { rewrite group_flat. apply sortByTime_perm. }
    split; [|split; [exact P|]].
    + change (groupDailyMenusByWeek (m :: l) <> []).
      intros E. rewrite E in P. apply Permutation_nil in P. discriminate.
    + change (1 <= getMonth t + 1 <= 12
              /\ exists day, Cal.civil_from_days t
                             = (getFullYear t, getMonth t + 1, day)).
      unfold getMonth, getFullYear.
      destruct (CalFacts.civil_from_days_spec t) as [Hv _].
      destruct (Cal.civil_from_days t) as [[y mo] d]. cbn [fst snd].
      unfold Cal.valid_civil in Hv. split; [lia|].
      exists d. f_equal. f_equal. lia.
Qed.

(** *** Resolving a date in a month of week buckets *)

Lemma min_date_monday : Cal.getDay Cal.min_date = 1.
Proof. vm_compute. reflexivity. Qed.

Lemma group_member l w m :
  In w (groupDailyMenusByWeek l) -> In m (dailyMenus w) -> In m l.
Proof.
  intros Hw Hm. apply (Permutation_in m (sortByTime_perm l)).
  rewrite <- group_flat. apply in_flat_map. now exists w.
Qed.

Lemma group_ranges_ok l :
  dates_in_range l -> Forall week_range_ok (groupDailyMenusByWeek l).
Proof.
  intros Hl. unfold dates_in_range in Hl. rewrite Forall_forall in Hl.
  pose proof (group_ok l) as Hok. rewrite Forall_forall in Hok.
  apply Forall_forall. intros w Hw.
  destruct (Hok w Hw) as (Hne & Hmon & Hend & Hall).
  destruct (dailyMenus w) as [|m ms] eqn:E; [congruence|].
  assert (Hm : In m l) by (apply (group_member l w m Hw); rewrite E; now left).
  apply Forall_inv in Hall. cbn beta in Hall.
  destruct (Hl m Hm) as [[Hlo Hhi] [_ Hhi6]].
  pose proof (WeekFacts.startOfWeek_bounds (date m)) as B.
  pose proof (WeekFacts.startOfWeek_mono _ _ Hlo) as M.
  rewrite (WeekFacts.startOfWeek_of_monday _ min_date_monday) in M.
  unfold week_range_ok, Cal.date_ok, Cal.addDays in *. rewrite Hend. lia.
Qed.

Lemma weekday_resolution mm t :
  Cal.date_ok t -> Forall week_range_ok (weeklyMenus mm) ->
  1 <= Cal.getDay t <= 5 ->
  getWeeklyMenuForDate mm t
  = find (fun w => (startDate w <=? t) && (t <=? endDate w)) (weeklyMenus mm).
Proof.
  intros Ht Hw Hday. unfold getWeeklyMenuForDate.
  replace ((Cal.getDay t =? 0) || (Cal.getDay t =? 6)) with false
    by (symmetry; apply orb_false_iff; split; apply Z.eqb_neq; lia).
  induction Hw as [|w ws [Hs He] _ IH]; cbn [find]; [reflexivity|].
  rewrite CalFacts.str_le_format, CalFacts.str_ge_format by assumption.
  now rewrite IH.
Qed.

Lemma weekend_resolution mm t :
  Cal.date_ok t -> Cal.date_ok (Cal.addDays t 2) ->
  Forall week_range_ok (weeklyMenus mm) ->
  Cal.getDay t = 0 \/ Cal.getDay t = 6 ->
  getWeeklyMenuForDate mm t
  = find (fun w => Cal.startOfWeek t + 7 <=? startDate w) (weeklyMenus mm).
Proof.
  intros Ht Ht2 Hw Hday. unfold getWeeklyMenuForDate.
  replace ((Cal.getDay t =? 0) || (Cal.getDay t =? 6)) with true
    by (symmetry; apply orb_true_iff; destruct Hday as [-> | ->]; auto).
  assert (Hnext : Cal.addDays t (if Cal.getDay t =? 0 then 1 else 2)
                  = Cal.startOfWeek t + 7).
  { unfold Cal.startOfWeek, Cal.addDays.
    destruct Hday as [E|E]; rewrite E;
      [change (0 =? 0) with true; change (0 <? 1) with true
      |change (6 =? 0) with false; change (6 <? 1) with false];
      cbv iota; lia. }
  rewrite Hnext.
  assert (Hok : Cal.date_ok (Cal.startOfWeek t + 7)).
  { rewrite <- Hnext. unfold Cal.date_ok, Cal.addDays in *.
    destruct (Cal.getDay t =? 0); lia. }
  induction Hw as [|w ws [Hs He] _ IH]; cbn [find]; [reflexivity|].
  rewrite CalFacts.str_ge_format by assumption.
  now rewrite IH.
Qed.

Lemma find_split {A : Type} (p : A -> bool) (l : list A) (x : A) :
  find p l = Some x ->
  exists before after,
    l = before ++ x :: after /\ Forall (fun y => p y = false) before /\ p x = true.
Proof.
  induction l as [|y l IH]; cbn [find]; [discriminate|].
  destruct (p y) eqn:E.
  - intros [= ->]. exists [], l. repeat split; [constructor|exact E].
  - intros H. destruct (IH H) as (before & after & -> & Hb & Hx).
    exists (y :: before), after. repeat split; [|exact Hx].
    constructor; assumption.
Qed.

Lemma find_at {A : Type} (q : A -> bool) (before after : list A) (x : A) :
  Forall (fun y => q y = false) before -> q x = true ->
  find q (before ++ x :: after) = Some x.
Proof.
  induction 1 as [|y before Hy _ IH]; intros Hx; cbn [app find].
  - now rewrite Hx.
  - rewrite Hy. now apply IH.
Qed.

Lemma sorted_before {A : Type} (R : A -> A -> Prop) (before after : list A) (x : A) :
  StronglySorted R (before ++ x :: after) -> Forall (fun y => R y x) before.
Proof.
  induction before as [|y before IH]; cbn [app]; intros H; [constructor|].
  apply StronglySorted_inv in H as [Hs Hy].
  constructor; [|now apply IH].
  rewrite Forall_forall in Hy. apply Hy. apply in_or_app. right. now left.
Qed.

Lemma same_start_same_week ws a b :
  StronglySorted week_before ws -> In a ws -> In b ws ->
  startDate a = startDate b -> a = b.
Proof.
  induction 1 as [|w ws Hs IH Hw]; intros Ha Hb E; [destruct Ha|].
  rewrite Forall_forall in Hw. unfold week_before in Hw.
  destruct Ha as [<-|Ha], Hb as [<-|Hb].
  - reflexivity.
  - specialize (Hw b Hb). lia.
  - specialize (Hw a Ha). lia.
  - now apply IH.
Qed.

(** X12.  In a monthly menu that [fetchAllMealsForDateAjax] returns,
    resolving the date of one of its daily menus with
    [getWeeklyMenuForDate] gives, for a date from Monday to Friday, the
    weekly menu that holds this daily menu, the one of the date's own week.
    For a date on a Saturday or Sunday it gives a weekly menu of a later
    week, if any, which never holds this daily menu.  Dates are those of
    the four-digit range. *)
Theorem scraped_menu_resolves_to_its_week :
  forall (parseCalendarFragment : list Event -> MealType -> list DailyMenu)
         (respond : Cal.Date -> MealType -> option (list Event))
         (targetDate : Cal.Date) (mm : MonthlyMenu) (m : DailyMenu),
    fetchAllMealsForDateAjax parseCalendarFragment respond targetDate = Some mm ->
    dates_in_range (getAllDailyMenus mm) ->
    In m (getAllDailyMenus mm) ->
    (MONDAY <= Cal.getDay (date m) <= FRIDAY ->
     exists w, getWeeklyMenuForDate mm (date m) = Some w
               /\ In m (dailyMenus w)
               /\ startDate w = Cal.startOfWeek (date m))
    /\ (Cal.getDay (date m) = SATURDAY \/ Cal.getDay (date m) = SUNDAY ->
        forall w, getWeeklyMenuForDate mm (date m) = Some w ->
                  date m < startDate w /\ ~ In m (dailyMenus w)).
Proof.
  intros parse respond t mm m Hmm Hrange Hm.
  destruct (all_meals_month_facts parse respond t mm Hmm) as (l & Hws & Hperm).
  assert (Hl : dates_in_range l).
  { unfold dates_in_range in *. rewrite Forall_forall in *.
    intros x Hx. apply Hrange. apply (Permutation_in x (Permutation_sym Hperm) Hx). }
  pose proof (group_ranges_ok l Hl) as Hr. rewrite <- Hws in Hr.
  pose proof (group_ok l) as Hok. rewrite <- Hws in Hok.
  pose proof (group_ascending l) as Hasc. rewrite <- Hws in Hasc.
  unfold dates_in_range in Hrange. rewrite Forall_forall in Hrange.
  destruct (Hrange m Hm) as [Hd Hd6].
  unfold getAllDailyMenus in Hm. apply in_flat_map in Hm as (wm & Hwm & Hmw).
  rewrite Forall_forall in Hok.
  pose proof (bucket_in_range wm (Hok wm Hwm)) as Bm.
  rewrite Forall_forall in Bm. specialize (Bm m Hmw).
  destruct (Hok wm Hwm) as (_ & Hmon_m & Hend_m & Hall_m).
  rewrite Forall_forall in Hall_m. specialize (Hall_m m Hmw). cbn beta in Hall_m.
  unfold MONDAY, FRIDAY, SATURDAY, SUNDAY. split.
  - intros Hday. rewrite weekday_resolution by assumption.
    destruct (find _ (weeklyMenus mm)) as [w|] eqn:F.
    + apply find_some in F as [Hw Hp].
      apply andb_true_iff in Hp as [H1 H2]. apply Z.leb_le in H1, H2.
      destruct (Hok w Hw) as (_ & Hmon & Hend & _).
      assert (Es : startDate w = Cal.startOfWeek (date m)).
      { symmetry. apply WeekFacts.in_week_iff; [exact Hmon|]. lia. }
      assert (Ew : w = wm) by (apply (same_start_same_week (weeklyMenus mm));
                               try assumption; congruence).
      exists w. subst wm. now repeat split.
    + exfalso. pose proof (find_none _ _ F wm Hwm) as Hp. cbn beta in Hp.
      apply andb_false_iff in Hp as [Hp|Hp]; apply Z.leb_gt in Hp; lia.
  - intros Hday w Hres.
    rewrite weekend_resolution in Hres;
      [|assumption|unfold Cal.date_ok, Cal.addDays in *; lia|assumption|tauto].
    apply find_some in Hres as [Hw Hp]. apply Z.leb_le in Hp.
    pose proof (WeekFacts.startOfWeek_bounds (date m)) as B.
    split; [lia|]. intros Hin.
    destruct (Hok w Hw) as (_ & _ & _ & Hall).
    rewrite Forall_forall in Hall. specialize (Hall m Hin). cbn beta in Hall. lia.
Qed.

(** The lunches of Monday and Tuesday, 6 and 7 January 2025, as the only
    answer of the endpoints. *)
Definition lunchOnly (targetDate : Cal.Date) (mt : MealType) : option (list Event) :=
  match mt with
  | LUNCH => Some mondayThenTuesday
  | _ => None
  end.

Definition mondayPizza : DailyMenu :=
  DailyMenu_on (Cal.newDate 2025 0 6) LUNCH [plainItem "Cheese Pizza"].

Definition tuesdayTacos : DailyMenu :=
  DailyMenu_on (Cal.newDate 2025 0 7) LUNCH [plainItem "Tacos"].

Definition firstSchoolWeek : WeeklyMenu :=
  WeeklyMenu_on (Cal.newDate 2025 0 6) (Cal.newDate 2025 0 12)
                [mondayPizza; tuesdayTacos].

Definition januaryLunches : MonthlyMenu :=
  {| year := 2025; month := 1; weeklyMenus := [firstSchoolWeek] |}.

Lemma januaryLunches_fetched :
  fetchAllMealsForDateAjax Inline.parseCalendarFragment lunchOnly (Cal.newDate 2025 0 8)
  = Some januaryLunches.
Proof. vm_compute. reflexivity. Defined.

Lemma januaryLunches_in_range : dates_in_range [mondayPizza; tuesdayTacos].
Proof.
  constructor; [|constructor; [|constructor]];
    (split; apply date_ok_by_computation; vm_compute; reflexivity).
Defined.

Lemma scraped_menu_resolves_to_its_week_witness :
  exists w, getWeeklyMenuForDate januaryLunches (date tuesdayTacos) = Some w
            /\ In tuesdayTacos (dailyMenus w)
            /\ startDate w = Cal.startOfWeek (date tuesdayTacos).
Proof.
  assert (Hm : In tuesdayTacos (getAllDailyMenus januaryLunches))
    by (right; left; reflexivity).
  assert (Hd : MONDAY <= Cal.getDay (date tuesdayTacos) <= FRIDAY)
    by (vm_compute; split; discriminate).
  exact (proj1 (scraped_menu_resolves_to_its_week
                  Inline.parseCalendarFragment lunchOnly (Cal.newDate 2025 0 8)
                  januaryLunches tuesdayTacos
                  januaryLunches_fetched januaryLunches_in_range Hm) Hd).
Defined.

(** *** The week of a scheduled run *)

Lemma startOfWeek_next d : Cal.startOfWeek (d + 7) = Cal.startOfWeek d + 7.
Proof. unfold Cal.startOfWeek, Cal.addDays, Cal.getDay. zbool; lia. Qed.

Lemma scheduledTargetDate_cases now :
  (1 <= Cal.getDay now <= 5 /\ scheduledTargetDate now = now)
  \/ ((Cal.getDay now = 0 \/ Cal.getDay now = 6)
      /\ scheduledTargetDate now = now + 7).
Proof.
  pose proof (WeekFacts.getDay_range now) as R.
  unfold scheduledTargetDate, Cal.addDays.
  destruct (Z.eqb_spec (Cal.getDay now) 0) as [E0|N0];
    [|destruct (Z.eqb_spec (Cal.getDay now) 6) as [E6|N6]]; cbn [orb].
  - right. split; [now left|reflexivity].
  - right. split; [now right|reflexivity].
  - left. split; [lia|reflexivity].
Qed.

(** X13.  When [fetchWeeklyMenuForScheduledRun] returns a weekly menu, it
    is one of the month fetched for the target date, the date of the run
    from Monday to Friday and seven days later at the weekend, and it is
    the week of the target date: at the weekend the week that starts on the
    next Monday.  [getWeeklyMenuForDate] resolves the date of the run, in
    the same month, to the same weekly menu.  Dates are those of the
    four-digit range. *)
Theorem scheduled_run_week :
  forall (parseCalendarFragment : list Event -> MealType -> list DailyMenu)
         (respond : Cal.Date -> MealType -> option (list Event))
         (now : Cal.Date) (w : WeeklyMenu),
    Cal.date_ok now -> Cal.date_ok (Cal.addDays now 2) ->
    dates_in_range (fetchedMenus parseCalendarFragment respond (scheduledTargetDate now)) ->
    fetchWeeklyMenuForScheduledRun parseCalendarFragment respond now = Some w ->
    exists mm,
      fetchAllMealsForDateAjax parseCalendarFragment respond (scheduledTargetDate now)
      = Some mm
      /\ In w (weeklyMenus mm)
      /\ startDate w = Cal.startOfWeek (scheduledTargetDate now)
      /\ (Cal.getDay now = SATURDAY \/ Cal.getDay now = SUNDAY ->
          startDate w = Cal.addDays now (if Cal.getDay now =? SUNDAY then 1 else 2))
      /\ getWeeklyMenuForDate mm now = Some w.
Proof.
  intros parse respond now w Hnow Hnow2 Hrange Hrun.
  unfold fetchWeeklyMenuForScheduledRun in Hrun.
  rewrite fetchAllMealsForDateAjax_eq in *.
  set (target := scheduledTargetDate now) in *.
  destruct (fetchedMenus parse respond target) as [|m l] eqn:F; [discriminate|].
  pose proof (group_ranges_ok (m :: l) Hrange) as Hr.
  pose proof (group_ok (m :: l)) as Hok.
  pose proof (group_ascending (m :: l)) as Hasc.
  set (ws := groupDailyMenusByWeek (m :: l)) in *.
  set (mm := {| year := getFullYear target; month := getMonth target + 1;
                weeklyMenus := ws |}).
  change (find (fun weeklyMenu => (startDate weeklyMenu <=? target)
                                  && (target <=? endDate weeklyMenu)) ws = Some w)
    in Hrun.
  exists mm. split; [reflexivity|].
  pose proof (find_some _ _ Hrun) as [Hw Hp].
  apply andb_true_iff in Hp as [H1 H2]. apply Z.leb_le in H1, H2.
  rewrite Forall_forall in Hok.
  destruct (Hok w Hw) as (_ & Hmon & Hend & _).
  assert (Es : startDate w = Cal.startOfWeek target).
  { symmetry. apply WeekFacts.in_week_iff; [exact Hmon|]. lia. }
  split; [exact Hw|]. split; [exact Es|].
  destruct (scheduledTargetDate_cases now) as [[Hday Et]|[Hday Et]];
    fold target in Et.
  - split; [unfold SATURDAY, SUNDAY; lia|].
    rewrite weekday_resolution by assumption.
    change (weeklyMenus mm) with ws. rewrite <- Et. exact Hrun.
  - assert (En : startDate w = Cal.startOfWeek now + 7)
      by (rewrite Es, Et; apply startOfWeek_next).
    split.
    + intros _. rewrite En. unfold Cal.startOfWeek, Cal.addDays, SUNDAY.
      destruct Hday as [E|E]; rewrite E;
        [change (0 =? 0) with true; change (0 <? 1) with true
        |change (6 =? 0) with false; change (6 <? 1) with false];
        cbv iota; lia.
    + rewrite weekend_resolution by assumption.
      change (weeklyMenus mm) with ws.
      destruct (find_split _ _ _ Hrun) as (before & after & Ews & _ & _).
      rewrite Ews in Hasc. apply sorted_before in Hasc.
      rewrite Ews. apply find_at.
      * eapply Forall_impl; [|exact Hasc]. unfold week_before.
        intros y Hy. apply Z.leb_gt. lia.
      * apply Z.leb_le. lia.
Qed.

Lemma scheduled_run_week_witness :
  exists mm,
    fetchAllMealsForDateAjax Inline.parseCalendarFragment lunchOnly
      (scheduledTargetDate (Cal.newDate 2025 0 4))
    = Some mm
    /\ getWeeklyMenuForDate mm (Cal.newDate 2025 0 4) = Some firstSchoolWeek.
Proof.
  assert (Hnow : Cal.date_ok (Cal.newDate 2025 0 4))
    by (apply date_ok_by_computation; vm_compute; reflexivity).
  assert (Hnow2 : Cal.date_ok (Cal.addDays (Cal.newDate 2025 0 4) 2))
    by (apply date_ok_by_computation; vm_compute; reflexivity).
  assert (Hrun : fetchWeeklyMenuForScheduledRun Inline.parseCalendarFragment lunchOnly
                   (Cal.newDate 2025 0 4) = Some firstSchoolWeek)
    by (vm_compute; reflexivity).
  destruct (scheduled_run_week Inline.parseCalendarFragment lunchOnly
              (Cal.newDate 2025 0 4) firstSchoolWeek Hnow Hnow2
              januaryLunches_in_range Hrun)
    as (mm & Hmm & _ & _ & _ & Hres).
  exists mm. split; assumption.
Defined.

(** *** The day a layout shows *)

Lemma same_day_of_week a b s :
  s <= a <= s + 6 -> s <= b <= s + 6 ->
  (Cal.getDay a =? Cal.getDay b) = (a =? b).
Proof.
  intros Ha Hb. unfold Cal.getDay.
  destruct (Z.eqb_spec a b) as [->|N]; [apply Z.eqb_refl|].
  apply Z.eqb_neq. lia.
Qed.

Lemma meals_by_same_filter w weekday t :
  (forall m, In m (dailyMenus w) -> onWeekday weekday m = onDateStr (Cal.format t) m) ->
  getMealsByWeekday weekday w = getMealsByDate t w.
Proof.
  intros H. unfold getMealsByWeekday, getMealsByDate.
  now rewrite (filter_ext_in _ _ _ H).
Qed.

(** X14.  Let the weekly menus of a monthly menu be those the week
    bucketer makes, and let [getWeeklyMenuForDate] resolve today to one of
    them.  From Monday to Friday the date [getDateForWeekday] gives for the
    weekday of [getQuadrantWeekday] is today, and the meals
    [getMealsByWeekday] returns for it are the meals of today's date.  At
    the weekend the weekday is Monday, the date is the start date of the
    resolved week, which is after today, and the meals are those of that
    Monday.  Dates are those of the four-digit range. *)
Theorem quadrant_column_is_today :
  forall (l : list DailyMenu) (mm : MonthlyMenu) (now : Cal.Date) (w : WeeklyMenu),
    weeklyMenus mm = groupDailyMenusByWeek l ->
    dates_in_range l ->
    Cal.date_ok now -> Cal.date_ok (Cal.addDays now 2) ->
    getWeeklyMenuForDate mm now = Some w ->
    (MONDAY <= Cal.getDay now <= FRIDAY ->
     getDateForWeekday w (getQuadrantWeekday now) = now
     /\ getMealsByWeekday (getQuadrantWeekday now) w = getMealsByDate now w)
    /\ (Cal.getDay now = SATURDAY \/ Cal.getDay now = SUNDAY ->
        getQuadrantWeekday now = MONDAY
        /\ getDateForWeekday w (getQuadrantWeekday now) = startDate w
        /\ now < startDate w
        /\ getMealsByWeekday (getQuadrantWeekday now) w
           = getMealsByDate (startDate w) w).
Proof.
  intros l mm now w Hws Hl Hnow Hnow2 Hres.
  pose proof (group_ranges_ok l Hl) as Hr. rewrite <- Hws in Hr.
  pose proof (group_ok l) as Hok. rewrite <- Hws in Hok.
  rewrite Forall_forall in Hok.
  assert (Hdates : forall w', In w' (weeklyMenus mm) ->
                   forall m, In m (dailyMenus w') ->
                             Cal.date_ok (date m)
                             /\ startDate w' <= date m <= startDate w' + 6).
  { intros w' Hw' m Hm. split.
    - unfold dates_in_range in Hl. rewrite Forall_forall in Hl.
      apply Hl. rewrite Hws in Hw'. exact (group_member l w' m Hw' Hm).
    - pose proof (bucket_in_range w' (Hok w' Hw')) as B.
      rewrite Forall_forall in B. specialize (B m Hm).
      destruct (Hok w' Hw') as (_ & _ & Hend & _). lia. }
  unfold MONDAY, FRIDAY, SATURDAY, SUNDAY. split.
  - intros Hday. rewrite weekday_resolution in Hres by assumption.
    apply find_some in Hres as [Hw Hp].
    apply andb_true_iff in Hp as [H1 H2]. apply Z.leb_le in H1, H2.
    destruct (Hok w Hw) as (_ & Hmon & Hend & _).
    assert (Eq : getQuadrantWeekday now = Cal.getDay now).
    { unfold getQuadrantWeekday.
      replace ((Cal.getDay now =? 0) || (Cal.getDay now =? 6)) with false
        by (symmetry; apply orb_false_iff; split; apply Z.eqb_neq; lia).
      reflexivity. }
    rewrite Eq. split.
    + unfold getDateForWeekday, Cal.addDays. unfold Cal.getDay in *. lia.
    + apply meals_by_same_filter. intros m Hm.
      destruct (Hdates w Hw m Hm) as [Hd Hin].
      rewrite onDateStr_format by assumption. unfold onWeekday.
      apply (same_day_of_week _ _ (startDate w)); lia.
  - intros Hday.
    rewrite weekend_resolution in Hres by (try assumption; tauto).
    apply find_some in Hres as [Hw Hp]. apply Z.leb_le in Hp.
    destruct (Hok w Hw) as (_ & Hmon & Hend & _).
    rewrite Forall_forall in Hr. destruct (Hr w Hw) as [Hs _].
    pose proof (WeekFacts.startOfWeek_bounds now) as B.
    assert (Eq : getQuadrantWeekday now = 1).
    { unfold getQuadrantWeekday.
      replace ((Cal.getDay now =? 0) || (Cal.getDay now =? 6)) with true
        by (symmetry; apply orb_true_iff; destruct Hday as [-> | ->]; auto).
      reflexivity. }
    rewrite Eq. split; [reflexivity|]. split; [|split; [lia|]].
    + unfold getDateForWeekday, Cal.addDays. lia.
    + apply meals_by_same_filter. intros m Hm.
      destruct (Hdates w Hw m Hm) as [Hd Hin].
      rewrite onDateStr_format by assumption. unfold onWeekday.
      rewrite <- Hmon. apply (same_day_of_week _ _ (startDate w)); lia.
Qed.

Lemma quadrant_column_is_today_witness :
  getDateForWeekday firstSchoolWeek (getQuadrantWeekday (Cal.newDate 2025 0 7))
  = Cal.newDate 2025 0 7
  /\ getMealsByWeekday (getQuadrantWeekday (Cal.newDate 2025 0 7)) firstSchoolWeek
     = getMealsByDate (Cal.newDate 2025 0 7) firstSchoolWeek.
Proof.
  assert (Hws : weeklyMenus januaryLunches
                = groupDailyMenusByWeek [mondayPizza; tuesdayTacos])
    by (vm_compute; reflexivity).
  assert (Hnow : Cal.date_ok (Cal.newDate 2025 0 7))
    by (apply date_ok_by_computation; vm_compute; reflexivity).
  assert (Hnow2 : Cal.date_ok (Cal.addDays (Cal.newDate 2025 0 7) 2))
    by (apply date_ok_by_computation; vm_compute; reflexivity).
  assert (Hres : getWeeklyMenuForDate januaryLunches (Cal.newDate 2025 0 7)
                 = Some firstSchoolWeek)
    by (vm_compute; reflexivity).
  assert (Hday : MONDAY <= Cal.getDay (Cal.newDate 2025 0 7) <= FRIDAY)
    by (vm_compute; split; discriminate).
  exact (proj1 (quadrant_column_is_today [mondayPizza; tuesdayTacos] januaryLunches
                  (Cal.newDate 2025 0 7) firstSchoolWeek
                  Hws januaryLunches_in_range Hnow Hnow2 Hres) Hday).
Defined.

(** *** Daily menus by meal type *)

Lemma filter_flat_map {A B : Type} (p : B -> bool) (f : A -> list B) (l : list A) :
  filter p (flat_map f l) = flat_map (fun a => filter p (f a)) l.
Proof.
  induction l as [|a l IH]; cbn [flat_map]; [reflexivity|].
  now rewrite filter_app, IH.
Qed.

Lemma filter_all_true {A : Type} (p : A -> bool) (l : list A) :
  Forall (fun x => p x = true) l -> filter p l = l.
Proof.
  induction 1 as [|x l Hx _ IH]; cbn [filter]; [reflexivity|].
  now rewrite Hx, IH.
Qed.

Lemma filter_all_false {A : Type} (p : A -> bool) (l : list A) :
  Forall (fun x => p x = false) l -> filter p l = [].
Proof.
  induction 1 as [|x l Hx _ IH]; cbn [filter]; [reflexivity|].
  now rewrite Hx.
Qed.

Definition mealNumber (mt : MealType) : Z :=
  match mt with BREAKFAST => 0 | LUNCH => 1 | SNACK => 2 end.

Lemma MealType_eqb_number a b : MealType_eqb a b = (mealNumber a =? mealNumber b).
Proof. destruct a, b; reflexivity. Qed.

(** X15.  The daily menus of a monthly menu of one meal type are those of
    its weekly menus of that meal type, week after week, in their order.
    The lists for breakfast, lunch and snack together hold every daily menu
    of the month once, so their lengths add up to the number of daily
    menus. *)
Theorem month_menus_by_type :
  forall (mm : MonthlyMenu) (mt : MealType),
    getMenusByType mt mm = flat_map (weekMenusByType mt) (weeklyMenus mm)
    /\ (forall m, In m (getMenusByType mt mm)
                  <-> In m (getAllDailyMenus mm) /\ mealType m = mt)
    /\ Permutation (getMenusByType BREAKFAST mm ++ getMenusByType LUNCH mm
                    ++ getMenusByType SNACK mm)
                   (getAllDailyMenus mm)
    /\ (List.length (getMenusByType BREAKFAST mm)
        + List.length (getMenusByType LUNCH mm)
        + List.length (getMenusByType SNACK mm)
        = List.length (getAllDailyMenus mm))%nat.
Proof.
  intros mm mt.
  assert (P : Permutation (getMenusByType BREAKFAST mm ++ getMenusByType LUNCH mm
                           ++ getMenusByType SNACK mm)
                          (getAllDailyMenus mm)).
  { pose proof (keyed_partition_perm (fun m => mealNumber (mealType m)) [0; 1; 2]) as K.
    assert (Hnd : NoDup [0; 1; 2])
      by (repeat (constructor; [cbn [In]; lia|]); constructor).
    specialize (K Hnd (getAllDailyMenus mm)).
    cbn [flat_map] in K. rewrite app_nil_r in K.
    assert (E : forall k,
               getMenusByType k mm
               = filter (fun m => mealNumber (mealType m) =? mealNumber k)
                        (getAllDailyMenus mm)).
    { intros k. unfold getMenusByType. apply filter_ext.
      intros m. apply MealType_eqb_number. }
    rewrite !E. apply K. intros m _. destruct (mealType m); cbn; tauto. }
  split; [|split; [|split; [exact P|]]].
  - unfold getMenusByType, getAllDailyMenus. apply filter_flat_map.
  - intros m. unfold getMenusByType. rewrite filter_In, MealType_eqb_eq. reflexivity.
  - apply Permutation_length in P. rewrite !length_app in P. lia.
Qed.

Section TypedEndpoints.

Variable parseCalendarFragment : list Event -> MealType -> list DailyMenu.
Variable respond : Cal.Date -> MealType -> option (list Event).

(** The parser gives every daily menu the meal type it was called with. *)
Hypothesis parser_types :
  forall events mt, Forall (fun m => mealType m = mt) (parseCalendarFragment events mt).

Lemma endpoint_menus_by_type t mt mt' :
  filter (fun menu => MealType_eqb (mealType menu) mt)
         (match respond t mt' with
          | Some events => parseCalendarFragment events mt'
          | None => []
          end)
  = if MealType_eqb mt' mt
    then match respond t mt' with
         | Some events => parseCalendarFragment events mt'
         | None => []
         end
    else [].
Proof.
  destruct (respond t mt') as [events|]; [|now destruct (MealType_eqb mt' mt)].
  pose proof (parser_types events mt') as H.
  destruct (MealType_eqb mt' mt) eqn:E.
  - apply filter_all_true. eapply Forall_impl; [|exact H].
    intros m ->. exact E.
  - apply filter_all_false. eapply Forall_impl; [|exact H].
    intros m ->. exact E.
Qed.

Lemma fetched_by_type t mt :
  filter (fun menu => MealType_eqb (mealType menu) mt)
         (fetchedMenus parseCalendarFragment respond t)
  = match respond t mt with
    | Some events => parseCalendarFragment events mt
    | None => []
    end.
Proof.
  unfold fetchedMenus. rewrite filter_flat_map. cbn [flat_map].
  rewrite !endpoint_menus_by_type.
  destruct mt; cbn [MealType_eqb app]; now rewrite ?app_nil_r.
Qed.

Lemma month_by_type t mm mt :
  fetchAllMealsForDateAjax parseCalendarFragment respond t = Some mm ->
  Permutation (getMenusByType mt mm)
              (match respond t mt with
               | Some events => parseCalendarFragment events mt
               | None => []
               end).
Proof.
  intros Hmm. rewrite <- fetched_by_type. unfold getMenusByType.
  apply filter_perm.
  rewrite fetchAllMealsForDateAjax_eq in Hmm.
  destruct (fetchedMenus parseCalendarFragment respond t) as [|m l] eqn:F;
    [discriminate|].
  injection Hmm as <-.
  change (Permutation (flat_map dailyMenus (groupDailyMenusByWeek (m :: l))) (m :: l)).
  rewrite group_flat. apply sortByTime_perm.
Qed.

End TypedEndpoints.

(** X16.  In the monthly menu that [fetchAllMealsForDateAjax] returns, with
    either version of [parseCalendarFragment], the daily menus of a meal
    type are the ones parsed from the answer of that meal type's endpoint,
    each once, and none when its request failed. *)
Theorem month_menus_of_a_type_come_from_its_endpoint :
  forall (respond : Cal.Date -> MealType -> option (list Event))
         (targetDate : Cal.Date) (mt : MealType) (mm : MonthlyMenu),
    (fetchAllMealsForDateAjax Inline.parseCalendarFragment respond targetDate = Some mm ->
     Permutation (getMenusByType mt mm)
                 (match respond targetDate mt with
                  | Some events => Inline.parseCalendarFragment events mt
                  | None => []
                  end))
    /\ (fetchAllMealsForDateAjax Stateful.parseCalendarFragment respond targetDate
        = Some mm ->
        Permutation (getMenusByType mt mm)
                    (match respond targetDate mt with
                     | Some events => Stateful.parseCalendarFragment events mt
                     | None => []
                     end)).
Proof.
  intros respond t mt mm. split; apply month_by_type; intros events mt'.
  - eapply Forall_impl; [|apply InlineShape.output_shape]. now intros m [H _].
  - eapply Forall_impl; [|apply StatefulShape.state_output_shape]. now intros m [H _].
Qed.

(** *** Adding to a menu *)

Lemma find_snoc {A : Type} (p : A -> bool) (l : list A) (x : A) :
  find p (l ++ [x])
  = match find p l with
    | Some y => Some y
    | None => if p x then Some x else None
    end.
Proof.
  induction l as [|y l IH]; cbn [app find]; [reflexivity|].
  destruct (p y); [reflexivity|exact IH].
Qed.

(** X17.  A daily menu added with [addDailyMenu] goes last: a lookup by
    date and meal type, or by weekday and meal type, that found a daily
    menu before still finds that one, and one that found none finds the
    added menu exactly when it is on that date, or weekday, and of that
    meal type.  The lists by date, by weekday and by meal type get the
    added menu at their end when it matches and stay as they were when it
    does not. *)
Theorem added_daily_menu_goes_last :
  forall (w : WeeklyMenu) (m : DailyMenu) (targetDate : Cal.Date)
         (weekday : Weekday) (mt : MealType),
    getMenuByDateAndType targetDate mt (addDailyMenu m w)
    = match getMenuByDateAndType targetDate mt w with
      | Some found => Some found
      | None =>
          if onDateStr (Cal.format targetDate) m && MealType_eqb (mealType m) mt
          then Some m else None
      end
    /\ getMenuByWeekdayAndType weekday mt (addDailyMenu m w)
       = match getMenuByWeekdayAndType weekday mt w with
         | Some found => Some found
         | None =>
             if onWeekday weekday m && MealType_eqb (mealType m) mt
             then Some m else None
         end
    /\ getMenusByDate targetDate (addDailyMenu m w)
       = getMenusByDate targetDate w
         ++ (if onDateStr (Cal.format targetDate) m then [m] else [])
    /\ getMenusByWeekday weekday (addDailyMenu m w)
       = getMenusByWeekday weekday w ++ (if onWeekday weekday m then [m] else [])
    /\ weekMenusByType mt (addDailyMenu m w)
       = weekMenusByType mt w ++ (if MealType_eqb (mealType m) mt then [m] else [])
    /\ startDate (addDailyMenu m w) = startDate w
    /\ endDate (addDailyMenu m w) = endDate w.
Proof.
  intros w m t weekday mt.
  unfold getMenuByDateAndType, getMenuByWeekdayAndType, getMenusByDate,
    getMenusByWeekday, weekMenusByType, addDailyMenu.
  cbn [dailyMenus startDate endDate].
  rewrite !find_snoc, !filter_app. cbn [filter].
  repeat split.
Qed.

(** *** The category of a colour icon *)

(** The characters of a colour value: no white space and no semicolon. *)
Fixpoint colour_chars (s : string) : bool :=
  match s with
  | EmptyString => true
  | String c s' => negb (Js.is_ws c) && negb (Ascii.eqb c ";") && colour_chars s'
  end.

Lemma lower_char_colour c :
  Js.is_ws (Js.lower_char c) = Js.is_ws c
  /\ Ascii.eqb (Js.lower_char c) ";" = Ascii.eqb c ";"
  /\ Js.upper_char (Js.lower_char c) = Js.upper_char c.
Proof. destruct c as [[] [] [] [] [] [] [] []]; repeat split. Qed.

Lemma colour_chars_lower s : colour_chars (Js.toLowerCase s) = colour_chars s.
Proof.
  unfold Js.toLowerCase.
  induction s as [|c s IH]; cbn [Js.map_chars colour_chars]; [reflexivity|].
  destruct (lower_char_colour c) as (-> & -> & _). now rewrite IH.
Qed.

Lemma toUpperCase_toLowerCase s : Js.toUpperCase (Js.toLowerCase s) = Js.toUpperCase s.
Proof.
  unfold Js.toLowerCase, Js.toUpperCase.
  induction s as [|c s IH]; cbn [Js.map_chars]; [reflexivity|].
  destruct (lower_char_colour c) as (_ & _ & ->). now rewrite IH.
Qed.

Lemma trimEnd_colour s : colour_chars s = true -> Js.trimEnd s = s.
Proof.
  induction s as [|c s IH]; cbn [colour_chars Js.trimEnd]; [reflexivity|].
  intros H. apply andb_true_iff in H as [H Hs].
  apply andb_true_iff in H as [Hw _]. apply negb_true_iff in Hw.
  rewrite (IH Hs). destruct s; [now rewrite Hw|reflexivity].
Qed.

Lemma skip_ws_colour s tail :
  colour_chars s = true -> s <> EmptyString ->
  Js.skip_ws (s ++ tail) = (s ++ tail)%string.
Proof.
  destruct s as [|c s]; [congruence|]. cbn [colour_chars]. intros H _.
  apply andb_true_iff in H as [H _]. apply andb_true_iff in H as [Hw _].
  apply negb_true_iff in Hw. cbn [String.append Js.skip_ws]. now rewrite Hw.
Qed.

(** The style goes on after the colour with a semicolon, or ends. *)
Definition ends_value (tail : string) : Prop :=
  tail = EmptyString \/ exists rest, tail = String ";" rest.

Lemma take_colour s tail :
  colour_chars s = true -> ends_value tail ->
  Js.take_while (fun c => negb (Ascii.eqb c ";")) (s ++ tail) = s.
Proof.
  intros Hs Ht. induction s as [|c s IH]; cbn [String.append].
  - destruct Ht as [->|[rest ->]]; reflexivity.
  - cbn [colour_chars] in Hs. apply andb_true_iff in Hs as [H Hs].
    apply andb_true_iff in H as [_ Hc].
    cbn [Js.take_while]. rewrite Hc. now rewrite (IH Hs).
Qed.

Lemma match_background_here s g :
  background_here s = Some g -> match_background s = Some g.
Proof. intros H. destruct s; cbn [match_background]; now rewrite H. Qed.

Lemma category_of_colour ws colour tail :
  StrFacts.all_ws ws = true ->
  colour_chars colour = true -> colour <> EmptyString ->
  ends_value tail ->
  categoryOfStyle (Some ("background:" ++ ws ++ colour ++ tail)%string)
  = Some (nullish (COLOR_MAPPINGS (Js.toUpperCase colour)) OTHER).
Proof.
  intros Hws Hc Hne Ht. unfold categoryOfStyle.
  change (Js.attr_or (Some ("background:" ++ ws ++ colour ++ tail)%string) EmptyString)
    with ("background:" ++ ws ++ colour ++ tail)%string.
  assert (E : match_background ("background:" ++ ws ++ colour ++ tail)%string
              = Some colour).
  { apply match_background_here. unfold background_here.
    assert (P : prefix "background:" ("background:" ++ ws ++ colour ++ tail)%string
                = true)
      by (apply StrFacts.prefix_iff; eexists; reflexivity).
    rewrite P.
    change (Js.drop 11 ("background:" ++ ws ++ colour ++ tail)%string)
      with (ws ++ colour ++ tail)%string.
    cbv zeta. rewrite StrFacts.skip_ws_all_ws by assumption.
    rewrite skip_ws_colour by assumption.
    rewrite take_colour by assumption.
    destruct colour; [congruence|reflexivity]. }
  rewrite E. unfold Js.trim.
  pose proof (skip_ws_colour colour EmptyString Hc Hne) as S.
  rewrite StrFacts.append_nil_r in S. rewrite S.
  now rewrite trimEnd_colour.
Qed.

(** X18.  For a style that starts with [background:], white space or
    none, and a colour value of ASCII characters that ends with the style
    or at a semicolon,
    the category the colour-icon handler sets is the one of
    [COLOR_MAPPINGS] for the value in upper case, and [OTHER] when the
    table does not have it; so the case of the letters of the value is of
    no account.  A style attribute that is missing or empty sets no
    category. *)
Theorem colour_icon_category :
  forall (ws colour tail : string),
    StrFacts.all_ws ws = true ->
    Js.is_ascii colour = true ->
    colour_chars colour = true -> colour <> EmptyString ->
    ends_value tail ->
    categoryOfStyle (Some ("background:" ++ ws ++ colour ++ tail)%string)
    = Some (nullish (COLOR_MAPPINGS (Js.toUpperCase colour)) OTHER)
    /\ categoryOfStyle (Some ("background:" ++ ws ++ Js.toLowerCase colour ++ tail)%string)
       = categoryOfStyle (Some ("background:" ++ ws ++ colour ++ tail)%string)
    /\ (COLOR_MAPPINGS (Js.toUpperCase colour) = None ->
        categoryOfStyle (Some ("background:" ++ ws ++ colour ++ tail)%string)
        = Some OTHER)
    /\ categoryOfStyle None = None
    /\ categoryOfStyle (Some EmptyString) = None.
Proof.
  intros ws colour tail Hws _ Hc Hne Ht.
  pose proof (category_of_colour ws colour tail Hws Hc Hne Ht) as E.
  split; [exact E|]. split; [|split; [|split; reflexivity]].
  - rewrite E, category_of_colour; try assumption.
    + now rewrite toUpperCase_toLowerCase.
    + now rewrite colour_chars_lower.
    + destruct colour; [congruence|discriminate].
  - intros N. now rewrite E, N.
Qed.

Lemma colour_icon_category_witness :
  categoryOfStyle (Some ("background:" ++ " " ++ "#52b73e" ++ "; width: 8px")%string)
  = Some (nullish (COLOR_MAPPINGS (Js.toUpperCase "#52b73e")) OTHER).
Proof.
  assert (Hws : StrFacts.all_ws " " = true) by reflexivity.
  assert (Ha : Js.is_ascii "#52b73e" = true) by reflexivity.
  assert (Hc : colour_chars "#52b73e" = true) by reflexivity.
  assert (Hne : "#52b73e" <> EmptyString) by discriminate.
  assert (Ht : ends_value "; width: 8px") by (right; eexists; reflexivity).
  exact (proj1 (colour_icon_category " " "#52b73e" "; width: 8px" Hws Ha Hc Hne Ht)).
Defined.

(** *** The items of a daily menu by category *)

Definition categoryNumber (c : FoodCategory) : Z :=
  match c with
  | MAIN_ENTREE => 0
  | VEGETARIAN_ENTREE => 1
  | ELEMENTARY_SECONDARY_SECOND_CHOICE => 2
  | ELEMENTARY_SECONDARY_SIDE_DISH => 3
  | AFTERSCHOOL_SNACK => 4
  | PRESCHOOL_SNACK => 5
  | SAC_SNACK => 6
  | OTHER => 7
  end.

Lemma FoodCategory_eqb_number a b :
  FoodCategory_eqb a b = (categoryNumber a =? categoryNumber b).
Proof. destruct a, b; reflexivity. Qed.

Definition categories : list FoodCategory :=
  [MAIN_ENTREE; VEGETARIAN_ENTREE; ELEMENTARY_SECONDARY_SECOND_CHOICE;
   ELEMENTARY_SECONDARY_SIDE_DISH; AFTERSCHOOL_SNACK; PRESCHOOL_SNACK;
   SAC_SNACK; OTHER].

(** X19.  [getItemsByCategory] returns the items of the daily menu of
    that category, in their order, and the lists of the eight categories
    together hold every item once.  An item added with [addMenuItem] goes
    last: it is appended to the list of its own category and to the
    vegetarian and vegan lists its flags put it in, and the other lists,
    the date and the meal type stay as they were. *)
Theorem items_by_category :
  forall (m : DailyMenu) (item : MenuItem) (c : FoodCategory),
    (forall it, In it (getItemsByCategory c m)
                <-> In it (menuItems m) /\ category it = c)
    /\ Permutation (flat_map (fun c' => getItemsByCategory c' m) categories)
                   (menuItems m)
    /\ getItemsByCategory c (addMenuItem item m)
       = getItemsByCategory c m
         ++ (if FoodCategory_eqb (category item) c then [item] else [])
    /\ getVegetarianItems (addMenuItem item m)
       = getVegetarianItems m ++ (if isVegetarian item then [item] else [])
    /\ getVeganItems (addMenuItem item m)
       = getVeganItems m ++ (if isVegan item then [item] else [])
    /\ date (addMenuItem item m) = date m
    /\ mealType (addMenuItem item m) = mealType m.
Proof.
  intros m item c. split; [|split].
  - intros it. unfold getItemsByCategory.
    rewrite filter_In, FoodCategory_eqb_eq. reflexivity.
  - pose proof (keyed_partition_perm (fun it => categoryNumber (category it))
                  (map categoryNumber categories)) as K.
    assert (Hnd : NoDup (map categoryNumber categories)).
    { cbn. repeat (constructor; [cbn [In]; lia|]). constructor. }
    specialize (K Hnd (menuItems m)).
    rewrite flat_map_concat_map, map_map, <- flat_map_concat_map in K.
    assert (E : flat_map (fun c' => getItemsByCategory c' m) categories
                = flat_map (fun c' =>
                              filter (fun it => categoryNumber (category it)
                                                =? categoryNumber c')
                                     (menuItems m))
                           categories).
    { apply flat_map_same_on. intros c' _. unfold getItemsByCategory.
      apply filter_ext. intros it. apply FoodCategory_eqb_number. }
    rewrite E. apply K.
    intros it _. destruct (category it); cbn; tauto.
  - unfold getItemsByCategory, getVegetarianItems, getVeganItems, addMenuItem.
    cbn [menuItems date mealType]. rewrite !filter_app. cbn [filter].
    repeat split.
Qed.

(** *** Where the items come from *)

Definition pizzaThenAnnouncement : list Event :=
  fridayOnly
  ++ Info :: [ColorIcon (Some "background:#BC0945")]
  ++ EventTitle (Some "No School") :: [].

Lemma admin_item_leaves_no_trace_witness :
  Inline.parseCalendarFragment pizzaThenAnnouncement LUNCH
  = Inline.parseCalendarFragment (fridayOnly ++ []) LUNCH.
Proof.
  assert (Hc : forallb InlineFacts.is_color [ColorIcon (Some "background:#BC0945")] = true)
    by reflexivity.
  assert (Ha : Inline.isAdminAnnouncement
                 (decodeEntities (Js.trim (Js.attr_or (Some "No School") EmptyString)))
               = true)
    by reflexivity.
  assert (Hp : InlineFacts.at_item_boundary []) by exact I.
  exact (InlineFacts.admin_item_leaves_no_trace fridayOnly
           [ColorIcon (Some "background:#BC0945")] (Some "No School") [] LUNCH
           Hc Ha Hp).
Defined.

Lemma output_items_from_plain_titles_witness :
  InlineItems.titled_by fridayOnly
    (name (plainItem "Cheese Pizza")) (description (plainItem "Cheese Pizza")).
Proof.
  assert (Hdm : In (DailyMenu_on (Cal.newDate 2025 0 3) LUNCH [plainItem "Cheese Pizza"])
                   (Inline.parseCalendarFragment fridayOnly LUNCH))
    by (vm_compute; left; reflexivity).
  assert (Hitem : In (plainItem "Cheese Pizza")
                     (menuItems (DailyMenu_on (Cal.newDate 2025 0 3) LUNCH
                                              [plainItem "Cheese Pizza"])))
    by (left; reflexivity).
  exact (InlineItems.output_items_from_plain_titles fridayOnly LUNCH _ _ Hdm Hitem).
Defined.

Module StatefulItems.
Import Stateful.

Section Origin.

(** [P name description]: the name and description were set by a title of
    the stream that the [ScraperState] test does not take for an
    administrative announcement. *)
Variable P : string -> option string -> Prop.

Definition named (it : MenuItemData) : Prop := P (d_name it) (d_description it).

Definition pending_ok (item : option MenuItemData) : Prop :=
  forall it, item = Some it ->
             built_by_handlers it /\ (d_name it = EmptyString \/ named it).

Definition items_in (st : ScraperState) : Prop :=
  pending_ok (currentMenuItem st)
  /\ (forall box, currentDayBox st = Some box -> Forall named (box_menuItems box))
  /\ Forall (fun dm => Forall (fun item => P (name item) (description item))
                              (menuItems dm))
            (completedDays st).

Lemma completePreviousDayBox_items st : items_in st -> items_in (completePreviousDayBox st).
Proof.
  destruct st as [box item done mt]. intros (Hi & Hb & Hc).
  cbn [currentMenuItem currentDayBox completedDays] in *.
  unfold completePreviousDayBox. cbn [currentMenuItem currentDayBox completedDays].
  destruct box as [box|]; [|exact (conj Hi (conj Hb Hc))].
  destruct (box_date box) as [d|]; [|exact (conj Hi (conj Hb Hc))].
  destruct (0 <? _); [|exact (conj Hi (conj Hb Hc))].
  split; [exact Hi|]. split; [exact Hb|]. cbn [completedDays].
  apply Forall_app. split; [exact Hc|]. constructor; [|constructor].
  cbn [menuItems DailyMenu_on]. apply Forall_map.
  eapply Forall_impl; [|exact (Hb box eq_refl)].
  intros it H. exact H.
Qed.

Lemma completePreviousMenuItem_items st :
  items_in st -> items_in (completePreviousMenuItem st).
Proof.
  destruct st as [box item done mt]. intros (Hi & Hb & Hc).
  cbn [currentMenuItem currentDayBox completedDays] in *.
  unfold completePreviousMenuItem. cbn [currentMenuItem currentDayBox completedDays].
  destruct item as [it|]; [|exact (conj Hi (conj Hb Hc))].
  destruct box as [box|]; [|exact (conj Hi (conj Hb Hc))].
  destruct (Js.truthy (d_name it)) eqn:N; [|exact (conj Hi (conj Hb Hc))].
  split; [exact Hi|]. split; [|exact Hc].
  cbn [currentDayBox]. intros b' [= <-]. cbn [box_menuItems].
  apply Forall_app. split; [now apply Hb|]. constructor; [|constructor].
  apply truthy_nonempty in N.
  destruct (Hi it eq_refl) as [(_ & _ & _ & _ & de & D & Hde) [E|Hn]];
    [congruence|].
  unfold named in *. cbn [d_name d_description]. rewrite D in *.
  cbn [nullish]. unfold Js.or_else.
  destruct (Js.truthy de) eqn:T; [exact Hn|].
  exfalso. apply (Hde N). now destruct de.
Qed.

Lemma state_handle_items st e :
  items_in st ->
  (forall title, e = EventTitle title ->
     let t := decodeEntities (Js.trim (Js.attr_or title EmptyString)) in
     isAdminAnnouncement t = false ->
     P (fst (parseMenuItemText t)) (Some (snd (parseMenuItemText t)))) ->
  items_in (handle st e).
Proof.
  intros Hst He.
  destruct e as [cls|dd mm yy| |style|title]; cbn [handle].
  - unfold onDaybox. destruct (Js.includes _ _); [exact Hst|].
    unfold startDayBox. apply completePreviousDayBox_items in Hst.
    destruct Hst as (Hi & Hb & Hc).
    split; [exact Hi|]. split; [|exact Hc].
    cbn [currentDayBox]. intros b' [= <-]. constructor.
  - unfold onDate. destruct (dateOfAttributes dd mm yy); [|exact Hst].
    destruct st as [box item done mt]. destruct Hst as (Hi & Hb & Hc).
    cbn [currentMenuItem currentDayBox completedDays] in *.
    unfold setDateInfo. cbn [currentDayBox].
    destruct box as [box|]; [|exact (conj Hi (conj Hb Hc))].
    split; [exact Hi|]. split; [|exact Hc].
    cbn [currentDayBox]. intros b' [= <-]. cbn [box_menuItems]. now apply Hb.
  - unfold startMenuItem. apply completePreviousMenuItem_items in Hst.
    destruct Hst as (Hi & Hb & Hc).
    split; [|split; [exact Hb|exact Hc]].
    cbn [currentMenuItem]. intros it [= <-]. split; [apply built_empty|now left].
  - unfold onColorIcon. destruct (categoryOfStyle style) as [c|]; [|exact Hst].
    destruct st as [box item done mt]. destruct Hst as (Hi & Hb & Hc).
    cbn [currentMenuItem currentDayBox completedDays] in *.
    unfold setMenuItemCategory. cbn [currentMenuItem].
    destruct item as [it|]; [|exact (conj Hi (conj Hb Hc))].
    split; [|split; [exact Hb|exact Hc]]. cbn [currentMenuItem].
    intros it' [= <-]. exact (Hi it eq_refl).
  - unfold onEventTitle. destruct (Js.truthy _); [|exact Hst].
    destruct st as [box item done mt]. destruct Hst as (Hi & Hb & Hc).
    cbn [currentMenuItem currentDayBox completedDays] in *.
    unfold setMenuItemTitle. cbn [currentMenuItem].
    destruct item as [it|]; [|exact (conj Hi (conj Hb Hc))].
    destruct (isAdminAnnouncement _) eqn:A.
    + split; [|split; [exact Hb|exact Hc]]. intros it'. discriminate.
    + split; [|split; [exact Hb|exact Hc]]. cbn [currentMenuItem].
      intros it' [= <-]. split.
      * apply built_title. exact (proj1 (Hi it eq_refl)).
      * right. unfold named. cbn. now apply (He title).
Qed.

End Origin.

(** The title [title] of the stream, which the [ScraperState] test does not
    take for an administrative announcement, gave the name [n] and the
    description [de]. *)
Definition titled_by (evs : list Event) (n : string) (de : option string) : Prop :=
  exists title,
    In (EventTitle title) evs
    /\ (let t := decodeEntities (Js.trim (Js.attr_or title EmptyString)) in
        isAdminAnnouncement t = false
        /\ n = fst (parseMenuItemText t)
        /\ de = Some (snd (parseMenuItemText t))).

Lemma state_run_items P evs :
  forall st,
    items_in P st ->
    (forall title, In (EventTitle title) evs ->
       let t := decodeEntities (Js.trim (Js.attr_or title EmptyString)) in
       isAdminAnnouncement t = false ->
       P (fst (parseMenuItemText t)) (Some (snd (parseMenuItemText t)))) ->
    items_in P (fold_left handle evs st).
Proof.
  induction evs as [|e evs IH]; intros st Hst He; cbn [fold_left]; [exact Hst|].
  apply IH.
  - apply state_handle_items; [exact Hst|].
    intros title ->. apply He. now left.
  - intros title Hin. apply He. now right.
Qed.

(** X22.  In the [ScraperState] parser every item of every daily menu of the
    output has the name and description that the normalizer gives to a
    title of the stream that its test does not take for an administrative
    announcement. *)
Lemma state_output_items_from_plain_titles evs mt dm item :
  In dm (parseCalendarFragment evs mt) -> In item (menuItems dm) ->
  titled_by evs (name item) (description item).
Proof.
  intros Hdm Hitem.
  assert (H : items_in (titled_by evs) (fold_left handle evs (new mt))).
  { apply state_run_items.
    - split; [intros it; discriminate|]. split; [discriminate|constructor].
    - intros title Hin t Ha. exists title. now repeat split. }
  apply completePreviousMenuItem_items in H.
  assert (H' : items_in (titled_by evs) (endMenuItem (fold_left handle evs (new mt)))).
  { unfold endMenuItem. destruct H as (Hi & Hb & Hc).
    split; [intros it; discriminate|]. split; [exact Hb|exact Hc]. }
  apply completePreviousDayBox_items in H'.
  destruct H' as (_ & _ & Hc).
  unfold parseCalendarFragment, getCompletedDays, endDayBox in Hdm.
  cbn [completedDays] in Hdm.
  rewrite Forall_forall in Hc. specialize (Hc dm Hdm).
  rewrite Forall_forall in Hc. exact (Hc item Hitem).
Qed.

End StatefulItems.

Lemma state_output_items_from_plain_titles_witness :
  StatefulItems.titled_by fridayOnly
    (name (plainItem "Cheese Pizza")) (description (plainItem "Cheese Pizza")).
Proof.
  assert (Hdm : In (DailyMenu_on (Cal.newDate 2025 0 3) LUNCH [plainItem "Cheese Pizza"])
                   (Stateful.parseCalendarFragment fridayOnly LUNCH))
    by (vm_compute; left; reflexivity).
  assert (Hitem : In (plainItem "Cheese Pizza")
                     (menuItems (DailyMenu_on (Cal.newDate 2025 0 3) LUNCH
                                              [plainItem "Cheese Pizza"])))
    by (left; reflexivity).
  exact (StatefulItems.state_output_items_from_plain_titles fridayOnly LUNCH _ _
           Hdm Hitem).
Defined.

(** X23.  For the [ScraperState] parser a day-box element with the
    weekend marker is as if it were not in the response: the output is the
    one for the events without it, so the elements that follow it go to the
    day box that was open before it. *)
Theorem state_parser_skips_weekend_element :
  forall (pre post : list Event) (class : option string) (mt : MealType),
    Js.includes "fsCalendarWeekendDayBox" (Js.attr_or class EmptyString) = true ->
    Stateful.parseCalendarFragment (pre ++ Daybox class :: post) mt
    = Stateful.parseCalendarFragment (pre ++ post) mt.
Proof.
  intros pre post class mt H. unfold Stateful.parseCalendarFragment.
  rewrite !fold_left_app. cbn [fold_left].
  now rewrite state_parser_ignores_weekend_marker.
Qed.

Lemma state_parser_skips_weekend_element_witness :
  Stateful.parseCalendarFragment
    (fridayOnly
     ++ Daybox (Some "fsCalendarDaybox fsCalendarWeekendDayBox fsStateHasEvents")
        :: [Info; EventTitle (Some "Weekend Brunch")]) LUNCH
  = Stateful.parseCalendarFragment
      (fridayOnly ++ [Info; EventTitle (Some "Weekend Brunch")]) LUNCH.
Proof.
  assert (H : Js.includes "fsCalendarWeekendDayBox"
                (Js.attr_or
                   (Some "fsCalendarDaybox fsCalendarWeekendDayBox fsStateHasEvents")
                   EmptyString) = true)
    by reflexivity.
  exact (state_parser_skips_weekend_element fridayOnly
           [Info; EventTitle (Some "Weekend Brunch")] _ LUNCH H).
Defined.

(** *** What a date resolves to in a month of week buckets *)

Lemma bucket_members l w m :
  In w (groupDailyMenusByWeek l) ->
  (In m (dailyMenus w) <-> In m l /\ Cal.startOfWeek (date m) = startDate w).
Proof.
  intros Hw. pose proof (group_ok l) as Hok. rewrite Forall_forall in Hok. split.
  - intros Hm. split; [exact (group_member l w m Hw Hm)|].
    destruct (Hok w Hw) as (_ & _ & _ & Hall).
    rewrite Forall_forall in Hall. now apply Hall.
  - intros [Hm Hs].
    apply (Permutation_in m (Permutation_sym (sortByTime_perm l))) in Hm.
    rewrite <- group_flat in Hm. apply in_flat_map in Hm as (wm & Hwm & Hmw).
    destruct (Hok wm Hwm) as (_ & _ & _ & Hall).
    rewrite Forall_forall in Hall. specialize (Hall m Hmw). cbn beta in Hall.
    assert (E : wm = w).
    { apply (same_start_same_week (groupDailyMenusByWeek l));
        [apply group_ascending|assumption|assumption|congruence]. }
    now subst wm.
Qed.

Lemma sorted_after {A : Type} (R : A -> A -> Prop) (before after : list A) (x : A) :
  StronglySorted R (before ++ x :: after) -> Forall (R x) after.
Proof.
  induction before as [|y before IH]; cbn [app]; intros H.
  - now apply StronglySorted_inv in H as [_ Hx].
  - apply StronglySorted_inv in H as [Hs _]. now apply IH.
Qed.

Lemma on_or_after_monday s d :
  Cal.getDay s = 1 -> (s <= Cal.startOfWeek d <-> s <= d).
Proof.
  intros Hs. pose proof (WeekFacts.startOfWeek_bounds d) as B. split; [lia|].
  intros H. apply WeekFacts.startOfWeek_mono in H.
  now rewrite (WeekFacts.startOfWeek_of_monday s Hs) in H.
Qed.

(** X24.  Let the weekly menus of a monthly menu be those the week
    bucketer makes of the daily menus [l].  From Monday to Friday,
    [getWeeklyMenuForDate] returns [null] exactly when [l] has no daily
    menu in the week of the date, and otherwise the weekly menu that starts
    on the Monday of that week and holds exactly the daily menus of [l] of
    that week.  On a Saturday or Sunday it returns [null] exactly when [l]
    has no daily menu on or after the next Monday, and otherwise the weekly
    menu of the earliest week from that Monday on that has one.  Dates are
    those of the four-digit range. *)
Theorem resolution_in_bucketed_month :
  forall (l : list DailyMenu) (mm : MonthlyMenu) (now : Cal.Date),
    weeklyMenus mm = groupDailyMenusByWeek l ->
    dates_in_range l ->
    Cal.date_ok now -> Cal.date_ok (Cal.addDays now 2) ->
    (MONDAY <= Cal.getDay now <= FRIDAY ->
     (getWeeklyMenuForDate mm now = None
      <-> forall m, In m l -> Cal.startOfWeek (date m) <> Cal.startOfWeek now)
     /\ (forall w, getWeeklyMenuForDate mm now = Some w ->
           startDate w = Cal.startOfWeek now
           /\ forall m, In m (dailyMenus w)
                        <-> In m l /\ Cal.startOfWeek (date m) = Cal.startOfWeek now))
    /\ (Cal.getDay now = SATURDAY \/ Cal.getDay now = SUNDAY ->
        let nextMonday := Cal.startOfWeek now + 7 in
        (getWeeklyMenuForDate mm now = None
         <-> forall m, In m l -> date m < nextMonday)
        /\ (forall w, getWeeklyMenuForDate mm now = Some w ->
              nextMonday <= startDate w
              /\ (forall m, In m l -> nextMonday <= date m -> startDate w <= date m)
              /\ forall m, In m (dailyMenus w)
                           <-> In m l /\ Cal.startOfWeek (date m) = startDate w)).
Proof.
  intros l mm now Hws Hl Hnow Hnow2.
  pose proof (group_ranges_ok l Hl) as Hr. rewrite <- Hws in Hr.
  pose proof (group_ok l) as Hok. rewrite Forall_forall in Hok.
  pose proof (group_ascending l) as Hasc.
  assert (Hbucket : forall m, In m l ->
            exists wm, In wm (groupDailyMenusByWeek l) /\ In m (dailyMenus wm)
                       /\ startDate wm = Cal.startOfWeek (date m)
                       /\ endDate wm = startDate wm + 6).
  { intros m Hm.
    apply (Permutation_in m (Permutation_sym (sortByTime_perm l))) in Hm.
    rewrite <- group_flat in Hm. apply in_flat_map in Hm as (wm & Hwm & Hmw).
    exists wm. destruct (Hok wm Hwm) as (_ & _ & Hend & Hall).
    rewrite Forall_forall in Hall. specialize (Hall m Hmw). cbn beta in Hall.
    repeat split; [assumption|assumption|congruence|assumption]. }
  unfold MONDAY, FRIDAY, SATURDAY, SUNDAY. split.
  - intros Hday. rewrite weekday_resolution by assumption. rewrite Hws.
    assert (Hfound : forall w,
               find (fun w => (startDate w <=? now) && (now <=? endDate w))
                    (groupDailyMenusByWeek l) = Some w ->
               In w (groupDailyMenusByWeek l) /\ startDate w = Cal.startOfWeek now).
    { intros w F. apply find_some in F as [Hw Hp].
      apply andb_true_iff in Hp as [H1 H2]. apply Z.leb_le in H1, H2.
      destruct (Hok w Hw) as (_ & Hmon & Hend & _).
      split; [exact Hw|]. symmetry. apply WeekFacts.in_week_iff; [exact Hmon|]. lia. }
    split.
    + split.
      * intros Hn m Hm E. destruct (Hbucket m Hm) as (wm & Hwm & _ & Hs & He).
        pose proof (find_none _ _ Hn wm Hwm) as Hp. cbn beta in Hp.
        pose proof (WeekFacts.startOfWeek_bounds now) as B.
        apply andb_false_iff in Hp as [Hp|Hp]; apply Z.leb_gt in Hp; lia.
      * intros Hall.
        destruct (find _ (groupDailyMenusByWeek l)) as [w|] eqn:F; [|reflexivity].
        destruct (Hfound w eq_refl) as [Hw Hs].
        destruct (Hok w Hw) as (Hne & _ & _ & Hmem).
        destruct (dailyMenus w) as [|m ms] eqn:E; [congruence|].
        apply Forall_inv in Hmem. cbn beta in Hmem.
        exfalso. apply (Hall m); [|congruence].
        apply (group_member l w m Hw). rewrite E. now left.
    + intros w F. destruct (Hfound w F) as [Hw Hs]. split; [exact Hs|].
      intros m. rewrite (bucket_members l w m Hw). now rewrite Hs.
  - intros Hday. cbv zeta.
    rewrite weekend_resolution by (try assumption; tauto). rewrite Hws.
    assert (Hmon : Cal.getDay (Cal.startOfWeek now + 7) = 1).
    { pose proof (WeekFacts.startOfWeek_monday now) as M.
      unfold Cal.getDay in *. lia. }
    split.
    + split.
      * intros Hn m Hm. destruct (Hbucket m Hm) as (wm & Hwm & _ & Hs & _).
        pose proof (find_none _ _ Hn wm Hwm) as Hp. cbn beta in Hp.
        apply Z.leb_gt in Hp. rewrite Hs in Hp.
        destruct (Z.lt_ge_cases (date m) (Cal.startOfWeek now + 7)) as [L|G];
          [exact L|].
        apply (on_or_after_monday _ _ Hmon) in G. lia.
      * intros Hall.
        destruct (find _ (groupDailyMenusByWeek l)) as [w|] eqn:F; [|reflexivity].
        apply find_some in F as [Hw Hp]. apply Z.leb_le in Hp.
        destruct (Hok w Hw) as (Hne & _ & _ & Hmem).
        destruct (dailyMenus w) as [|m ms] eqn:E; [congruence|].
        apply Forall_inv in Hmem. cbn beta in Hmem.
        assert (Hm : In m l) by (apply (group_member l w m Hw); rewrite E; now left).
        specialize (Hall m Hm).
        pose proof (WeekFacts.startOfWeek_bounds (date m)) as B. lia.
    + intros w F. destruct (find_split _ _ _ F) as (before & after & Ews & Hb & Hp).
      apply Z.leb_le in Hp.
      assert (Hw : In w (groupDailyMenusByWeek l))
        by (rewrite Ews; apply in_or_app; right; now left).
      split; [exact Hp|]. split; [|intros m; apply (bucket_members l w m Hw)].
      intros m Hm Hge. destruct (Hbucket m Hm) as (wm & Hwm & _ & Hs & _).
      apply (on_or_after_monday _ _ Hmon) in Hge.
      pose proof (WeekFacts.startOfWeek_bounds (date m)) as B.
      rewrite Ews in Hwm, Hasc.
      apply in_app_or in Hwm as [Hin|[<-|Hin]].
      * rewrite Forall_forall in Hb. specialize (Hb wm Hin). cbn beta in Hb.
        apply Z.leb_gt in Hb. lia.
      * lia.
      * apply sorted_after in Hasc. rewrite Forall_forall in Hasc.
        specialize (Hasc wm Hin). unfold week_before in Hasc. lia.
Qed.

Lemma resolution_in_bucketed_month_witness :
  startDate firstSchoolWeek = Cal.startOfWeek (Cal.newDate 2025 0 8)
  /\ forall m, In m (dailyMenus firstSchoolWeek)
               <-> In m [mondayPizza; tuesdayTacos]
                   /\ Cal.startOfWeek (date m) = Cal.startOfWeek (Cal.newDate 2025 0 8).
Proof.
  assert (Hws : weeklyMenus januaryLunches
                = groupDailyMenusByWeek [mondayPizza; tuesdayTacos])
    by (vm_compute; reflexivity).
  assert (Hnow : Cal.date_ok (Cal.newDate 2025 0 8))
    by (apply date_ok_by_computation; vm_compute; reflexivity).
  assert (Hnow2 : Cal.date_ok (Cal.addDays (Cal.newDate 2025 0 8) 2))
    by (apply date_ok_by_computation; vm_compute; reflexivity).
  assert (Hday : MONDAY <= Cal.getDay (Cal.newDate 2025 0 8) <= FRIDAY)
    by (vm_compute; split; discriminate).
  assert (Hres : getWeeklyMenuForDate januaryLunches (Cal.newDate 2025 0 8)
                 = Some firstSchoolWeek)
    by (vm_compute; reflexivity).
  exact (proj2 (proj1 (resolution_in_bucketed_month [mondayPizza; tuesdayTacos]
                         januaryLunches (Cal.newDate 2025 0 8)
                         Hws januaryLunches_in_range Hnow Hnow2) Hday)
               firstSchoolWeek Hres).
Defined.
